(** * Document structuring and similarity retrieval: a shallow embedding

    The development follows [backend/pdf_processor.py] and
    [backend/similarity_analyzer.py].

    Conventions of the embedding.
    - Python [int] is [Z]; Python [float] is [Q] with exact arithmetic: the
      comparisons, maxima and quotients of the source are taken on the
      rational values, rounding of binary floating point is not modelled,
      and [nan]/[inf] do not occur.
    - Python [str] is [string]; characters are ASCII: [lower], [isupper]
      and the whitespace class are the ASCII parts of Python's tables.
    - A Python exception is a [Raise] result; [print] calls are dropped.
    - Dictionaries with a fixed set of keys are records, one module per
      record so that the keys keep their names. *)

From Stdlib Require Import ZArith QArith Qround List String Ascii Bool Lia Sorted Permutation.
Import ListNotations.

Local Open Scope string_scope.
Local Open Scope Z_scope.
Local Open Scope list_scope.

(** ** Python builtins used by the two modules *)

Module Py.

Inductive exn : Type :=
| IndexError
| KeyError
| ValueError
| ZeroDivisionError
| AttributeError (msg : string)
| External (msg : string)
| Exception (msg : string).

Inductive result (A : Type) : Type :=
| Ok (a : A)
| Raise (e : exn).

Arguments Ok {A} a.
Arguments Raise {A} e.

Definition bind {A B : Type} (c : result A) (k : A -> result B) : result B :=
  match c with
  | Ok a => k a
  | Raise e => Raise e
  end.

(** [try: c except Exception: h] *)
Definition try_except {A : Type} (c : result A) (h : exn -> A) : A :=
  match c with
  | Ok a => a
  | Raise e => h e
  end.

Fixpoint mapM {A B : Type} (f : A -> result B) (l : list A) : result (list B) :=
  match l with
  | [] => Ok []
  | x :: l' =>
      bind (f x) (fun y => bind (mapM f l') (fun ys => Ok (y :: ys)))
  end.

(** *** Floats *)

Definition Qltb (x y : Q) : bool := negb (Qle_bool y x).

(** [a / b] on floats raises on a zero divisor. *)
Definition truediv (a b : Q) : result Q :=
  if Qeq_bool b 0 then Raise ZeroDivisionError else Ok (a / b)%Q.

(** [round(x)] to an integer, ties to even. *)
Definition round_half_even (x : Q) : Z :=
  let f := Qfloor x in
  let r := (x - inject_Z f)%Q in
  if Qltb r (1 # 2) then f
  else if Qltb (1 # 2) r then f + 1
  else if Z.even f then f else f + 1.

(** [round(x, ndigits)] for [ndigits >= 0]. *)
Definition round (x : Q) (ndigits : Z) : Q :=
  let p := inject_Z (10 ^ ndigits) in
  (inject_Z (round_half_even (x * p)) / p)%Q.

(** [max(l) if l else default]: the first maximal element. *)
Definition max_or (default : Q) (l : list Q) : Q :=
  match l with
  | [] => default
  | x :: l' => fold_left (fun m y => if Qltb m y then y else m) l' x
  end.

(** [len(set(l))] on floats. *)
Fixpoint set_size (l : list Q) : Z :=
  match l with
  | [] => 0
  | x :: l' =>
      if existsb (Qeq_bool x) l' then set_size l' else 1 + set_size l'
  end.

(** *** Strings *)

Definition is_space (c : ascii) : bool :=
  let n := nat_of_ascii c in
  ((9 <=? n) && (n <=? 13) || (28 <=? n) && (n <=? 32))%nat.

Definition is_upper (c : ascii) : bool :=
  let n := nat_of_ascii c in ((65 <=? n) && (n <=? 90))%nat.

Definition lower_char (c : ascii) : ascii :=
  if is_upper c then ascii_of_nat (nat_of_ascii c + 32) else c.

Fixpoint lower (s : string) : string :=
  match s with
  | EmptyString => EmptyString
  | String c s' => String (lower_char c) (lower s')
  end.

Fixpoint lstrip (s : string) : string :=
  match s with
  | EmptyString => EmptyString
  | String c s' => if is_space c then lstrip s' else s
  end.

Fixpoint rstrip (s : string) : string :=
  match s with
  | EmptyString => EmptyString
  | String c s' =>
      match rstrip s' with
      | EmptyString => if is_space c then EmptyString else String c EmptyString
      | r => String c r
      end
  end.

Definition strip (s : string) : string := lstrip (rstrip s).

(** Truth value of a [str]. *)
Definition truthy (s : string) : bool :=
  match s with
  | EmptyString => false
  | String _ _ => true
  end.

Definition startswith (s p : string) : bool := String.prefix p s.

Fixpoint endswith_char (s : string) (c : ascii) : bool :=
  match s with
  | EmptyString => false
  | String d EmptyString => Ascii.eqb d c
  | String _ s' => endswith_char s' c
  end.

(** [needle in hay] *)
Fixpoint contains (needle hay : string) : bool :=
  if String.prefix needle hay then true
  else match hay with
       | EmptyString => false
       | String _ hay' => contains needle hay'
       end.

(** [s.split()]: maximal runs of non-whitespace characters.  [cur] is the
    run being read. *)
Fixpoint split_from (s cur : string) : list string :=
  match s with
  | EmptyString => if truthy cur then [cur] else []
  | String c s' =>
      if is_space c
      then (if truthy cur then cur :: split_from s' EmptyString
            else split_from s' EmptyString)
      else split_from s' (cur ++ String c EmptyString)%string
  end.

Definition split (s : string) : list string := split_from s EmptyString.

(** [sep.join(parts)] *)
Fixpoint join (sep : string) (parts : list string) : string :=
  match parts with
  | [] => EmptyString
  | [p] => p
  | p :: ps => (p ++ sep ++ join sep ps)%string
  end.

(** [s[-1]] of a non-empty string *)
Fixpoint last_char (s : string) : option ascii :=
  match s with
  | EmptyString => None
  | String c EmptyString => Some c
  | String _ s' => last_char s'
  end.

(** [string.punctuation] *)
Definition punctuation : string :=
  String "033" (String "034" "#$%&'()*+,-./:;<=>?@[\]^_`{|}~").

Fixpoint char_in (c : ascii) (s : string) : bool :=
  match s with
  | EmptyString => false
  | String d s' => Ascii.eqb c d || char_in c s'
  end.

(** *** Sequences *)

(** [sorted(l, key=...)] is a stable sort that only asks [<] of the keys;
    [lt a b] is [key(a) < key(b)].  An element is placed in front of the
    first element that is not smaller than it, so elements with equal keys
    keep the order of [l]. *)
Fixpoint insert_sorted {A : Type} (lt : A -> A -> bool) (x : A) (l : list A)
  : list A :=
  match l with
  | [] => [x]
  | y :: l' => if lt y x then y :: insert_sorted lt x l' else x :: l
  end.

Fixpoint sorted {A : Type} (lt : A -> A -> bool) (l : list A) : list A :=
  match l with
  | [] => []
  | x :: l' => insert_sorted lt x (sorted lt l')
  end.

(** [sorted(l, key=..., reverse=True)]: every comparison is reversed, and
    the sort stays stable. *)
Definition sorted_reverse {A : Type} (lt : A -> A -> bool) (l : list A)
  : list A :=
  sorted (fun a b => lt b a) l.

(** [range(a, b)] *)
Definition range (a b : Z) : list Z :=
  map (fun i => a + Z.of_nat i) (seq 0 (Z.to_nat (b - a))).

(** [enumerate(l)] *)
Definition enumerate {A : Type} (l : list A) : list (Z * A) :=
  combine (map Z.of_nat (seq 0 (List.length l))) l.

End Py.

Notation "x <- c ;; k" := (Py.bind c (fun x => k))
  (at level 61, c at next level, right associativity).

(** ** The layout of a PDF as PyMuPDF reports it

    [page.get_text("dict")] gives the blocks of a page; a text block has
    [type = 0] and a list of lines, each a list of spans; an image block has
    no ["lines"] key, which is the empty list here. *)

Module Span.
Record t : Type := mk
  { text : string; size : Q; flags : Z; origin : Q * Q }.
End Span.

Module Line.
Record t : Type := mk { spans : list Span.t }.
End Line.

Module Block.
Record t : Type := mk
  { type : Z; lines : list Line.t; bbox : Q * Q * Q * Q }.
Definition x0 (b : t) : Q := let '(a, _, _, _) := bbox b in a.
Definition y0 (b : t) : Q := let '(_, a, _, _) := bbox b in a.
Definition y1 (b : t) : Q := let '(_, _, _, a) := bbox b in a.
End Block.

Module Page.
Record t : Type := mk
  { height : Q; width : Q; blocks : list Block.t }.
End Page.

Definition Document : Type := list Page.t.

(** ** Records of [pdf_processor.py] *)

(** [block_data] of [extract_features_from_pdf], as it is created. *)
Module BlockData.
Record t : Type := mk
  { text : string;
    font_size : Q;
    bbox : Q * Q * Q * Q;
    page_num : Z;
    page_height : Q;
    page_width : Q;
    max_font_size_page : Q;
    is_bold : bool;
    is_underlined : bool;
    block_index : Z }.
Definition x0 (b : t) : Q := let '(a, _, _, _) := bbox b in a.
Definition y0 (b : t) : Q := let '(_, a, _, _) := bbox b in a.
Definition y1 (b : t) : Q := let '(_, _, _, a) := bbox b in a.
End BlockData.

(** [block_data] once the spacing keys have been added. *)
Module TextBlock.
Record t : Type := mk
  { data : BlockData.t; space_above : Q; space_below : Q }.
End TextBlock.

(** One entry of [processed_data]. *)
Module Feature.
Record t : Type := mk
  { text : string;
    font_size_relative_to_max_pdf : Q;
    font_size_relative_to_max_page : Q;
    is_bold : bool;
    num_words : Z;
    punctuation : string;
    x_pos_relative : Q;
    y_pos_relative : Q;
    page_no : Z;
    title_case_ratio : Q;
    stopword_ratio : Q;
    space_above : Q;
    space_below : Q;
    is_underlined : bool }.
End Feature.

(** One entry of an outline. *)
Module Heading.
Record t : Type := mk { level : string; text : string; page : Z }.
End Heading.

(** What the two classifiers return. *)
Module Prediction.
Record t : Type := mk { title : string; outline : list Heading.t }.
End Prediction.

Module Section.
Record t : Type := mk
  { section_title : string;
    page_number : Z;
    level : string;
    content : string;
    embedding : list Q;
    section_text : string }.
End Section.

Module Metadata.
Record t : Type := mk
  { filename : string;
    processed_at : string;
    total_blocks : Z;
    total_sections : Z;
    model_used : string }.
End Metadata.

(** The record [process_pdf] returns and the caller persists. *)
Module DocumentIndex.
Record t : Type := mk
  { title : string;
    outline : list Heading.t;
    metadata : Metadata.t;
    sections : list Section.t;
    full_text : string;
    full_text_embedding : list Q }.
End DocumentIndex.

(** The fitted heading model: the data frame built from the features (one-hot
    encoding of the punctuation, alignment on the expected columns,
    imputation) and [heading_model.predict] on it are one fallible function
    of the expected columns and the features. *)
Module HeadingModel.
Record t : Type := mk
  { feature_names_ : option (list string);
    feature_names_in_ : option (list string);
    predict : list string -> list Feature.t -> Py.result (list Z) }.
End HeadingModel.

Module LabelEncoder.
Record t : Type := mk
  { inverse_transform : list Z -> Py.result (list string) }.
End LabelEncoder.

(** ** [class PDFProcessor] *)

Module PDFProcessor.

(** The attributes [__init__] sets.  [model] is the sentence encoder,
    [texts -> vectors], used on one text at a time. *)
Record t : Type := mk
  { stop_words : list string;
    model : string -> list Q;
    heading_model : option HeadingModel.t;
    label_encoder : option LabelEncoder.t;
    feature_names : option (list string) }.

(** *** [smart_join_lines] *)

Definition smart_join_step (joined : list string) (il : Z * string)
  : list string :=
  let '(i, line) := il in
  if i =? 0 then joined ++ [line]
  else if Py.endswith_char (last joined "") " "%char
          || Py.startswith line " "
       then joined ++ [line]
       else joined ++ [(" " ++ line)%string].

Definition smart_join_lines (lines : list string) : string :=
  let joined := fold_left smart_join_step (Py.enumerate lines) [] in
  Py.strip (Py.join "" joined).

(** *** [extract_features_from_pdf] *)

(** [l[0]] *)
Definition first {A : Type} (l : list A) : Py.result A :=
  match l with
  | [] => Py.Raise Py.IndexError
  | x :: _ => Py.Ok x
  end.

Definition page_font_sizes (blocks : list Block.t) : list Q :=
  flat_map
    (fun b =>
       if Block.type b =? 0
       then flat_map
              (fun line => map (fun span => Py.round (Span.size span) 2)
                             (Line.spans line))
              (Block.lines b)
       else [])
    blocks.

(** The table test: more than one line, and more than one distinct
    rounded start abscissa among the lines that have spans. *)
Definition is_table_block (b : Block.t) : bool :=
  if 1 <? Z.of_nat (List.length (Block.lines b)) then
    let x_coords :=
      flat_map
        (fun line =>
           match Line.spans line with
           | [] => []
           | span :: _ => [fst (Span.origin span)]
           end)
        (Block.lines b) in
    1 <? Py.set_size (map (fun x => Py.round x 1) x_coords)
  else false.

Definition text_line (line : Line.t) : string :=
  fold_left (fun acc span => (acc ++ Span.text span)%string)
    (Line.spans line) "".

Definition span_underlined (span : Span.t) : bool :=
  negb (Z.land (Span.flags span) 4 =? 0).

(** The loop over the lines of a block: the line texts kept and
    [underline_present]. *)
Definition scan_lines_step (st : list string * bool) (line : Line.t)
  : list string * bool :=
  let '(line_texts, underline_present) := st in
  let underline_present :=
    fold_left (fun u span => if span_underlined span then true else u)
      (Line.spans line) underline_present in
  if Py.truthy (Py.strip (text_line line))
  then (line_texts ++ [text_line line], underline_present)
  else (line_texts, underline_present).

Definition scan_lines (b : Block.t) : list string * bool :=
  fold_left scan_lines_step (Block.lines b) ([], false).

(** One iteration of the loop over the blocks of a page: [None] when the
    block is skipped by a [continue]. *)
Definition scan_block (page_num : Z) (page : Page.t)
    (max_font_size_page : Q) (ib : Z * Block.t)
  : Py.result (option BlockData.t) :=
  let '(b_idx, b) := ib in
  if negb (Block.type b =? 0) then Py.Ok None
  else if is_table_block b then Py.Ok None
  else
    let '(line_texts, underline_present) := scan_lines b in
    match line_texts with
    | [] => Py.Ok None
    | _ :: _ =>
        let combined_text := smart_join_lines line_texts in
        line0 <- first (Block.lines b) ;;
        first_span <- first (Line.spans line0) ;;
        let font_size := Py.round (Span.size first_span) 2 in
        let is_bold := negb (Z.land (Span.flags first_span) 16 =? 0) in
        Py.Ok (Some
          {| BlockData.text := combined_text;
             BlockData.font_size := font_size;
             BlockData.bbox := Block.bbox b;
             BlockData.page_num := page_num;
             BlockData.page_height := Page.height page;
             BlockData.page_width := Page.width page;
             BlockData.max_font_size_page := max_font_size_page;
             BlockData.is_bold := is_bold;
             BlockData.is_underlined := underline_present;
             BlockData.block_index := b_idx |})
    end.

Definition keep_some {A : Type} (l : list (option A)) : list A :=
  flat_map (fun o => match o with Some a => [a] | None => [] end) l.

(** The spacing pass over [page_blocks]: [prev] is [page_blocks[i-1]]
    when [i > 0]. *)
Fixpoint add_spacing (page_height : Q) (prev : option BlockData.t)
    (page_blocks : list BlockData.t) : list TextBlock.t :=
  match page_blocks with
  | [] => []
  | block :: rest =>
      let above :=
        (BlockData.y0 block
         - match prev with Some p => BlockData.y1 p | None => 0 end)%Q in
      let below :=
        (match rest with
         | nxt :: _ => BlockData.y0 nxt
         | [] => page_height
         end - BlockData.y1 block)%Q in
      {| TextBlock.data := block;
         TextBlock.space_above := above;
         TextBlock.space_below := below |}
      :: add_spacing page_height (Some block) rest
  end.

(** The body of the loop over the pages: the blocks one page adds to
    [all_text_blocks_raw]. *)
Definition scan_page (ip : Z * Page.t) : Py.result (list TextBlock.t) :=
  let '(page_num, page) := ip in
  let max_font_size_page := Py.max_or 1 (page_font_sizes (Page.blocks page)) in
  scanned <- Py.mapM (scan_block page_num page max_font_size_page)
               (Py.enumerate (Page.blocks page)) ;;
  Py.Ok (add_spacing (Page.height page) None (keep_some scanned)).

Definition ratio_of (n d : Z) : Py.result Q :=
  if d =? 0 then Py.Ok 0%Q else Py.truediv (inject_Z n) (inject_Z d).

Definition count_if {A : Type} (f : A -> bool) (l : list A) : Z :=
  Z.of_nat (List.length (filter f l)).

Definition starts_upper (w : string) : bool :=
  match w with
  | EmptyString => false
  | String c _ => Py.is_upper c
  end.

Definition punctuation_char (text : string) : string :=
  match Py.last_char (Py.strip text) with
  | Some c => if Py.char_in c Py.punctuation then String c "" else "NULL"
  | None => "NULL"
  end.

(** One entry of [processed_data]; the divisions are evaluated in the
    order of the dictionary display, each may raise. *)
Definition derive_features (self : t) (max_font_size_pdf : Q)
    (tb : TextBlock.t) : Py.result Feature.t :=
  let block := TextBlock.data tb in
  let text := BlockData.text block in
  let words := Py.split (Py.strip text) in
  let n := Z.of_nat (List.length words) in
  rel_pdf <- Py.truediv (BlockData.font_size block) max_font_size_pdf ;;
  rel_page <- Py.truediv (BlockData.font_size block)
                (BlockData.max_font_size_page block) ;;
  x_rel <- Py.truediv (BlockData.x0 block) (BlockData.page_width block) ;;
  y_rel <- Py.truediv (BlockData.y0 block) (BlockData.page_height block) ;;
  title_case <- ratio_of (count_if starts_upper words) n ;;
  stopword <- ratio_of
                (count_if (fun w => existsb (String.eqb (Py.lower w))
                                      (stop_words self)) words) n ;;
  above <- Py.truediv (TextBlock.space_above tb) (BlockData.page_height block) ;;
  below <- Py.truediv (TextBlock.space_below tb) (BlockData.page_height block) ;;
  Py.Ok
    {| Feature.text := text;
       Feature.font_size_relative_to_max_pdf := rel_pdf;
       Feature.font_size_relative_to_max_page := rel_page;
       Feature.is_bold := BlockData.is_bold block;
       Feature.num_words := n;
       Feature.punctuation := punctuation_char text;
       Feature.x_pos_relative := x_rel;
       Feature.y_pos_relative := y_rel;
       Feature.page_no := BlockData.page_num block;
       Feature.title_case_ratio := title_case;
       Feature.stopword_ratio := stopword;
       Feature.space_above := above;
       Feature.space_below := below;
       Feature.is_underlined := BlockData.is_underlined block |}.

Definition all_text_blocks_raw (doc : Document)
  : Py.result (list TextBlock.t) :=
  per_page <- Py.mapM scan_page (Py.enumerate doc) ;;
  Py.Ok (List.concat per_page).

Definition extract_features_from_pdf (self : t) (doc : Document)
  : Py.result (list Feature.t) :=
  raw <- all_text_blocks_raw doc ;;
  let all_font_sizes_doc :=
    map (fun tb => BlockData.font_size (TextBlock.data tb)) raw in
  let max_font_size_pdf := Py.max_or 1 all_font_sizes_doc in
  Py.mapM (derive_features self max_font_size_pdf) raw.

(** *** [predict_headings_simple] *)

(** [(page_no, y_pos_relative)] of [a] is smaller than that of [b], as
    Python compares tuples. *)
Definition reading_key_lt (a b : Feature.t) : bool :=
  if Feature.page_no a =? Feature.page_no b
  then Py.Qltb (Feature.y_pos_relative a) (Feature.y_pos_relative b)
  else Feature.page_no a <? Feature.page_no b.

Definition heuristic_level (item : Feature.t) : string :=
  let font_size_ratio := Feature.font_size_relative_to_max_pdf item in
  let is_bold := Feature.is_bold item in
  let num_words := Feature.num_words item in
  if Py.Qltb 0.8 font_size_ratio && is_bold && (num_words <=? 10) then "H1"
  else if Py.Qltb 0.6 font_size_ratio && (is_bold || (num_words <=? 15))
       then "H2"
  else if Py.Qltb 0.5 font_size_ratio && (num_words <=? 20) then "H3"
  else "None".

(** The condition of the title detection. *)
Definition is_title_block (item : Feature.t) : bool :=
  (Feature.page_no item =? 0)
  && Py.Qltb (Feature.y_pos_relative item) 0.1
  && Py.Qltb 0.9 (Feature.font_size_relative_to_max_pdf item).

Definition simple_entry (item : Feature.t) : Heading.t :=
  {| Heading.level := heuristic_level item;
     Heading.text := Feature.text item;
     Heading.page := Feature.page_no item + 1 |}.

(** The loop over [sorted_data], on the two variables it updates. *)
Fixpoint simple_loop (items : list Feature.t) (title_text : string)
    (outline : list Heading.t) : string * list Heading.t :=
  match items with
  | [] => (title_text, outline)
  | item :: rest =>
      if is_title_block item
      then simple_loop rest (Feature.text item) outline
      else if negb (String.eqb (heuristic_level item) "None")
           then simple_loop rest title_text (outline ++ [simple_entry item])
           else simple_loop rest title_text outline
  end.

Definition predict_headings_simple (input_data : list Feature.t)
  : Prediction.t :=
  let sorted_data := Py.sorted reading_key_lt input_data in
  let '(title_text, outline) := simple_loop sorted_data "" [] in
  {| Prediction.title := Py.strip title_text;
     Prediction.outline := outline |}.

(** *** [predict_headings_with_model] *)

Definition CLASS_NAMES : list string := ["H1"; "H2"; "H3"; "None"; "Title"].

(** [l[i]] with Python's negative indices. *)
Definition getitem {A : Type} (l : list A) (i : Z) : Py.result A :=
  let n := Z.of_nat (List.length l) in
  let j := if i <? 0 then i + n else i in
  if (0 <=? j) && (j <? n)
  then match nth_error l (Z.to_nat j) with
       | Some x => Py.Ok x
       | None => Py.Raise Py.IndexError
       end
  else Py.Raise Py.IndexError.

(** Truth value of an optional list: [None] and [[]] are false. *)
Definition truthy_list {A : Type} (o : option (list A)) : bool :=
  match o with
  | Some (_ :: _) => true
  | _ => false
  end.

Definition expected_cols (self : t) (m : HeadingModel.t)
  : option (list string) :=
  if truthy_list (feature_names self) then feature_names self
  else if truthy_list (HeadingModel.feature_names_ m)
       then HeadingModel.feature_names_ m
       else HeadingModel.feature_names_in_ m.

Definition decode (self : t) (predictions : list Z)
  : Py.result (list string) :=
  match label_encoder self with
  | Some le => LabelEncoder.inverse_transform le predictions
  | None => Py.mapM (getitem CLASS_NAMES) predictions
  end.

(** The loop over [zip(input_data, pred_levels)]. *)
Fixpoint model_loop (pairs : list (Feature.t * string)) (title_text : string)
    (outline : list Heading.t) : string * list Heading.t :=
  match pairs with
  | [] => (title_text, outline)
  | (item, level) :: rest =>
      if String.eqb level "Title"
      then model_loop rest (title_text ++ Feature.text item ++ " ")%string
             outline
      else if negb (String.eqb level "None")
           then model_loop rest title_text
                  (outline ++ [{| Heading.level := level;
                                  Heading.text := Feature.text item;
                                  Heading.page := Feature.page_no item + 1 |}])
           else model_loop rest title_text outline
  end.

(** The body of the [try] block. *)
Definition model_strategy (self : t) (m : HeadingModel.t)
    (input_data : list Feature.t) : Py.result Prediction.t :=
  cols <- match expected_cols self m with
          | Some cols => Py.Ok cols
          | None =>
              Py.Raise (Py.AttributeError
                "Model has no feature_names_ or feature_names_in_ attributes.")
          end ;;
  predictions <- HeadingModel.predict m cols input_data ;;
  pred_levels <- decode self predictions ;;
  let '(title_text, outline) :=
    model_loop (combine input_data pred_levels) "" [] in
  Py.Ok {| Prediction.title := Py.strip title_text;
           Prediction.outline := outline |}.

Definition predict_headings_with_model (self : t)
    (input_data : list Feature.t) : Prediction.t :=
  match heading_model self with
  | None => predict_headings_simple input_data
  | Some m =>
      Py.try_except (model_strategy self m input_data)
        (fun _ => predict_headings_simple input_data)
  end.

(** *** [extract_text_for_heading] *)

(** [doc.load_page(page_num)]: a page number past the end raises; a
    negative one counts from the end. *)
Definition load_page (doc : Document) (page_num : Z) : Py.result Page.t :=
  let n := Z.of_nat (List.length doc) in
  if page_num <? n
  then match nth_error doc (Z.to_nat (if page_num <? 0 then page_num mod n
                                       else page_num)) with
       | Some page => Py.Ok page
       | None => Py.Raise Py.ValueError
       end
  else Py.Raise Py.ValueError.

(** The state of the scan: the two variables of the loop, or the value of
    the [return] inside it. *)
Inductive scan : Type :=
| Scanning (full_text : string) (heading_found : bool)
| Returned (value : string).

Definition matches (heading : Heading.t) (line : Line.t) : bool :=
  Py.contains (Py.lower (Heading.text heading)) (Py.lower (text_line line)).

Definition scan_line (heading : Heading.t) (next_heading : option Heading.t)
    (st : scan) (line : Line.t) : scan :=
  match st with
  | Returned _ => st
  | Scanning full_text heading_found =>
      if negb heading_found && matches heading line
      then Scanning full_text true
      else if heading_found
           then if match next_heading with
                   | Some nxt => matches nxt line
                   | None => false
                   end
                then Returned (Py.strip full_text)
                else Scanning (full_text ++ text_line line ++ " ")%string
                       heading_found
           else st
  end.

Definition page_lines (page : Page.t) : list Line.t :=
  flat_map Block.lines (Page.blocks page).

Fixpoint scan_pages (doc : Document) (heading : Heading.t)
    (next_heading : option Heading.t) (page_nums : list Z) (st : scan)
  : Py.result scan :=
  match page_nums with
  | [] => Py.Ok st
  | page_num :: rest =>
      match st with
      | Returned _ => Py.Ok st
      | Scanning _ _ =>
          page <- load_page doc page_num ;;
          scan_pages doc heading next_heading rest
            (fold_left (scan_line heading next_heading) (page_lines page) st)
      end
  end.

Definition start_page (heading : Heading.t) : Z := Heading.page heading - 1.

Definition end_page (doc : Document) (next_heading : option Heading.t) : Z :=
  match next_heading with
  | Some nxt => Heading.page nxt - 1
  | None => Z.of_nat (List.length doc) - 1
  end.

Definition extract_text_for_heading (doc : Document) (heading : Heading.t)
    (next_heading : option Heading.t) : Py.result string :=
  st <- scan_pages doc heading next_heading
          (Py.range (start_page heading) (end_page doc next_heading + 1))
          (Scanning "" false) ;;
  match st with
  | Returned value => Py.Ok value
  | Scanning full_text _ => Py.Ok (Py.strip full_text)
  end.

(** *** [extract_sections_with_content] *)

Definition make_section (self : t) (curr : Heading.t) (content : string)
  : Section.t :=
  let section_text := (Heading.text curr ++ ". " ++ content)%string in
  {| Section.section_title := Heading.text curr;
     Section.page_number := Heading.page curr;
     Section.level := Heading.level curr;
     Section.content := content;
     Section.embedding := model self section_text;
     Section.section_text := section_text |}.

(** The loop over the outline; the head of [outline] is [outline[i]] and
    the head of its tail is [outline[i+1]]. *)
Fixpoint sections_loop (self : t) (doc : Document) (outline : list Heading.t)
    (sections : list Section.t) : Py.result (list Section.t) :=
  match outline with
  | [] => Py.Ok sections
  | curr :: rest =>
      content <- extract_text_for_heading doc curr (hd_error rest) ;;
      if Py.truthy content
      then sections_loop self doc rest
             (sections ++ [make_section self curr content])
      else sections_loop self doc rest sections
  end.

Definition extract_sections_with_content (self : t) (doc : Document)
    (outline : list Heading.t) : Py.result (list Section.t) :=
  sections_loop self doc outline [].

(** *** [process_pdf] *)

(** [os.path.basename] *)
Fixpoint basename_from (path cur : string) : string :=
  match path with
  | EmptyString => cur
  | String c path' =>
      if Ascii.eqb c "/"%char then basename_from path' ""
      else basename_from path' (cur ++ String c "")%string
  end.

Definition basename (path : string) : string := basename_from path "".

(** [process_pdf]: [doc] is what [fitz.open(pdf_path)] reads and [now] is
    [datetime.now().isoformat()]. *)
Definition process_pdf (self : t) (now : string) (pdf_path : string)
    (doc : Document) : Py.result DocumentIndex.t :=
  match
    (features <- extract_features_from_pdf self doc ;;
     let json_data := predict_headings_with_model self features in
     sections <- extract_sections_with_content self doc
                   (Prediction.outline json_data) ;;
     let metadata :=
       {| Metadata.filename := basename pdf_path;
          Metadata.processed_at := now;
          Metadata.total_blocks := Z.of_nat (List.length features);
          Metadata.total_sections := Z.of_nat (List.length sections);
          Metadata.model_used :=
            match heading_model self with
            | Some _ => "pretrained"
            | None => "heuristic"
            end |} in
     let full_text := Py.join " " (map Section.content sections) in
     Py.Ok {| DocumentIndex.title := Prediction.title json_data;
              DocumentIndex.outline := Prediction.outline json_data;
              DocumentIndex.metadata := metadata;
              DocumentIndex.sections := sections;
              DocumentIndex.full_text := full_text;
              DocumentIndex.full_text_embedding := model self full_text |})
  with
  | Py.Ok json_data => Py.Ok json_data
  | Py.Raise e =>
      Py.Raise (Py.Exception ("Error processing PDF " ++ pdf_path)%string)
  end.

End PDFProcessor.

(** ** Records of [similarity_analyzer.py] *)

(** One entry of [processed_files]. *)
Module FileInfo.
Record t : Type := mk
  { original_file : string; json_file : string; json_path : string }.
End FileInfo.

(** What is found at a path: nothing, a file that [open]/[json.load] cannot
    read, or a persisted record, whose ["sections"] key may be absent. *)
Module JsonFile.
Inductive t : Type :=
| Missing
| Unreadable
| Data (sections : option (list Section.t)).
End JsonFile.

Definition FileSystem : Type := string -> JsonFile.t.

(** A loaded section, with the ["document"] key added. *)
Module Candidate.
Record t : Type := mk { section : Section.t; document : string }.
Definition content (c : t) : string := Section.content (section c).
End Candidate.

(** A loaded section, with the ["similarity_score"] key added. *)
Module Scored.
Record t : Type := mk { candidate : Candidate.t; similarity_score : Q }.
Definition content (s : t) : string := Candidate.content (candidate s).
End Scored.

Module SimilarityResult.
Record t : Type := mk
  { document : string;
    section_title : string;
    importance_rank : Z;
    page_number : Z;
    similarity_score : Q;
    level : string;
    content : string;
    word_count : Z }.
End SimilarityResult.

(** ** [class SimilarityAnalyzer] *)

Module SimilarityAnalyzer.

(** [model] is the sentence encoder; [cosine_similarity] is scikit-learn's,
    on one query vector and one section vector, and raises when the two
    have different lengths. *)
Record t : Type := mk
  { model : string -> list Q;
    cosine_similarity : list Q -> list Q -> Py.result Q }.

(** [count_words]; the argument is a [str], so that the [isinstance] test
    holds. *)
Definition count_words (text : string) : Z :=
  if negb (Py.truthy text) then 0
  else
    let words :=
      map Py.strip (filter (fun word => Py.truthy (Py.strip word))
                      (Py.split text)) in
    Z.of_nat (List.length words).

(** [load_sections_with_embeddings]: the loop over [processed_files]. *)
Fixpoint load_loop (fs : FileSystem) (processed_files : list FileInfo.t)
    (sections : list Candidate.t) : Py.result (list Candidate.t) :=
  match processed_files with
  | [] => Py.Ok sections
  | file_info :: rest =>
      let pdf_filename := FileInfo.original_file file_info in
      match fs (FileInfo.json_path file_info) with
      | JsonFile.Missing => load_loop fs rest sections
      | JsonFile.Unreadable => Py.Raise (Py.External "json.load")
      | JsonFile.Data None => load_loop fs rest sections
      | JsonFile.Data (Some data_sections) =>
          load_loop fs rest
            (sections
             ++ map (fun section =>
                       {| Candidate.section := section;
                          Candidate.document := pdf_filename |})
                  data_sections)
      end
  end.

Definition load_sections_with_embeddings (fs : FileSystem)
    (processed_files : list FileInfo.t) : Py.result (list Candidate.t) :=
  load_loop fs processed_files [].

Definition make_result (section : Scored.t) (rank_counter word_count : Z)
  : SimilarityResult.t :=
  let c := Scored.candidate section in
  {| SimilarityResult.document := Candidate.document c;
     SimilarityResult.section_title :=
       Section.section_title (Candidate.section c);
     SimilarityResult.importance_rank := rank_counter;
     SimilarityResult.page_number := Section.page_number (Candidate.section c);
     SimilarityResult.similarity_score := Scored.similarity_score section;
     SimilarityResult.level := Section.level (Candidate.section c);
     SimilarityResult.content := Section.content (Candidate.section c);
     SimilarityResult.word_count := word_count |}.

(** The loop over [ranked_sections], on [results] and [rank_counter]
    ([filtered_count] is only printed). *)
Fixpoint results_loop (top_n : Z) (ranked_sections : list Scored.t)
    (results : list SimilarityResult.t) (rank_counter : Z)
  : list SimilarityResult.t :=
  match ranked_sections with
  | [] => results
  | section :: rest =>
      let word_count := count_words (Scored.content section) in
      if word_count <? 15 then results_loop top_n rest results rank_counter
      else
        let results :=
          results ++ [make_result section rank_counter word_count] in
        let rank_counter := rank_counter + 1 in
        if Z.of_nat (List.length results) >=? top_n then results
        else results_loop top_n rest results rank_counter
  end.

(** The two loops that compute [similarities] and attach them. *)
Definition score_sections (self : t) (selected_text : string)
    (sections : list Candidate.t) : Py.result (list Scored.t) :=
  let query_embedding := model self selected_text in
  similarities <-
    Py.mapM (fun section =>
               cosine_similarity self query_embedding
                 (Section.embedding (Candidate.section section)))
      sections ;;
  Py.Ok (map (fun p => {| Scored.candidate := fst p;
                          Scored.similarity_score := snd p |})
           (combine sections similarities)).

Definition score_lt (a b : Scored.t) : bool :=
  Py.Qltb (Scored.similarity_score a) (Scored.similarity_score b).

Definition find_similar_sections_fast (self : t) (fs : FileSystem)
    (selected_text : string) (processed_files : list FileInfo.t) (top_n : Z)
  : Py.result (list SimilarityResult.t) :=
  match
    (sections <- load_sections_with_embeddings fs processed_files ;;
     match sections with
     | [] => Py.Ok []
     | _ :: _ =>
         scored <- score_sections self selected_text sections ;;
         let ranked_sections := Py.sorted_reverse score_lt scored in
         Py.Ok (results_loop top_n ranked_sections [] 1)
     end)
  with
  | Py.Ok results => Py.Ok results
  | Py.Raise e => Py.Raise (Py.Exception "Error in fast similarity analysis")
  end.

Definition find_similar_sections (self : t) (fs : FileSystem)
    (selected_text : string) (processed_files : list FileInfo.t) (top_n : Z)
  : Py.result (list SimilarityResult.t) :=
  find_similar_sections_fast self fs selected_text processed_files top_n.

End SimilarityAnalyzer.

(** ** Reference definitions and sample inputs *)

Module Stable.

(** The order a stable sort by [lt] gives to elements tagged with their
    position in the input: no later element is smaller, and of two
    elements that compare equal the one of the earlier position is
    first. *)
Definition stable_before {A : Type} (lt : A -> A -> bool)
    (a b : nat * A) : Prop :=
  lt (snd b) (snd a) = false
  /\ (lt (snd a) (snd b) = false -> (fst a < fst b)%nat).

(** The comparison of tagged elements by their values. *)
Definition tagged_lt {A : Type} (lt : A -> A -> bool) (a b : nat * A)
  : bool :=
  lt (snd a) (snd b).

(** The list with the position of every element. *)
Definition tagged {A : Type} (l : list A) : list (nat * A) :=
  combine (seq 0 (List.length l)) l.

End Stable.

Module Reference.

Import PDFProcessor.

(** *** Heuristic classifier *)

(** The blocks of the sorted data that meet the title condition. *)
Definition title_blocks (sorted_data : list Feature.t) : list Feature.t :=
  filter is_title_block sorted_data.

(** The blocks of the sorted data that become outline entries: not a
    title block, and a level other than ["None"]. *)
Definition outline_blocks (sorted_data : list Feature.t) : list Feature.t :=
  filter (fun item => negb (is_title_block item)
                      && negb (String.eqb (heuristic_level item) "None"))
    sorted_data.

(** *** Feature extractor *)

(** The first span of the first line of a block. *)
Definition first_span (b : Block.t) : option Span.t :=
  match Block.lines b with
  | line0 :: _ => hd_error (Line.spans line0)
  | [] => None
  end.

Definition span_bold (span : Span.t) : bool :=
  negb (Z.land (Span.flags span) 16 =? 0).

Definition first_span_bold (b : Block.t) : bool :=
  match first_span b with
  | Some span => span_bold span
  | None => false
  end.

Definition first_span_underlined (b : Block.t) : bool :=
  match first_span b with
  | Some span => span_underlined span
  | None => false
  end.

(** Some span of some line of the block has the underline bit. *)
Definition any_span_underlined (b : Block.t) : bool :=
  existsb (fun line => existsb span_underlined (Line.spans line))
    (Block.lines b).

Definition nonblank (line : Line.t) : bool :=
  Py.truthy (Py.strip (text_line line)).

(** The blocks the extractor keeps: text blocks that do not look like a
    table and have a line that is not blank. *)
Definition is_kept (b : Block.t) : bool :=
  (Block.type b =? 0) && negb (is_table_block b)
  && existsb nonblank (Block.lines b).

Definition kept_blocks (doc : Document) : list Block.t :=
  flat_map (fun page => filter is_kept (Page.blocks page)) doc.

(** The flags the extractor gives a kept block. *)
Definition flags_of_block (bd : BlockData.t) (b : Block.t) : Prop :=
  BlockData.is_bold bd = first_span_bold b
  /\ BlockData.is_underlined bd = any_span_underlined b.

(** *** Model strategy *)

(** The three ways the model strategy fails: no feature schema, an
    exception of the inference, an exception of the decoding. *)
Definition model_strategy_fails (self : t) (m : HeadingModel.t)
    (input_data : list Feature.t) : Prop :=
  expected_cols self m = None
  \/ (exists cols e,
        expected_cols self m = Some cols
        /\ HeadingModel.predict m cols input_data = Py.Raise e)
  \/ (exists cols predictions e,
        expected_cols self m = Some cols
        /\ HeadingModel.predict m cols input_data = Py.Ok predictions
        /\ decode self predictions = Py.Raise e).

(** The strategy that produces the outline of [input_data]: the model
    strategy when there is a model and it succeeds, the heuristic one
    otherwise. *)
Definition strategy_used (self : t) (input_data : list Feature.t) : string :=
  match heading_model self with
  | None => "heuristic"
  | Some m =>
      match model_strategy self m input_data with
      | Py.Ok _ => "pretrained"
      | Py.Raise _ => "heuristic"
      end
  end.

(** *** Section segmenter *)

(** The pages of the window of an entry: from its page through the page
    of the next entry, or through the last page when there is no next
    entry.  Page numbers of entries are 1-based. *)
Definition window (doc : Document) (heading : Heading.t)
    (next_heading : option Heading.t) : list Page.t :=
  let first_page := Heading.page heading in
  let last_page :=
    match next_heading with
    | Some nxt => Heading.page nxt
    | None => Z.of_nat (List.length doc)
    end in
  firstn (Z.to_nat (last_page - first_page + 1))
    (skipn (Z.to_nat (first_page - 1)) doc).

Definition window_lines (doc : Document) (heading : Heading.t)
    (next_heading : option Heading.t) : list Line.t :=
  flat_map page_lines (window doc heading next_heading).

(** The lines after the first line that contains the heading's text. *)
Fixpoint after_heading (heading : Heading.t) (lines : list Line.t)
  : list Line.t :=
  match lines with
  | [] => []
  | line :: rest =>
      if matches heading line then rest else after_heading heading rest
  end.

(** The lines before the first line that contains the next heading's
    text. *)
Fixpoint before_next (nxt : Heading.t) (lines : list Line.t)
  : list Line.t :=
  match lines with
  | [] => []
  | line :: rest =>
      if matches nxt line then [] else line :: before_next nxt rest
  end.

Definition body_lines (heading : Heading.t)
    (next_heading : option Heading.t) (lines : list Line.t) : list Line.t :=
  match next_heading with
  | Some nxt => before_next nxt (after_heading heading lines)
  | None => after_heading heading lines
  end.

(** Each line followed by a space. *)
Definition spaced (lines : list Line.t) : string :=
  fold_right (fun line acc => (text_line line ++ " " ++ acc)%string) ""
    lines.

Definition content (doc : Document) (heading : Heading.t)
    (next_heading : option Heading.t) : string :=
  Py.strip
    (spaced (body_lines heading next_heading
               (window_lines doc heading next_heading))).

(** Every entry with the entry that follows it. *)
Fixpoint with_next (outline : list Heading.t)
  : list (Heading.t * option Heading.t) :=
  match outline with
  | [] => []
  | curr :: rest => (curr, hd_error rest) :: with_next rest
  end.

(** The sections of an outline: one for each entry whose content is not
    empty. *)
Definition segments (self : t) (doc : Document) (outline : list Heading.t)
  : list Section.t :=
  flat_map
    (fun cn =>
       let c := content doc (fst cn) (snd cn) in
       if Py.truthy c then [make_section self (fst cn) c] else [])
    (with_next outline).

(** The value of [extract_text_for_heading] in a state of its scan. *)
Definition final (st : scan) : string :=
  match st with
  | Returned value => value
  | Scanning full_text _ => Py.strip full_text
  end.

End Reference.

Module Samples.

Definition feature (text : string) (ratio : Q) (is_bold : bool)
    (num_words : Z) (y_pos : Q) (page_no : Z) : Feature.t :=
  {| Feature.text := text;
     Feature.font_size_relative_to_max_pdf := ratio;
     Feature.font_size_relative_to_max_page := ratio;
     Feature.is_bold := is_bold;
     Feature.num_words := num_words;
     Feature.punctuation := "NULL";
     Feature.x_pos_relative := 0.1;
     Feature.y_pos_relative := y_pos;
     Feature.page_no := page_no;
     Feature.title_case_ratio := 1;
     Feature.stopword_ratio := 0;
     Feature.space_above := 0;
     Feature.space_below := 0;
     Feature.is_underlined := false |}.

(** The only line of a page: large, at the top, not bold. *)
Definition only_title_line : list Feature.t :=
  [ feature "Annual Report 2024" 1 false 3 0.05 0 ].

(** Two large lines at the top of the first page. *)
Definition two_title_lines : list Feature.t :=
  [ feature "Annual Report" 1 false 2 0.02 0;
    feature "2024 Edition" 0.95 false 2 0.06 0;
    feature "Overview" 0.7 true 1 0.3 0 ].

(** A bold line of eight words at ratio 0.85 on the third page, after a
    body paragraph on the first. *)
Definition bold_heading : Feature.t :=
  feature "Results of the third quarter by market segment" 0.85 true 8 0.4 2.

Definition bold_heading_document : list Feature.t :=
  [ feature "Annual Report 2024" 1 false 3 0.05 0;
    bold_heading;
    feature "plain text" 0.4 false 2 0.5 1 ].

(** A block of one line and one span. *)
Definition span (text : string) (size : Q) (flags : Z) (x y : Q) : Span.t :=
  {| Span.text := text; Span.size := size; Span.flags := flags;
     Span.origin := (x, y) |}.

Definition text_block (text : string) (size : Q) (flags : Z)
    (bbox : Q * Q * Q * Q) : Block.t :=
  let '(x0, y0, _, _) := bbox in
  {| Block.type := 0;
     Block.lines := [ {| Line.spans := [span text size flags x0 y0] |} ];
     Block.bbox := bbox |}.

Definition image_block : Block.t :=
  {| Block.type := 1; Block.lines := []; Block.bbox := (50, 300, 550, 500)%Q |}.

(** A one-page report: a title line, a bold heading, a paragraph, an
    image. *)
Definition report : Document :=
  [ {| Page.height := 800; Page.width := 600;
       Page.blocks :=
         [ text_block "Annual Report 2024" 24 0 (50, 40, 550, 70)%Q;
           text_block "Introduction" 20 16 (50, 100, 550, 120)%Q;
           text_block "This report covers the year. " 10 0 (50, 130, 550, 145)%Q;
           image_block ] |} ].

(** A page whose only block has a plain first span and an underlined
    second span. *)
Definition underlined_later : Document :=
  [ {| Page.height := 800; Page.width := 600;
       Page.blocks :=
         [ {| Block.type := 0;
              Block.lines :=
                [ {| Line.spans := [ span "Terms and " 12 0 50 100;
                                     span "conditions" 12 4 120 100 ] |} ];
              Block.bbox := (50, 100, 550, 115)%Q |} ] |} ].

(** A report of two pages, and an outline whose second entry is not a
    line of the report. *)
Definition two_pages : Document :=
  [ {| Page.height := 800; Page.width := 600;
       Page.blocks :=
         [ text_block "Quarterly Report" 24 0 (50, 40, 550, 70)%Q;
           text_block "INTRODUCTION" 18 16 (50, 100, 550, 120)%Q;
           text_block "This sets the scene. " 10 0 (50, 130, 550, 145)%Q;
           image_block ] |};
    {| Page.height := 800; Page.width := 600;
       Page.blocks :=
         [ text_block "It continues here. " 10 0 (50, 40, 550, 55)%Q;
           text_block "Methods" 18 16 (50, 100, 550, 120)%Q;
           text_block "We measure twice. " 10 0 (50, 130, 550, 145)%Q ] |} ].

Definition heading (level text : string) (page : Z) : Heading.t :=
  {| Heading.level := level; Heading.text := text; Heading.page := page |}.

Definition two_pages_outline : list Heading.t :=
  [ heading "H1" "Introduction" 1;
    heading "H2" "Appendix" 1;
    heading "H1" "Methods" 2 ].

Definition encoder (text : string) : list Q :=
  [inject_Z (Z.of_nat (String.length text)); 1%Q].

(** A loaded model whose inference raises. *)
Definition failing_model : HeadingModel.t :=
  {| HeadingModel.feature_names_ := None;
     HeadingModel.feature_names_in_ := Some ["is_bold"; "num_words"];
     HeadingModel.predict := fun _ _ => Py.Raise (Py.External "predict") |}.

Definition processor_with_failing_model : PDFProcessor.t :=
  {| PDFProcessor.stop_words := ["the"; "of"; "a"];
     PDFProcessor.model := encoder;
     PDFProcessor.heading_model := Some failing_model;
     PDFProcessor.label_encoder := None;
     PDFProcessor.feature_names := None |}.

Definition processor_without_model : PDFProcessor.t :=
  {| PDFProcessor.stop_words := ["the"; "of"; "a"];
     PDFProcessor.model := encoder;
     PDFProcessor.heading_model := None;
     PDFProcessor.label_encoder := None;
     PDFProcessor.feature_names := None |}.

End Samples.

Module SearchReference.

Import SimilarityAnalyzer.

(** The candidate sections one entry of [processed_files] contributes, in
    the order of the persisted record. *)
Definition sections_of_file (fs : FileSystem) (file_info : FileInfo.t)
  : list Candidate.t :=
  match fs (FileInfo.json_path file_info) with
  | JsonFile.Data (Some data_sections) =>
      map (fun section =>
             {| Candidate.section := section;
                Candidate.document := FileInfo.original_file file_info |})
        data_sections
  | _ => []
  end.

(** The candidates in traversal order: document order, then section
    order within a document. *)
Definition traversal (fs : FileSystem) (processed_files : list FileInfo.t)
  : list Candidate.t :=
  flat_map (sections_of_file fs) processed_files.

Definition readable (fs : FileSystem) (file_info : FileInfo.t) : Prop :=
  fs (FileInfo.json_path file_info) <> JsonFile.Unreadable.

(** An entry that gives no candidate section: no file, no ["sections"]
    key, or an empty list of sections. *)
Definition contributes_nothing (fs : FileSystem) (file_info : FileInfo.t)
  : Prop :=
  readable fs file_info /\ sections_of_file fs file_info = [].

(** The number of non-empty tokens of a split on whitespace. *)
Definition token_count (text : string) : Z :=
  Z.of_nat (List.length (filter Py.truthy (Py.split text))).

Fixpoint no_space (s : string) : bool :=
  match s with
  | EmptyString => true
  | String c s' => negb (Py.is_space c) && no_space s'
  end.

Definition long_enough (section : Scored.t) : bool :=
  15 <=? count_words (Scored.content section).

(** The sections kept from the ranked list: the first of those with at
    least 15 words, [top_n] of them and never fewer than one. *)
Definition kept (top_n : Z) (ranked_sections : list Scored.t)
  : list Scored.t :=
  firstn (Z.to_nat (Z.max 1 top_n)) (filter long_enough ranked_sections).

(** Results with consecutive ranks from [rank]. *)
Fixpoint number_from (rank : Z) (sections : list Scored.t)
  : list SimilarityResult.t :=
  match sections with
  | [] => []
  | section :: rest =>
      make_result section rank (count_words (Scored.content section))
      :: number_from (rank + 1) rest
  end.

(** [r] is a result for the candidate [c]. *)
Definition result_of (c : Candidate.t) (r : SimilarityResult.t) : Prop :=
  SimilarityResult.document r = Candidate.document c
  /\ SimilarityResult.section_title r
     = Section.section_title (Candidate.section c)
  /\ SimilarityResult.page_number r
     = Section.page_number (Candidate.section c)
  /\ SimilarityResult.level r = Section.level (Candidate.section c)
  /\ SimilarityResult.content r = Section.content (Candidate.section c).

(** The comparison [sorted(..., reverse=True)] makes on the scores. *)
Definition by_score_desc (a b : Scored.t) : bool := score_lt b a.

(** The order of the ranked list on sections tagged with their position
    in the traversal: a higher score first, and an earlier position first
    among equal scores. *)
Definition ranked_before (a b : nat * Scored.t) : Prop :=
  score_lt (snd a) (snd b) = false
  /\ (score_lt (snd b) (snd a) = false -> (fst a < fst b)%nat).

End SearchReference.

Module SearchSamples.

Definition words40 : string :=
  "one two three four five six seven eight nine ten one two three four five six seven eight nine ten one two three four five six seven eight nine ten one two three four five six seven eight nine ten".

Definition words16 : string :=
  "solar wind and water power are the main renewable sources of energy in the policy paper".

Definition section (title content : string) (embedding : list Q)
  : Section.t :=
  {| Section.section_title := title;
     Section.page_number := 1;
     Section.level := "H1";
     Section.content := content;
     Section.embedding := embedding;
     Section.section_text := (title ++ ". " ++ content)%string |}.

Definition file (name : string) : FileInfo.t :=
  {| FileInfo.original_file := (name ++ ".pdf")%string;
     FileInfo.json_file := (name ++ ".json")%string;
     FileInfo.json_path := ("json/" ++ name ++ ".json")%string |}.

(** Two persisted records, a record without sections and a missing one.
    The first embedding coordinate stands for the similarity. *)
Definition disk : FileSystem :=
  fun path =>
    if String.eqb path "json/a.json" then
      JsonFile.Data (Some [ section "Section A" words40 [0.82%Q] ;
                            section "Section B" "only eight words are in this short section" [0.95%Q] ;
                            section "Section C" words16 [0.5%Q] ])
    else if String.eqb path "json/b.json" then
      JsonFile.Data (Some [ section "Section D" words16 [0.82%Q] ;
                            section "Section E" words16 [0.5%Q] ])
    else if String.eqb path "json/empty.json" then JsonFile.Data (Some [])
    else if String.eqb path "json/old.json" then JsonFile.Data None
    else JsonFile.Missing.

Definition analyzer : SimilarityAnalyzer.t :=
  {| SimilarityAnalyzer.model := fun _ => [1%Q];
     SimilarityAnalyzer.cosine_similarity :=
       fun q e =>
         match q, e with
         | [_], [x] => Py.Ok x
         | _, _ => Py.Raise Py.ValueError
         end |}.

Definition corpus : list FileInfo.t := [file "a"; file "old"; file "b"].

Definition empty_corpus : list FileInfo.t :=
  [file "empty"; file "old"; file "gone"].

End SearchSamples.

(** ** More reference definitions *)

Module ClassifierReference.

Import PDFProcessor.

(** The entry the model strategy makes of a block and its level. *)
Definition model_entry (p : Feature.t * string) : Heading.t :=
  {| Heading.level := snd p;
     Heading.text := Feature.text (fst p);
     Heading.page := Feature.page_no (fst p) + 1 |}.

Definition is_title_level (p : Feature.t * string) : bool :=
  String.eqb (snd p) "Title".

(** The blocks the model strategy keeps in the outline: neither the title
    nor ["None"]. *)
Definition is_heading_level (p : Feature.t * string) : bool :=
  negb (String.eqb (snd p) "Title") && negb (String.eqb (snd p) "None").

(** The texts of the title blocks, each followed by a space. *)
Definition title_texts (pairs : list (Feature.t * string)) : string :=
  fold_right
    (fun p acc => (Feature.text (fst p) ++ " " ++ acc)%string) ""
    (filter is_title_level pairs).

(** [e] is made of the text and the page of [item]. *)
Definition entry_of (item : Feature.t) (e : Heading.t) : Prop :=
  Heading.text e = Feature.text item
  /\ Heading.page e = Feature.page_no item + 1.

(** A scan state whose returned value, if any, is stripped. *)
Definition stripped_state (st : scan) : Prop :=
  match st with
  | Returned value => Py.strip value = value
  | Scanning _ _ => True
  end.

(** Some character of the string is not whitespace. *)
Fixpoint has_nonspace (s : string) : bool :=
  match s with
  | EmptyString => false
  | String c s' => negb (Py.is_space c) || has_nonspace s'
  end.

End ClassifierReference.

Module IndexReference.

Import PDFProcessor Reference.

(** The record of a document whose features are [features]: the prediction
    of the classifier, the sections read off the document for its outline,
    and the metadata. *)
Definition index_of (self : t) (now pdf_path : string) (doc : Document)
    (features : list Feature.t) : DocumentIndex.t :=
  let p := predict_headings_with_model self features in
  let sections := segments self doc (Prediction.outline p) in
  let full_text := Py.join " " (map Section.content sections) in
  {| DocumentIndex.title := Prediction.title p;
     DocumentIndex.outline := Prediction.outline p;
     DocumentIndex.metadata :=
       {| Metadata.filename := basename pdf_path;
          Metadata.processed_at := now;
          Metadata.total_blocks := Z.of_nat (List.length features);
          Metadata.total_sections := Z.of_nat (List.length sections);
          Metadata.model_used :=
            match heading_model self with
            | Some _ => "pretrained"
            | None => "heuristic"
            end |};
     DocumentIndex.sections := sections;
     DocumentIndex.full_text := full_text;
     DocumentIndex.full_text_embedding := model self full_text |}.

(** The record of a document without text. *)
Definition empty_index (self : t) (now pdf_path : string) : DocumentIndex.t :=
  {| DocumentIndex.title := "";
     DocumentIndex.outline := [];
     DocumentIndex.metadata :=
       {| Metadata.filename := basename pdf_path;
          Metadata.processed_at := now;
          Metadata.total_blocks := 0;
          Metadata.total_sections := 0;
          Metadata.model_used :=
            match heading_model self with
            | Some _ => "pretrained"
            | None => "heuristic"
            end |};
     DocumentIndex.sections := [];
     DocumentIndex.full_text := "";
     DocumentIndex.full_text_embedding := model self "" |}.

End IndexReference.

Module ClassifierSamples.

(** A loaded model that labels the first two blocks as title and the third
    as a first-level heading, decoded by the fixed class names. *)
Definition working_model : HeadingModel.t :=
  {| HeadingModel.feature_names_ := None;
     HeadingModel.feature_names_in_ := Some ["is_bold"; "num_words"];
     HeadingModel.predict := fun _ _ => Py.Ok [4; -1; 0] |}.

Definition processor_with_model : PDFProcessor.t :=
  {| PDFProcessor.stop_words := ["the"; "of"; "a"];
     PDFProcessor.model := Samples.encoder;
     PDFProcessor.heading_model := Some working_model;
     PDFProcessor.label_encoder := None;
     PDFProcessor.feature_names := None |}.

(** A sub-heading, a third-level heading and a paragraph. *)
Definition sub_heading : Feature.t :=
  Samples.feature "Scope of the review" 0.7 false 4 0.3 1.

Definition minor_heading : Feature.t :=
  Samples.feature "Data sources used in the second part of the review and their known limits for the regional figures" 0.55 false 18 0.5 1.

Definition paragraph : Feature.t :=
  Samples.feature "body" 0.45 false 120 0.6 1.

Definition mixed_blocks : list Feature.t :=
  [paragraph; minor_heading; sub_heading].

(** A page whose text block has a first line without spans. *)
Definition spanless_first_line : Document :=
  [ {| Page.height := 800; Page.width := 600;
       Page.blocks :=
         [ {| Block.type := 0;
              Block.lines :=
                [ {| Line.spans := [] |};
                  {| Line.spans := [Samples.span "Summary" 12 0 50 100] |} ];
              Block.bbox := (50, 100, 550, 130)%Q |} ] |} ].

(** A page with an image and a table-like block only. *)
Definition no_text : Document :=
  [ {| Page.height := 800; Page.width := 600;
       Page.blocks :=
         [ Samples.image_block;
           {| Block.type := 0;
              Block.lines :=
                [ {| Line.spans := [Samples.span "Year" 10 0 50 100] |};
                  {| Line.spans := [Samples.span "2024" 10 0 200 100] |} ];
              Block.bbox := (50, 100, 550, 130)%Q |} ] |} ].

End ClassifierSamples.

Module SearchReference2.

Import SimilarityAnalyzer SearchReference.

(** A candidate of at least 15 words. *)
Definition qualifies (c : Candidate.t) : bool :=
  15 <=? count_words (Candidate.content c).

(** An entry of [processed_files] that the loading does not skip: its file
    exists and, when it can be read, has a list of sections that is not
    empty. *)
Definition contributes (fs : FileSystem) (file_info : FileInfo.t) : bool :=
  match fs (FileInfo.json_path file_info) with
  | JsonFile.Missing => false
  | JsonFile.Unreadable => true
  | JsonFile.Data None => false
  | JsonFile.Data (Some []) => false
  | JsonFile.Data (Some (_ :: _)) => true
  end.

Definition unreadable (fs : FileSystem) (file_info : FileInfo.t) : Prop :=
  fs (FileInfo.json_path file_info) = JsonFile.Unreadable.

(** [r] is the result for the scored section [s]. *)
Definition result_for (s : Scored.t) (r : SimilarityResult.t) : Prop :=
  SimilarityResult.similarity_score r = Scored.similarity_score s
  /\ result_of (Scored.candidate s) r.

End SearchReference2.

Module SearchSamples2.

(** The disk of the samples, with the record of the second document
    damaged. *)
Definition damaged_disk : FileSystem :=
  fun path =>
    if String.eqb path "json/b.json" then JsonFile.Unreadable
    else SearchSamples.disk path.

End SearchSamples2.

(** ** [search_across_all_documents] *)

Module SearchHit.
Record t : Type := mk
  { document : string;
    section_title : string;
    rank : Z;
    page_number : Z;
    similarity_score : Q;
    level : string;
    content_preview : string;
    word_count : Z }.
End SearchHit.

Module CrossSearch.

Import SimilarityAnalyzer.

(** [s[:n]] *)
Fixpoint take (n : nat) (s : string) : string :=
  match n, s with
  | O, _ => EmptyString
  | S n', String c s' => String c (take n' s')
  | S _, EmptyString => EmptyString
  end.

(** [content[:200] + "..." if len(content) > 200 else content] *)
Definition content_preview (content : string) : string :=
  if (200 <? String.length content)%nat
  then (take 200 content ++ "...")%string
  else content.

Definition make_hit (section : Scored.t) (rank_counter word_count : Z)
  : SearchHit.t :=
  let c := Scored.candidate section in
  {| SearchHit.document := Candidate.document c;
     SearchHit.section_title := Section.section_title (Candidate.section c);
     SearchHit.rank := rank_counter;
     SearchHit.page_number := Section.page_number (Candidate.section c);
     SearchHit.similarity_score := Scored.similarity_score section;
     SearchHit.level := Section.level (Candidate.section c);
     SearchHit.content_preview :=
       content_preview (Section.content (Candidate.section c));
     SearchHit.word_count := word_count |}.

(** The loop over [ranked_sections], on [results] and [rank_counter]. *)
Fixpoint hits_loop (top_n : Z) (ranked_sections : list Scored.t)
    (results : list SearchHit.t) (rank_counter : Z) : list SearchHit.t :=
  match ranked_sections with
  | [] => results
  | section :: rest =>
      let word_count := count_words (Scored.content section) in
      if word_count <? 15 then hits_loop top_n rest results rank_counter
      else
        let results :=
          results ++ [make_hit section rank_counter word_count] in
        let rank_counter := rank_counter + 1 in
        if Z.of_nat (List.length results) >=? top_n then results
        else hits_loop top_n rest results rank_counter
  end.

Definition search_across_all_documents (self : t) (fs : FileSystem)
    (query_text : string) (processed_files : list FileInfo.t) (top_n : Z)
  : Py.result (list SearchHit.t) :=
  match
    (sections <- load_sections_with_embeddings fs processed_files ;;
     match sections with
     | [] => Py.Ok []
     | _ :: _ =>
         scored <- score_sections self query_text sections ;;
         let ranked_sections := Py.sorted_reverse score_lt scored in
         Py.Ok (hits_loop top_n ranked_sections [] 1)
     end)
  with
  | Py.Ok results => Py.Ok results
  | Py.Raise e => Py.Raise (Py.Exception "Error in cross-document search")
  end.

(** The hit that shows a result of [find_similar_sections_fast]. *)
Definition hit_of_result (r : SimilarityResult.t) : SearchHit.t :=
  {| SearchHit.document := SimilarityResult.document r;
     SearchHit.section_title := SimilarityResult.section_title r;
     SearchHit.rank := SimilarityResult.importance_rank r;
     SearchHit.page_number := SimilarityResult.page_number r;
     SearchHit.similarity_score := SimilarityResult.similarity_score r;
     SearchHit.level := SimilarityResult.level r;
     SearchHit.content_preview :=
       content_preview (SimilarityResult.content r);
     SearchHit.word_count := SimilarityResult.word_count r |}.

End CrossSearch.

Module CrossSearchSamples.

(** A section of 49 words and more than 200 characters. *)
Definition long_text : string :=
  (SearchSamples.words40 ++ " "
   ++ "and then some more words follow at the end")%string.

Definition disk : FileSystem :=
  fun path =>
    if String.eqb path "json/long.json" then
      JsonFile.Data (Some [ SearchSamples.section "Long" long_text [0.9%Q] ])
    else SearchSamples.disk path.

Definition corpus : list FileInfo.t :=
  SearchSamples.file "long" :: SearchSamples.corpus.

End CrossSearchSamples.

(** ** [get_section_content] and [get_document_summary] *)

(** A persisted record as [json.load] gives it back: each of the keys the
    two lookups read may be absent. *)
Module StoredRecord.
Record t : Type := mk
  { title : option string;
    outline : option (list Heading.t);
    metadata : option Metadata.t;
    sections : option (list Section.t) }.
End StoredRecord.

Module StoredFile.
Inductive t : Type :=
| Missing
| Unreadable
| Data (record : StoredRecord.t).
End StoredFile.

Definition Store : Type := string -> StoredFile.t.

(** What [get_document_summary] returns; [metadata] is [None] for the
    default [{}]. *)
Module Summary.
Record t : Type := mk
  { title : string;
    total_sections : Z;
    outline : list Heading.t;
    metadata : option Metadata.t }.
End Summary.

Module Lookup.

(** What the search reads of a store. *)
Definition files_of (store : Store) : FileSystem :=
  fun path =>
    match store path with
    | StoredFile.Missing => JsonFile.Missing
    | StoredFile.Unreadable => JsonFile.Unreadable
    | StoredFile.Data record => JsonFile.Data (StoredRecord.sections record)
    end.

(** [open(json_path)] and [json.load(f)], without a test that the file
    exists. *)
Definition load (store : Store) (json_path : string)
  : Py.result StoredRecord.t :=
  match store json_path with
  | StoredFile.Missing => Py.Raise (Py.External "open")
  | StoredFile.Unreadable => Py.Raise (Py.External "json.load")
  | StoredFile.Data record => Py.Ok record
  end.

(** [data.get(key, [])] *)
Definition get_list {A : Type} (o : option (list A)) : list A :=
  match o with
  | Some l => l
  | None => []
  end.

(** The two loops of [get_section_content] on a loaded record: the
    sections, then the outline. *)
Definition content_in_record (data : StoredRecord.t) (section_title : string)
  : option string :=
  match
    match StoredRecord.sections data with
    | Some sections =>
        find (fun section =>
                String.eqb (Section.section_title section) section_title)
          sections
    | None => None
    end
  with
  | Some section => Some (Section.content section)
  | None =>
      match find (fun heading => String.eqb (Heading.text heading)
                                   section_title)
              (get_list (StoredRecord.outline data)) with
      | Some _ =>
          Some ("Content for " ++ section_title ++ " (not precomputed)")%string
      | None => None
      end
  end.

Fixpoint get_section_content (store : Store)
    (document_name section_title : string)
    (processed_files : list FileInfo.t) : Py.result (option string) :=
  match processed_files with
  | [] => Py.Ok None
  | file_info :: rest =>
      if String.eqb (FileInfo.original_file file_info) document_name
      then
        data <- load store (FileInfo.json_path file_info) ;;
        Py.Ok (content_in_record data section_title)
      else get_section_content store document_name section_title rest
  end.

Definition summary_of_record (data : StoredRecord.t) : Summary.t :=
  {| Summary.title :=
       match StoredRecord.title data with Some t => t | None => "" end;
     Summary.total_sections :=
       Z.of_nat (List.length (get_list (StoredRecord.sections data)));
     Summary.outline := get_list (StoredRecord.outline data);
     Summary.metadata := StoredRecord.metadata data |}.

Fixpoint get_document_summary (store : Store) (document_name : string)
    (processed_files : list FileInfo.t) : Py.result (option Summary.t) :=
  match processed_files with
  | [] => Py.Ok None
  | file_info :: rest =>
      if String.eqb (FileInfo.original_file file_info) document_name
      then
        data <- load store (FileInfo.json_path file_info) ;;
        Py.Ok (Some (summary_of_record data))
      else get_document_summary store document_name rest
  end.

(** The record read back from the file in which [json.dump] wrote the
    result of [process_pdf]: every key is present. *)
Definition stored (idx : DocumentIndex.t) : StoredRecord.t :=
  {| StoredRecord.title := Some (DocumentIndex.title idx);
     StoredRecord.outline := Some (DocumentIndex.outline idx);
     StoredRecord.metadata := Some (DocumentIndex.metadata idx);
     StoredRecord.sections := Some (DocumentIndex.sections idx) |}.

(** The first entry of [processed_files] for a document. *)
Definition first_entry (document_name : string)
    (processed_files : list FileInfo.t) : option FileInfo.t :=
  find (fun file_info =>
          String.eqb (FileInfo.original_file file_info) document_name)
    processed_files.

(** The titles of the sections of every record of the corpus are pairwise
    distinct. *)
Definition distinct_titles (store : Store)
    (processed_files : list FileInfo.t) : Prop :=
  forall file_info record sections,
    In file_info processed_files ->
    store (FileInfo.json_path file_info) = StoredFile.Data record ->
    StoredRecord.sections record = Some sections ->
    NoDup (map Section.section_title sections).

End Lookup.

Module LookupSamples.

Definition record_a : StoredRecord.t :=
  {| StoredRecord.title := Some "Document A";
     StoredRecord.outline :=
       Some [ Samples.heading "H1" "Section A" 1;
              Samples.heading "H1" "Section B" 1;
              Samples.heading "H1" "Section C" 1;
              Samples.heading "H2" "Annex" 2 ];
     StoredRecord.metadata := None;
     StoredRecord.sections :=
       Some [ SearchSamples.section "Section A" SearchSamples.words40 [0.82%Q];
              SearchSamples.section "Section B"
                "only eight words are in this short section" [0.95%Q];
              SearchSamples.section "Section C" SearchSamples.words16 [0.5%Q] ] |}.

Definition record_b : StoredRecord.t :=
  {| StoredRecord.title := Some "Document B";
     StoredRecord.outline := None;
     StoredRecord.metadata := None;
     StoredRecord.sections :=
       Some [ SearchSamples.section "Section D" SearchSamples.words16 [0.82%Q];
              SearchSamples.section "Section E" SearchSamples.words16 [0.5%Q] ] |}.

Definition store : Store :=
  fun path =>
    if String.eqb path "json/a.json" then StoredFile.Data record_a
    else if String.eqb path "json/b.json" then StoredFile.Data record_b
    else StoredFile.Missing.

Definition corpus : list FileInfo.t :=
  [SearchSamples.file "gone"; SearchSamples.file "a"; SearchSamples.file "b"].

End LookupSamples.

(** ** [app.py]: the folders and the batch *)

Module Progress.
Record t : Type := mk
  { is_processing : bool;
    total_files : Z;
    processed_files : Z;
    current_file : string;
    status : string }.
End Progress.

(** One entry of the [processed_files] of the response of the batch. *)
Module ProcessedFile.
Record t : Type := mk { original_file : string; json_file : string }.
End ProcessedFile.

Module App.

Definition PDFS_FOLDER : string := "pdfs".
Definition JSON_FOLDER : string := "json".
Definition ALLOWED_EXTENSIONS : list string := ["pdf"].

(** [s.endswith(suffix)] *)
Fixpoint endswith (s suffix : string) : bool :=
  if String.eqb s suffix then true
  else match s with
       | EmptyString => false
       | String _ s' => endswith s' suffix
       end.

(** [s.rsplit(c, 1)[1]] when [c] is in [s]: what follows the last [c]. *)
Fixpoint after_last (c : ascii) (s : string) : option string :=
  match s with
  | EmptyString => None
  | String d s' =>
      match after_last c s' with
      | Some r => Some r
      | None => if Ascii.eqb d c then Some s' else None
      end
  end.

(** [s.replace(old, new)] for an [old] that is not empty: the occurrences
    are replaced from the left, [skip] characters of a replaced occurrence
    being still to pass. *)
Fixpoint replace_from (old new s : string) (skip : nat) : string :=
  match s with
  | EmptyString => EmptyString
  | String c s' =>
      match skip with
      | S k => replace_from old new s' k
      | O =>
          if String.prefix old s
          then (new ++ replace_from old new s' (String.length old - 1))%string
          else String c (replace_from old new s' 0)
      end
  end.

Definition replace (old new s : string) : string := replace_from old new s 0.

(** [os.path.join(a, b)] on POSIX paths. *)
Definition path_join (a b : string) : string :=
  if Py.startswith b "/" then b
  else if negb (Py.truthy a) || Py.endswith_char a "/"%char
       then (a ++ b)%string
       else (a ++ "/" ++ b)%string.

(** A folder: [None] when it does not exist or cannot be listed, the
    result of [os.listdir] otherwise. *)
Definition Folder : Type := option (list string).

Definition get_uploaded_pdfs (pdfs : Folder) : list string :=
  match pdfs with
  | None => []
  | Some names =>
      Py.sorted String.ltb
        (filter (fun filename => endswith (Py.lower filename) ".pdf") names)
  end.

Definition get_processed_jsons (jsons : Folder) : list string :=
  match jsons with
  | None => []
  | Some names =>
      Py.sorted String.ltb
        (filter (fun filename => endswith (Py.lower filename) ".json") names)
  end.

Definition allowed_file (filename : string) : bool :=
  Py.char_in "."%char filename
  && match after_last "."%char filename with
     | Some ext => existsb (String.eqb (Py.lower ext)) ALLOWED_EXTENSIONS
     | None => false
     end.

(** The loop of [get_processed_files_info]. *)
Definition files_info_step (pdf_files : list string)
    (processed_files : list FileInfo.t) (json_file : string)
  : list FileInfo.t :=
  let pdf_file := replace ".json" ".pdf" json_file in
  if existsb (String.eqb pdf_file) pdf_files
  then processed_files
       ++ [{| FileInfo.original_file := pdf_file;
              FileInfo.json_file := json_file;
              FileInfo.json_path := path_join JSON_FOLDER json_file |}]
  else processed_files.

Definition get_processed_files_info (pdfs jsons : Folder)
  : list FileInfo.t :=
  let pdf_files := get_uploaded_pdfs pdfs in
  let json_files := get_processed_jsons jsons in
  fold_left (files_info_step pdf_files) json_files [].

(** What the batch works with: the processor, what [fitz.open] reads at a
    path, and the time at which a path is processed. *)
Record Env : Type := mk_env
  { pdf_processor : PDFProcessor.t;
    fitz_open : string -> Py.result Document;
    clock : string -> string }.

(** [pdf_processor.process_pdf(pdf_path)] *)
Definition process_path (env : Env) (pdf_path : string)
  : Py.result DocumentIndex.t :=
  match fitz_open env pdf_path with
  | Py.Ok doc =>
      PDFProcessor.process_pdf (pdf_processor env) (clock env pdf_path)
        pdf_path doc
  | Py.Raise e =>
      Py.Raise (Py.Exception ("Error processing PDF " ++ pdf_path)%string)
  end.

(** The state the batch changes: the progress and the files written in the
    JSON folder, in the order of the writes. *)
Record State : Type := mk_state
  { progress : Progress.t;
    written : list (string * DocumentIndex.t) }.

Definition set_current_file (p : Progress.t) (filename : string)
  : Progress.t :=
  {| Progress.is_processing := Progress.is_processing p;
     Progress.total_files := Progress.total_files p;
     Progress.processed_files := Progress.processed_files p;
     Progress.current_file := filename;
     Progress.status := Progress.status p |}.

Definition set_processed_files (p : Progress.t) (n : Z) : Progress.t :=
  {| Progress.is_processing := Progress.is_processing p;
     Progress.total_files := Progress.total_files p;
     Progress.processed_files := n;
     Progress.current_file := Progress.current_file p;
     Progress.status := Progress.status p |}.

(** The body of the loop of [process_files]; the writing of the file is
    taken to succeed. *)
Definition process_step (env : Env)
    (acc : State * list ProcessedFile.t) (ifile : Z * string)
  : State * list ProcessedFile.t :=
  let '(st, processed_files) := acc in
  let '(i, filename) := ifile in
  let progress := set_current_file (progress st) filename in
  let pdf_path := path_join PDFS_FOLDER filename in
  match process_path env pdf_path with
  | Py.Ok json_data =>
      let json_filename := replace ".pdf" ".json" filename in
      let json_path := path_join JSON_FOLDER json_filename in
      ({| progress := set_processed_files progress (i + 1);
          written := written st ++ [(json_path, json_data)] |},
       processed_files
       ++ [{| ProcessedFile.original_file := filename;
              ProcessedFile.json_file := json_filename |}])
  | Py.Raise _ =>
      ({| progress := progress; written := written st |}, processed_files)
  end.

Inductive Response : Type :=
| NoFiles
| Completed (processed_files : list ProcessedFile.t).

Definition process_files (env : Env) (pdfs : Folder) (st : State)
  : State * Response :=
  let pdf_files := get_uploaded_pdfs pdfs in
  match pdf_files with
  | [] => (st, NoFiles)
  | _ :: _ =>
      let started :=
        {| progress :=
             {| Progress.is_processing := true;
                Progress.total_files := Z.of_nat (List.length pdf_files);
                Progress.processed_files := 0;
                Progress.current_file := "";
                Progress.status := "processing" |};
           written := written st |} in
      let '(st', processed_files) :=
        fold_left (process_step env) (Py.enumerate pdf_files) (started, []) in
      ({| progress :=
            {| Progress.is_processing := false;
               Progress.total_files := Progress.total_files (progress st');
               Progress.processed_files :=
                 Progress.processed_files (progress st');
               Progress.current_file := "";
               Progress.status := "completed" |};
          written := written st' |},
       Completed processed_files)
  end.

(** The files of a batch that are processed without error. *)
Definition succeeds (env : Env) (filename : string) : bool :=
  match process_path env (path_join PDFS_FOLDER filename) with
  | Py.Ok _ => true
  | Py.Raise _ => false
  end.

Definition entry_of_file (filename : string) : ProcessedFile.t :=
  {| ProcessedFile.original_file := filename;
     ProcessedFile.json_file := replace ".pdf" ".json" filename |}.

(** The files written for a list of PDF files: one for every file that is
    processed without error. *)
Definition writes_of (env : Env) (pdf_files : list string)
  : list (string * DocumentIndex.t) :=
  flat_map
    (fun filename =>
       match process_path env (path_join PDFS_FOLDER filename) with
       | Py.Ok json_data =>
           [(path_join JSON_FOLDER (replace ".pdf" ".json" filename),
             json_data)]
       | Py.Raise _ => []
       end)
    pdf_files.

End App.

Module AppSamples.

(** A folder with two readable reports, a damaged file and a note. *)
Definition pdfs : App.Folder :=
  Some ["two.pdf"; "notes.txt"; "broken.pdf"; "report.pdf"].

Definition env : App.Env :=
  {| App.pdf_processor := Samples.processor_without_model;
     App.fitz_open :=
       fun path =>
         if String.eqb path "pdfs/two.pdf" then Py.Ok Samples.two_pages
         else if String.eqb path "pdfs/report.pdf" then Py.Ok Samples.report
         else Py.Raise (Py.External "fitz.open");
     App.clock := fun _ => "2026-01-01T00:00:00" |}.

Definition idle : App.State :=
  {| App.progress :=
       {| Progress.is_processing := false;
          Progress.total_files := 0;
          Progress.processed_files := 0;
          Progress.current_file := "";
          Progress.status := "idle" |};
     App.written := [] |}.

End AppSamples.

(** ** Facts about the builtins *)

Section SortedFacts.

Context {A : Type} (lt : A -> A -> bool).

Lemma insert_sorted_in (x y : A) (l : list A) :
  In y (Py.insert_sorted lt x l) <-> y = x \/ In y l.
Proof.
  induction l as [|z l IH]; simpl.
  - intuition.
  - destruct (lt z x); simpl; rewrite ?IH; intuition.
Qed.

Lemma sorted_in (y : A) (l : list A) : In y (Py.sorted lt l) <-> In y l.
Proof.
  induction l as [|x l IH]; simpl.
  - tauto.
  - rewrite insert_sorted_in, IH. intuition.
Qed.

Lemma insert_sorted_length (x : A) (l : list A) :
  List.length (Py.insert_sorted lt x l) = S (List.length l).
Proof.
  induction l as [|z l IH]; simpl; [reflexivity|].
  destruct (lt z x); simpl; [rewrite IH|]; reflexivity.
Qed.

Lemma sorted_length (l : list A) :
  List.length (Py.sorted lt l) = List.length l.
Proof.
  induction l as [|x l IH]; simpl; [reflexivity|].
  rewrite insert_sorted_length, IH. reflexivity.
Qed.

Lemma insert_sorted_perm (x : A) (l : list A) :
  Permutation (Py.insert_sorted lt x l) (x :: l).
Proof.
  induction l as [|z l IH]; simpl; [reflexivity|].
  destruct (lt z x); [|reflexivity].
  rewrite IH. apply perm_swap.
Qed.

(** [sorted] rearranges its argument. *)
Lemma sorted_perm (l : list A) : Permutation (Py.sorted lt l) l.
Proof.
  induction l as [|x l IH]; simpl; [reflexivity|].
  rewrite insert_sorted_perm. now constructor.
Qed.

End SortedFacts.

Lemma last_cons {A : Type} (a d : A) (l : list A) :
  last (a :: l) d = last l a.
Proof.
  revert a d. induction l as [|b l IH]; intros a d; [reflexivity|].
  change (last (a :: b :: l) d) with (last (b :: l) d).
  rewrite (IH b d), (IH b a). reflexivity.
Qed.

Lemma map_snd_combine {A B : Type} (l1 : list A) (l2 : list B) :
  List.length l1 = List.length l2 -> map snd (combine l1 l2) = l2.
Proof.
  revert l2. induction l1 as [|a l1 IH]; intros [|b l2] H; simpl in *;
    try discriminate; [reflexivity|].
  f_equal. apply IH. lia.
Qed.

Lemma map_snd_enumerate {A : Type} (l : list A) :
  map snd (Py.enumerate l) = l.
Proof.
  unfold Py.enumerate. apply map_snd_combine.
  rewrite length_map, length_seq. reflexivity.
Qed.

Lemma map_fst_combine {A B : Type} (l1 : list A) (l2 : list B) :
  List.length l1 = List.length l2 -> map fst (combine l1 l2) = l1.
Proof.
  revert l2. induction l1 as [|a l1 IH]; intros [|b l2] H; simpl in *;
    try discriminate; [reflexivity|].
  f_equal. apply IH. lia.
Qed.

Lemma firstn_incl {A : Type} (n : nat) (l : list A) (x : A) :
  In x (firstn n l) -> In x l.
Proof.
  revert l. induction n as [|n IH]; intros [|y l]; simpl; try tauto.
  intros [H|H]; [now left|right; now apply IH].
Qed.

Lemma Qltb_lt (x y : Q) : Py.Qltb x y = true <-> (x < y)%Q.
Proof.
  unfold Py.Qltb. rewrite negb_true_iff.
  split; intros H.
  - apply Qnot_le_lt. intros Hle.
    apply Qle_bool_iff in Hle. congruence.
  - destruct (Qle_bool y x) eqn:E; [|reflexivity].
    apply Qle_bool_iff in E. exfalso. exact (Qlt_not_le _ _ H E).
Qed.

Lemma Qltb_ge (x y : Q) : Py.Qltb x y = false <-> (y <= x)%Q.
Proof.
  unfold Py.Qltb. rewrite negb_false_iff. apply Qle_bool_iff.
Qed.

(** ** The heuristic classifier *)

Section Heuristic.

Import PDFProcessor Reference.

(** The loop appends, in order, the entries of the outline blocks, and
    leaves in [title_text] the text of the last title block it met. *)
Lemma simple_loop_spec (items : list Feature.t) (title_text : string)
    (outline : list Heading.t) :
  simple_loop items title_text outline =
  (last (map Feature.text (title_blocks items)) title_text,
   outline ++ map simple_entry (outline_blocks items)).
Proof.
  revert title_text outline.
  induction items as [|item rest IH]; intros title_text outline.
  - simpl. rewrite app_nil_r. reflexivity.
  - unfold title_blocks, outline_blocks in *.
    cbn [simple_loop filter].
    destruct (is_title_block item) eqn:Ht; cbn [negb andb map].
    + rewrite IH, last_cons. reflexivity.
    + destruct (String.eqb (heuristic_level item) "None") eqn:Hl;
        cbn [negb map].
      * apply IH.
      * rewrite IH, <- app_assoc. reflexivity.
Qed.

Lemma predict_headings_simple_spec (input_data : list Feature.t) :
  let sorted_data := Py.sorted reading_key_lt input_data in
  Prediction.title (predict_headings_simple input_data) =
    Py.strip (last (map Feature.text (title_blocks sorted_data)) "")
  /\ Prediction.outline (predict_headings_simple input_data) =
     map simple_entry (outline_blocks sorted_data).
Proof.
  unfold predict_headings_simple. simpl.
  rewrite simple_loop_spec. simpl. split; reflexivity.
Qed.

End Heuristic.

(** ** Stability of [sorted] *)

Section StableSort.

Import Stable.

Context {A : Type} (lt : A -> A -> bool).

Hypothesis lt_asym : forall a b, lt a b = true -> lt b a = false.
Hypothesis lt_negtrans :
  forall a b c, lt b a = false -> lt c b = false -> lt c a = false.

Lemma insert_tagged_sorted (x : nat * A) (l : list (nat * A)) :
  StronglySorted (stable_before lt) l ->
  Forall (fun y => (fst x < fst y)%nat) l ->
  StronglySorted (stable_before lt) (Py.insert_sorted (tagged_lt lt) x l).
Proof.
  intros Hs. induction Hs as [|y l Hs IH Hy]; intros Hx.
  - simpl. constructor; constructor.
  - cbn [Py.insert_sorted]. unfold tagged_lt at 1.
    apply Forall_cons_iff in Hx. destruct Hx as [Hxy Hxl].
    destruct (lt (snd y) (snd x)) eqn:Hyx.
    + constructor; [now apply IH|].
      apply Forall_forall. intros z Hz.
      apply insert_sorted_in in Hz. destruct Hz as [->|Hz].
      * split; [now apply lt_asym|]. congruence.
      * rewrite Forall_forall in Hy. now apply Hy.
    + constructor; [now constructor|].
      constructor; [split; [exact Hyx|intros _; exact Hxy]|].
      apply Forall_forall. intros z Hz.
      rewrite Forall_forall in Hy, Hxl.
      destruct (Hy z Hz) as [Hzy _].
      split; [now apply (lt_negtrans (snd x) (snd y))|].
      intros _. now apply Hxl.
Qed.

Lemma combine_seq_in (l : list A) (start i : nat) (x : A) :
  In (i, x) (combine (seq start (List.length l)) l) ->
  (start <= i)%nat /\ nth_error l (i - start) = Some x.
Proof.
  revert start. induction l as [|y l IH]; intros start; simpl; [tauto|].
  intros [H|H].
  - injection H as <- <-. split; [lia|]. now rewrite Nat.sub_diag.
  - apply IH in H. destruct H as [Hle Hn]. split; [lia|].
    replace (i - start)%nat with (S (i - S start)) by lia. exact Hn.
Qed.

Lemma sorted_tagged_from (l : list A) (start : nat) :
  StronglySorted (stable_before lt)
    (Py.sorted (tagged_lt lt) (combine (seq start (List.length l)) l)).
Proof.
  revert start. induction l as [|x l IH]; intros start.
  - simpl. constructor.
  - cbn [List.length seq combine Py.sorted].
    apply insert_tagged_sorted; [apply IH|].
    apply Forall_forall. intros [i y] Hy.
    apply sorted_in in Hy. apply combine_seq_in in Hy. simpl. lia.
Qed.

(** The sort of the tagged list is ordered by [stable_before]. *)
Lemma sorted_tagged (l : list A) :
  StronglySorted (stable_before lt) (Py.sorted (tagged_lt lt) (tagged l)).
Proof. apply sorted_tagged_from. Qed.

(** The sort of the tagged list is the sort of the list, tagged. *)
Lemma insert_sorted_untag (x : nat * A) (l : list (nat * A)) :
  map snd (Py.insert_sorted (tagged_lt lt) x l)
  = Py.insert_sorted lt (snd x) (map snd l).
Proof.
  induction l as [|y l IH]; simpl; [reflexivity|].
  unfold tagged_lt at 1. destruct (lt (snd y) (snd x)); simpl;
    [now rewrite IH|reflexivity].
Qed.

Lemma sorted_untag (l : list (nat * A)) :
  map snd (Py.sorted (tagged_lt lt) l) = Py.sorted lt (map snd l).
Proof.
  induction l as [|x l IH]; simpl; [reflexivity|].
  now rewrite insert_sorted_untag, IH.
Qed.

Lemma sorted_tagged_values (l : list A) :
  map snd (Py.sorted (tagged_lt lt) (tagged l)) = Py.sorted lt l.
Proof.
  rewrite sorted_untag. unfold tagged.
  rewrite map_snd_combine; [reflexivity|apply length_seq].
Qed.

Lemma sorted_tagged_in (l : list A) (i : nat) (x : A) :
  In (i, x) (Py.sorted (tagged_lt lt) (tagged l)) -> nth_error l i = Some x.
Proof.
  intros H. apply sorted_in in H. apply combine_seq_in in H.
  destruct H as [_ H]. now rewrite Nat.sub_0_r in H.
Qed.

End StableSort.

Section SortedLists.

Context {A : Type} (R : A -> A -> Prop).

Lemma StronglySorted_filter (p : A -> bool) (l : list A) :
  StronglySorted R l -> StronglySorted R (filter p l).
Proof.
  induction 1 as [|x l Hs IH Hx]; simpl; [constructor|].
  destruct (p x); [|exact IH].
  constructor; [exact IH|].
  apply Forall_forall. intros y Hy. apply filter_In in Hy.
  rewrite Forall_forall in Hx. now apply Hx.
Qed.

Lemma StronglySorted_firstn (n : nat) (l : list A) :
  StronglySorted R l -> StronglySorted R (firstn n l).
Proof.
  intros Hs. revert n.
  induction Hs as [|x l Hs IH Hx]; intros [|n]; simpl; try constructor.
  - apply IH.
  - apply Forall_forall. intros y Hy. apply firstn_incl in Hy.
    rewrite Forall_forall in Hx. now apply Hx.
Qed.

Lemma StronglySorted_nth (l : list A) (i j : nat) (a b : A) :
  StronglySorted R l -> (i < j)%nat ->
  nth_error l i = Some a -> nth_error l j = Some b -> R a b.
Proof.
  intros Hs. revert i j.
  induction Hs as [|x l Hs IH Hx]; intros i j Hij Hi Hj.
  - destruct i; discriminate.
  - destruct j as [|j]; [lia|]. simpl in Hj.
    destruct i as [|i]; simpl in Hi.
    + injection Hi as <-. rewrite Forall_forall in Hx.
      apply Hx. eapply nth_error_In. exact Hj.
    + apply (IH i j); [lia|assumption|assumption].
Qed.

End SortedLists.

(** ** The reading order of the heuristic classifier *)

Section ReadingOrder.

Import PDFProcessor Stable.

Lemma reading_key_lt_asym (a b : Feature.t) :
  reading_key_lt a b = true -> reading_key_lt b a = false.
Proof.
  unfold reading_key_lt.
  destruct (Z.eqb_spec (Feature.page_no a) (Feature.page_no b)) as [E|E].
  - rewrite E, Z.eqb_refl. intros H.
    apply Qltb_lt in H. apply Qltb_ge. now apply Qlt_le_weak.
  - intros H. apply Z.ltb_lt in H.
    destruct (Z.eqb_spec (Feature.page_no b) (Feature.page_no a)); [lia|].
    apply Z.ltb_ge. lia.
Qed.

Lemma reading_key_lt_negtrans (a b c : Feature.t) :
  reading_key_lt b a = false -> reading_key_lt c b = false ->
  reading_key_lt c a = false.
Proof.
  unfold reading_key_lt.
  destruct (Z.eqb_spec (Feature.page_no b) (Feature.page_no a)) as [E1|E1];
    destruct (Z.eqb_spec (Feature.page_no c) (Feature.page_no b)) as [E2|E2];
    destruct (Z.eqb_spec (Feature.page_no c) (Feature.page_no a)) as [E3|E3];
    intros H1 H2.
  - apply Qltb_ge in H1, H2. apply Qltb_ge. eapply Qle_trans; eassumption.
  - congruence.
  - congruence.
  - apply Z.ltb_ge in H2. apply Z.ltb_ge. lia.
  - congruence.
  - apply Z.ltb_ge in H1. apply Z.ltb_ge. lia.
  - apply Z.ltb_ge in H1, H2. lia.
  - apply Z.ltb_ge in H1, H2. apply Z.ltb_ge. lia.
Qed.

(** The sorted data is in reading order, and blocks with the same page and
    height keep the order of the input. *)
Lemma sorted_data_reading_order (input_data : list Feature.t) :
  StronglySorted (stable_before reading_key_lt)
    (Py.sorted (tagged_lt reading_key_lt) (tagged input_data))
  /\ map snd (Py.sorted (tagged_lt reading_key_lt) (tagged input_data))
     = Py.sorted reading_key_lt input_data.
Proof.
  split.
  - apply sorted_tagged.
    + exact reading_key_lt_asym.
    + exact reading_key_lt_negtrans.
  - apply sorted_tagged_values.
Qed.

End ReadingOrder.

(** ** The feature extractor *)

Section Monadic.

Context {A B : Type} (f : A -> Py.result B).

Lemma mapM_Forall2 (l : list A) (ys : list B) :
  Py.mapM f l = Py.Ok ys -> Forall2 (fun x y => f x = Py.Ok y) l ys.
Proof.
  revert ys. induction l as [|x l IH]; intros ys H; simpl in H.
  - injection H as <-. constructor.
  - destruct (f x) as [y|e] eqn:Hx; simpl in H; [|discriminate].
    destruct (Py.mapM f l) as [ys'|e] eqn:Hl; simpl in H; [|discriminate].
    injection H as <-. constructor; auto.
Qed.

Lemma Forall2_mapM (l : list A) (ys : list B) :
  Forall2 (fun x y => f x = Py.Ok y) l ys -> Py.mapM f l = Py.Ok ys.
Proof.
  induction 1 as [|x y l ys Hx _ IH]; simpl; [reflexivity|].
  rewrite Hx, IH. reflexivity.
Qed.

End Monadic.



(** [bind_inv H a Ha]: [H] says a sequence of two steps is [Ok]; name
    the value [a] of the first and keep its equation [Ha]. *)
Ltac bind_inv H a Ha :=
  match type of H with
  | Py.bind ?c _ = Py.Ok _ =>
      let e := fresh "e" in
      destruct c as [a|e] eqn:Ha; [cbn [Py.bind] in H|discriminate H]
  end.

Section Extractor.

Import PDFProcessor Reference.

Lemma underline_fold (spans : list Span.t) (u : bool) :
  fold_left (fun u span => if span_underlined span then true else u) spans u
  = u || existsb span_underlined spans.
Proof.
  revert u. induction spans as [|s spans IH]; intros u; simpl.
  - now rewrite orb_false_r.
  - rewrite IH. destruct (span_underlined s), u; reflexivity.
Qed.

Lemma scan_lines_fold (lines : list Line.t) (line_texts : list string)
    (u : bool) :
  fold_left scan_lines_step lines (line_texts, u)
  = (line_texts ++ map text_line (filter nonblank lines),
     u || existsb (fun line => existsb span_underlined (Line.spans line))
            lines).
Proof.
  revert line_texts u.
  induction lines as [|line lines IH]; intros line_texts u; simpl.
  - now rewrite app_nil_r, orb_false_r.
  - rewrite underline_fold. unfold nonblank at 1.
    destruct (Py.truthy (Py.strip (text_line line))); simpl;
      rewrite IH, ?orb_assoc, <- ?app_assoc; reflexivity.
Qed.

Lemma scan_lines_spec (b : Block.t) :
  scan_lines b
  = (map text_line (filter nonblank (Block.lines b)), any_span_underlined b).
Proof. unfold scan_lines. now rewrite scan_lines_fold. Qed.

Lemma filter_nil_existsb {A : Type} (p : A -> bool) (l : list A) :
  existsb p l = match filter p l with [] => false | _ :: _ => true end.
Proof.
  induction l as [|x l IH]; simpl; [reflexivity|].
  destruct (p x); simpl; [reflexivity|exact IH].
Qed.

(** What one iteration over a block gives: nothing for a block that is
    not kept, and for a kept block the flags of the record. *)
Lemma scan_block_spec (page_num : Z) (page : Page.t) (m : Q) (i : Z)
    (b : Block.t) (o : option BlockData.t) :
  scan_block page_num page m (i, b) = Py.Ok o ->
  match o with
  | None => is_kept b = false
  | Some bd =>
      is_kept b = true
      /\ BlockData.is_bold bd = first_span_bold b
      /\ BlockData.is_underlined bd = any_span_underlined b
  end.
Proof.
  unfold scan_block, is_kept.
  destruct (Block.type b =? 0) eqn:Ht; simpl.
  2:{ intros H. injection H as <-. reflexivity. }
  destruct (is_table_block b) eqn:Htab; simpl.
  1:{ intros H. injection H as <-. reflexivity. }
  rewrite scan_lines_spec, (filter_nil_existsb nonblank).
  destruct (filter nonblank (Block.lines b)) as [|l ls] eqn:Hf; simpl.
  1:{ intros H. injection H as <-. reflexivity. }
  unfold first_span_bold, first_span.
  destruct (Block.lines b) as [|line0 lines]; simpl; [discriminate|].
  destruct (Line.spans line0) as [|s0 spans]; simpl; [discriminate|].
  intros H. injection H as <-. simpl. auto.
Qed.

Lemma scan_blocks_spec (page_num : Z) (page : Page.t) (m : Q)
    (ibs : list (Z * Block.t)) (scanned : list (option BlockData.t)) :
  Py.mapM (scan_block page_num page m) ibs = Py.Ok scanned ->
  Forall2 flags_of_block (keep_some scanned) (filter is_kept (map snd ibs)).
Proof.
  intros H. apply mapM_Forall2 in H.
  induction H as [|[i b] o ibs scanned Hb _ IH]; simpl; [constructor|].
  apply scan_block_spec in Hb.
  destruct o as [bd|].
  - destruct Hb as (-> & Hbold & Hund). simpl.
    constructor; [split; assumption|exact IH].
  - rewrite Hb. exact IH.
Qed.

Lemma add_spacing_data (h : Q) (prev : option BlockData.t)
    (page_blocks : list BlockData.t) :
  map TextBlock.data (add_spacing h prev page_blocks) = page_blocks.
Proof.
  revert prev. induction page_blocks as [|bd rest IH]; intros prev; simpl;
    [reflexivity|].
  now rewrite IH.
Qed.

Lemma scan_page_spec (page_num : Z) (page : Page.t)
    (tbs : list TextBlock.t) :
  scan_page (page_num, page) = Py.Ok tbs ->
  Forall2 flags_of_block (map TextBlock.data tbs)
    (filter is_kept (Page.blocks page)).
Proof.
  unfold scan_page. intros H. bind_inv H scanned Hs.
  injection H as <-. rewrite add_spacing_data.
  apply scan_blocks_spec in Hs. now rewrite map_snd_enumerate in Hs.
Qed.

Lemma scan_pages_spec (ips : list (Z * Page.t))
    (per_page : list (list TextBlock.t)) :
  Py.mapM scan_page ips = Py.Ok per_page ->
  Forall2 flags_of_block (map TextBlock.data (List.concat per_page))
    (kept_blocks (map snd ips)).
Proof.
  intros H. apply mapM_Forall2 in H.
  induction H as [|[i page] tbs ips per_page Hp _ IH]; simpl; [constructor|].
  rewrite map_app. apply Forall2_app; [|exact IH].
  now apply scan_page_spec in Hp.
Qed.

Lemma all_text_blocks_raw_spec (doc : Document) (raw : list TextBlock.t) :
  all_text_blocks_raw doc = Py.Ok raw ->
  Forall2 flags_of_block (map TextBlock.data raw) (kept_blocks doc).
Proof.
  unfold all_text_blocks_raw. intros H. bind_inv H per_page Hp.
  injection H as <-. apply scan_pages_spec in Hp.
  now rewrite map_snd_enumerate in Hp.
Qed.

Lemma derive_features_flags (self : t) (m : Q) (tb : TextBlock.t)
    (f : Feature.t) :
  derive_features self m tb = Py.Ok f ->
  Feature.is_bold f = BlockData.is_bold (TextBlock.data tb)
  /\ Feature.is_underlined f = BlockData.is_underlined (TextBlock.data tb).
Proof.
  unfold derive_features. intros H.
  bind_inv H a1 H1. bind_inv H a2 H2. bind_inv H a3 H3. bind_inv H a4 H4.
  bind_inv H a5 H5. bind_inv H a6 H6. bind_inv H a7 H7. bind_inv H a8 H8.
  injection H as <-. split; reflexivity.
Qed.

End Extractor.

(** ** The section segmenter *)

Lemma string_app_nil_r (s : string) : (s ++ "")%string = s.
Proof. induction s as [|c s IH]; simpl; [reflexivity|now rewrite IH]. Qed.

Lemma string_app_assoc (a b c : string) :
  ((a ++ b) ++ c)%string = (a ++ b ++ c)%string.
Proof. induction a as [|x a IH]; simpl; [reflexivity|now rewrite IH]. Qed.

Lemma skipn_nth_error {A : Type} (n : nat) (l : list A) (x : A) :
  nth_error l n = Some x -> skipn n l = x :: skipn (S n) l.
Proof.
  revert l. induction n as [|n IH]; intros [|y l] H; simpl in *;
    try discriminate.
  - now injection H as ->.
  - now apply IH.
Qed.

Section Segmenter.

Import PDFProcessor Reference.

Lemma scan_returned (heading : Heading.t) (next_heading : option Heading.t)
    (lines : list Line.t) (value : string) :
  fold_left (scan_line heading next_heading) lines (Returned value)
  = Returned value.
Proof. induction lines as [|l lines IH]; simpl; [reflexivity|exact IH]. Qed.

(** Once the heading is found, the lines are accumulated up to the first
    one that contains the next heading's text. *)
Lemma scan_found (heading : Heading.t) (next_heading : option Heading.t)
    (lines : list Line.t) (full_text : string) :
  final (fold_left (scan_line heading next_heading) lines
           (Scanning full_text true))
  = Py.strip
      (full_text
       ++ spaced (match next_heading with
                  | Some nxt => before_next nxt lines
                  | None => lines
                  end))%string.
Proof.
  revert full_text.
  induction lines as [|line lines IH]; intros full_text.
  - simpl. destruct next_heading; simpl; now rewrite string_app_nil_r.
  - destruct next_heading as [nxt|];
      cbn [fold_left scan_line negb andb before_next].
    + destruct (matches nxt line).
      * rewrite scan_returned. simpl. now rewrite string_app_nil_r.
      * rewrite IH. cbn [spaced fold_right].
        now rewrite !string_app_assoc.
    + rewrite IH. cbn [spaced fold_right].
      now rewrite !string_app_assoc.
Qed.

(** Before the heading is found, the lines are ignored. *)
Lemma scan_not_found (heading : Heading.t)
    (next_heading : option Heading.t) (lines : list Line.t)
    (full_text : string) :
  final (fold_left (scan_line heading next_heading) lines
           (Scanning full_text false))
  = Py.strip (full_text ++ spaced (body_lines heading next_heading lines))%string.
Proof.
  induction lines as [|line lines IH].
  - simpl. unfold body_lines.
    destruct next_heading; simpl; now rewrite string_app_nil_r.
  - cbn [fold_left scan_line negb andb].
    destruct (matches heading line) eqn:Hm.
    + rewrite scan_found. unfold body_lines. cbn [after_heading].
      rewrite Hm. reflexivity.
    + rewrite IH. unfold body_lines. cbn [after_heading].
      rewrite Hm. reflexivity.
Qed.

(** The scan of pages that all load is the scan of their lines. *)
Lemma scan_pages_lines (heading : Heading.t)
    (next_heading : option Heading.t) (doc : Document)
    (page_nums : list Z) (pages : list Page.t) (st : scan) :
  Forall2 (fun n page => load_page doc n = Py.Ok page) page_nums pages ->
  scan_pages doc heading next_heading page_nums st
  = Py.Ok (fold_left (scan_line heading next_heading)
             (flat_map page_lines pages) st).
Proof.
  intros H. revert st.
  induction H as [|n page page_nums pages Hload _ IH]; intros st.
  - reflexivity.
  - cbn [scan_pages flat_map]. destruct st as [full_text found|value].
    + rewrite Hload. cbn [Py.bind]. rewrite IH, fold_left_app. reflexivity.
    + now rewrite scan_returned.
Qed.

(** The page numbers [a, a+1, ..] inside the document load the pages at
    these positions. *)
Lemma load_range (doc : Document) (k : nat) (a : Z) :
  0 <= a -> a + Z.of_nat k <= Z.of_nat (List.length doc) ->
  Forall2 (fun n page => load_page doc n = Py.Ok page)
    (map (fun i => a + Z.of_nat i) (seq 0 k))
    (firstn k (skipn (Z.to_nat a) doc)).
Proof.
  revert a. induction k as [|k IH]; intros a Ha Hk; [constructor|].
  destruct (nth_error doc (Z.to_nat a)) as [page|] eqn:Hn.
  2:{ apply nth_error_None in Hn. lia. }
  rewrite (skipn_nth_error _ _ _ Hn).
  cbn [seq map firstn]. constructor.
  - unfold load_page.
    replace (a + Z.of_nat 0) with a by lia.
    destruct (a <? Z.of_nat (List.length doc)) eqn:E1;
      [|apply Z.ltb_ge in E1; lia].
    destruct (a <? 0) eqn:E2; [apply Z.ltb_lt in E2; lia|].
    now rewrite Hn.
  - rewrite <- seq_shift, map_map.
    replace (S (Z.to_nat a)) with (Z.to_nat (a + 1)) by lia.
    erewrite map_ext; [apply (IH (a + 1)); lia|].
    intros i. simpl. lia.
Qed.

Lemma extract_text_for_heading_spec (doc : Document) (heading : Heading.t)
    (next_heading : option Heading.t) :
  1 <= Heading.page heading <= Z.of_nat (List.length doc) ->
  (forall nxt, next_heading = Some nxt ->
               Heading.page nxt <= Z.of_nat (List.length doc)) ->
  extract_text_for_heading doc heading next_heading
  = Py.Ok (content doc heading next_heading).
Proof.
  intros Hh Hn. unfold extract_text_for_heading.
  rewrite (scan_pages_lines heading next_heading doc _
             (window doc heading next_heading)).
  - cbn [Py.bind].
    pose proof (scan_not_found heading next_heading
                  (flat_map page_lines (window doc heading next_heading))
                  "") as Hs.
    cbn [String.append] in Hs. unfold content, window_lines.
    rewrite <- Hs.
    destruct (fold_left _ _ _); reflexivity.
  - unfold Py.range, window, start_page, end_page.
    replace (match next_heading with
             | Some nxt => Heading.page nxt - 1
             | None => Z.of_nat (List.length doc) - 1
             end + 1 - (Heading.page heading - 1))
      with (match next_heading with
            | Some nxt => Heading.page nxt
            | None => Z.of_nat (List.length doc)
            end - Heading.page heading + 1)
      by (destruct next_heading; lia).
    apply load_range; [lia|].
    destruct next_heading as [nxt|]; [specialize (Hn nxt eq_refl)|]; lia.
Qed.

Lemma after_heading_no_match (heading : Heading.t) (lines : list Line.t) :
  existsb (matches heading) lines = false -> after_heading heading lines = [].
Proof.
  induction lines as [|line lines IH]; simpl; [reflexivity|].
  destruct (matches heading line); simpl; [discriminate|exact IH].
Qed.

Lemma content_no_match (doc : Document) (heading : Heading.t)
    (next_heading : option Heading.t) :
  existsb (matches heading) (window_lines doc heading next_heading) = false ->
  content doc heading next_heading = "".
Proof.
  intros H. unfold content, body_lines.
  rewrite (after_heading_no_match _ _ H).
  destruct next_heading; reflexivity.
Qed.

Lemma with_next_pages (outline : list Heading.t) (curr : Heading.t)
    (nxt : option Heading.t) :
  In (curr, nxt) (with_next outline) ->
  In curr outline /\ (forall n, nxt = Some n -> In n outline).
Proof.
  induction outline as [|h rest IH]; simpl; [tauto|].
  intros [H|H].
  - injection H as -> <-. split; [now left|].
    intros n Hn. right. destruct rest; simpl in Hn; [discriminate|].
    injection Hn as ->. now left.
  - destruct (IH H) as [H1 H2]. split; [now right|].
    intros n Hn. right. now apply H2.
Qed.

Lemma sections_loop_spec (self : t) (doc : Document)
    (outline : list Heading.t) (sections : list Section.t) :
  (forall h, In h outline ->
             1 <= Heading.page h <= Z.of_nat (List.length doc)) ->
  sections_loop self doc outline sections
  = Py.Ok (sections ++ segments self doc outline).
Proof.
  revert sections.
  induction outline as [|curr rest IH]; intros sections Hv.
  - simpl. now rewrite app_nil_r.
  - cbn [sections_loop].
    rewrite extract_text_for_heading_spec.
    + cbn [Py.bind]. unfold segments. cbn [with_next flat_map fst snd].
      destruct (Py.truthy (content doc curr (hd_error rest)));
        rewrite IH by (intros h Hh; apply Hv; now right).
      * now rewrite <- app_assoc.
      * reflexivity.
    + apply Hv. now left.
    + intros nxt Hn. destruct rest as [|n rest']; [discriminate|].
      injection Hn as ->. apply Hv. right. now left.
Qed.

End Segmenter.

(** ** The similarity search *)

Section Search.

Import SimilarityAnalyzer SearchReference.

(** *** Counting words *)

Lemma no_space_app (a b : string) :
  no_space (a ++ b)%string = no_space a && no_space b.
Proof.
  induction a as [|c a IH]; simpl; [reflexivity|].
  now rewrite IH, andb_assoc.
Qed.

(** The tokens of a split are not empty and have no whitespace. *)
Lemma split_from_tokens (s cur : string) :
  no_space cur = true ->
  Forall (fun w => no_space w = true /\ Py.truthy w = true)
    (Py.split_from s cur).
Proof.
  revert cur. induction s as [|c s IH]; intros cur Hcur; simpl.
  - destruct (Py.truthy cur) eqn:Ht; repeat constructor; assumption.
  - destruct (Py.is_space c) eqn:Hc.
    + destruct (Py.truthy cur) eqn:Ht.
      * constructor; [split; assumption|]. now apply IH.
      * now apply IH.
    + apply IH. rewrite no_space_app, Hcur. simpl. now rewrite Hc.
Qed.

Lemma rstrip_no_space (w : string) : no_space w = true -> Py.rstrip w = w.
Proof.
  induction w as [|c w IH]; simpl; [reflexivity|].
  intros H. apply andb_prop in H. destruct H as [Hc Hw].
  rewrite (IH Hw). apply negb_true_iff in Hc. rewrite Hc.
  destruct w; reflexivity.
Qed.

Lemma strip_no_space (w : string) : no_space w = true -> Py.strip w = w.
Proof.
  intros H. unfold Py.strip. rewrite (rstrip_no_space _ H).
  destruct w as [|c w]; simpl in *; [reflexivity|].
  apply andb_prop in H. destruct H as [Hc _].
  apply negb_true_iff in Hc. now rewrite Hc.
Qed.

(** [count_words] counts the non-empty tokens of the split. *)
Lemma count_words_token_count (text : string) :
  count_words text = token_count text.
Proof.
  unfold count_words, token_count.
  destruct text as [|c text]; [reflexivity|]. cbn [Py.truthy negb].
  rewrite length_map. do 2 f_equal.
  apply filter_ext_in. intros w Hw.
  pose proof (split_from_tokens (String c text) "" eq_refl) as Hf.
  rewrite Forall_forall in Hf. destruct (Hf w Hw) as [Hn _].
  now rewrite (strip_no_space _ Hn).
Qed.

(** *** Loading *)

Lemma load_loop_traversal (fs : FileSystem)
    (processed_files : list FileInfo.t)
    (acc sections : list Candidate.t) :
  load_loop fs processed_files acc = Py.Ok sections ->
  sections = acc ++ traversal fs processed_files.
Proof.
  revert acc. induction processed_files as [|fi rest IH]; intros acc H.
  - simpl in *. injection H as <-. now rewrite app_nil_r.
  - cbn [load_loop] in H. unfold traversal. cbn [flat_map].
    unfold sections_of_file at 1.
    destruct (fs (FileInfo.json_path fi)) as [| |[secs|]].
    + now apply IH in H.
    + discriminate.
    + apply IH in H. now rewrite <- app_assoc in H.
    + now apply IH in H.
Qed.

Lemma load_loop_readable (fs : FileSystem)
    (processed_files : list FileInfo.t) (acc : list Candidate.t) :
  Forall (readable fs) processed_files ->
  load_loop fs processed_files acc
  = Py.Ok (acc ++ traversal fs processed_files).
Proof.
  intros H. revert acc.
  induction H as [|fi rest Hr _ IH]; intros acc.
  - simpl. now rewrite app_nil_r.
  - cbn [load_loop]. unfold traversal. cbn [flat_map].
    unfold sections_of_file at 1. unfold readable in Hr.
    destruct (fs (FileInfo.json_path fi)) as [| |[secs|]].
    + apply IH.
    + congruence.
    + rewrite IH. now rewrite <- app_assoc.
    + apply IH.
Qed.

(** *** The loop over the ranked sections *)

Lemma results_loop_spec (top_n : Z) (ranked_sections : list Scored.t)
    (results : list SimilarityResult.t) (rank_counter : Z) :
  results_loop top_n ranked_sections results rank_counter
  = results
    ++ number_from rank_counter
         (firstn
            (Z.to_nat (Z.max 1 (top_n - Z.of_nat (List.length results))))
            (filter long_enough ranked_sections)).
Proof.
  revert results rank_counter.
  induction ranked_sections as [|s rest IH]; intros results rank_counter.
  - simpl. now rewrite firstn_nil, app_nil_r.
  - cbn [results_loop filter]. unfold long_enough at 1.
    destruct (count_words (Scored.content s) <? 15) eqn:Hw.
    + apply Z.ltb_lt in Hw.
      destruct (15 <=? count_words (Scored.content s)) eqn:Hl;
        [apply Z.leb_le in Hl; lia|].
      apply IH.
    + apply Z.ltb_ge in Hw.
      destruct (15 <=? count_words (Scored.content s)) eqn:Hl;
        [|apply Z.leb_gt in Hl; lia].
      rewrite length_app. cbn [List.length].
      destruct (Z.of_nat (List.length results + 1) >=? top_n) eqn:Hn.
      * apply Z.geb_le in Hn.
        replace (Z.to_nat (Z.max 1 (top_n - Z.of_nat (List.length results))))
          with 1%nat by lia.
        cbn [firstn number_from]. reflexivity.
      * rewrite Z.geb_leb in Hn. apply Z.leb_gt in Hn.
        rewrite IH, length_app. cbn [List.length].
        replace (Z.to_nat (Z.max 1 (top_n - Z.of_nat (List.length results))))
          with (S (Z.to_nat
                     (Z.max 1 (top_n
                               - Z.of_nat (List.length results + 1)))))
          by lia.
        cbn [firstn number_from]. now rewrite <- app_assoc.
Qed.


Lemma number_from_in (rank : Z) (sections : list Scored.t)
    (r : SimilarityResult.t) :
  In r (number_from rank sections) ->
  exists s k,
    In s sections /\ r = make_result s k (count_words (Scored.content s)).
Proof.
  revert rank. induction sections as [|s rest IH]; intros rank; simpl.
  - tauto.
  - intros [<-|H].
    + exists s, rank. auto.
    + destruct (IH _ H) as (s' & k & Hin & ->). exists s', k. auto.
Qed.

(** *** Scoring *)

Lemma mapM_length {A B : Type} (f : A -> Py.result B) (l : list A)
    (ys : list B) :
  Py.mapM f l = Py.Ok ys -> List.length ys = List.length l.
Proof.
  intros H. apply mapM_Forall2 in H.
  induction H; simpl; congruence.
Qed.


Lemma score_sections_candidates (self : t) (selected_text : string)
    (sections : list Candidate.t) (scored : list Scored.t) :
  score_sections self selected_text sections = Py.Ok scored ->
  map Scored.candidate scored = sections.
Proof.
  unfold score_sections. intros H. bind_inv H sims Hs.
  injection H as <-. apply mapM_length in Hs.
  rewrite map_map. cbn [Scored.candidate].
  apply map_fst_combine. now rewrite Hs.
Qed.

(** *** The whole search *)

(** The results of a search that returns: the sections kept from the
    ranked list, numbered from 1. *)
Lemma find_similar_sections_fast_spec (self : t) (fs : FileSystem)
    (selected_text : string) (processed_files : list FileInfo.t)
    (top_n : Z) (results : list SimilarityResult.t) :
  find_similar_sections_fast self fs selected_text processed_files top_n
  = Py.Ok results ->
  exists scored,
    score_sections self selected_text (traversal fs processed_files)
    = Py.Ok scored
    /\ results
       = number_from 1 (kept top_n (Py.sorted_reverse score_lt scored)).
Proof.
  unfold find_similar_sections_fast, load_sections_with_embeddings.
  destruct (load_loop fs processed_files []) as [sections|e] eqn:Hl;
    cbn [Py.bind]; [|discriminate].
  apply load_loop_traversal in Hl. cbn [app] in Hl. subst sections.
  destruct (traversal fs processed_files) as [|c cs] eqn:Ht.
  - intros H. injection H as <-. exists []. split; [reflexivity|].
    unfold kept, Py.sorted_reverse. cbn [Py.sorted filter].
    now rewrite firstn_nil.
  - destruct (score_sections self selected_text (c :: cs))
      as [scored|e] eqn:Hs; cbn [Py.bind]; [|discriminate].
    intros H. injection H as <-. exists scored. split; [reflexivity|].
    rewrite results_loop_spec. cbn [List.length app]. unfold kept.
    now rewrite Z.sub_0_r.
Qed.

(** A search over readable files whose similarities are defined
    returns. *)
Lemma find_similar_sections_fast_returns (self : t) (fs : FileSystem)
    (selected_text : string) (processed_files : list FileInfo.t)
    (top_n : Z) (scored : list Scored.t) :
  Forall (readable fs) processed_files ->
  score_sections self selected_text (traversal fs processed_files)
  = Py.Ok scored ->
  find_similar_sections_fast self fs selected_text processed_files top_n
  = Py.Ok (number_from 1 (kept top_n (Py.sorted_reverse score_lt scored))).
Proof.
  intros Hr Hs.
  unfold find_similar_sections_fast, load_sections_with_embeddings.
  rewrite (load_loop_readable _ _ _ Hr). cbn [app Py.bind].
  destruct (traversal fs processed_files) as [|c cs] eqn:Ht.
  - cbv in Hs. injection Hs as <-.
    unfold kept, Py.sorted_reverse. cbn [Py.sorted filter].
    now rewrite firstn_nil.
  - rewrite Hs. cbn [Py.bind].
    rewrite results_loop_spec. cbn [List.length app]. unfold kept.
    now rewrite Z.sub_0_r.
Qed.

End Search.

(** ** The order of the ranked sections *)

Section Ranking.

Import SimilarityAnalyzer Stable SearchReference.

Lemma by_score_desc_asym (a b : Scored.t) :
  by_score_desc a b = true -> by_score_desc b a = false.
Proof.
  unfold by_score_desc, score_lt. intros H.
  apply Qltb_lt in H. apply Qltb_ge. now apply Qlt_le_weak.
Qed.

Lemma by_score_desc_negtrans (a b c : Scored.t) :
  by_score_desc b a = false -> by_score_desc c b = false ->
  by_score_desc c a = false.
Proof.
  unfold by_score_desc, score_lt. intros H1 H2.
  apply Qltb_ge in H1, H2. apply Qltb_ge.
  eapply Qle_trans; eassumption.
Qed.

Lemma filter_map {A B : Type} (f : A -> B) (p : B -> bool) (l : list A) :
  filter p (map f l) = map f (filter (fun x => p (f x)) l).
Proof.
  induction l as [|x l IH]; simpl; [reflexivity|].
  destruct (p (f x)); simpl; now rewrite IH.
Qed.

Lemma number_from_nth (rank : Z) (sections : list Scored.t) (i : nat) :
  nth_error (number_from rank sections) i
  = option_map
      (fun s => make_result s (rank + Z.of_nat i)
                  (count_words (Scored.content s)))
      (nth_error sections i).
Proof.
  revert rank i. induction sections as [|s rest IH]; intros rank [|i];
    simpl; try reflexivity.
  - now rewrite Z.add_0_r.
  - rewrite IH. destruct (nth_error rest i); simpl; [|reflexivity].
    do 2 f_equal. lia.
Qed.

Lemma number_from_ranks (rank : Z) (sections : list Scored.t) :
  map SimilarityResult.importance_rank (number_from rank sections)
  = map (fun i => rank + Z.of_nat i) (seq 0 (List.length sections)).
Proof.
  revert rank. induction sections as [|s rest IH]; intros rank;
    [reflexivity|].
  cbn [number_from map List.length seq]. rewrite IH.
  rewrite <- seq_shift, map_map. f_equal; [simpl; lia|].
  apply map_ext. intros i. lia.
Qed.

Lemma number_from_length (rank : Z) (sections : list Scored.t) :
  List.length (number_from rank sections) = List.length sections.
Proof.
  revert rank. induction sections as [|s rest IH]; intros rank; simpl;
    [reflexivity|now rewrite IH].
Qed.

(** The sections kept from the ranked list, with their positions in the
    list of scored sections. *)
Lemma kept_tagged (top_n : Z) (scored : list Scored.t) :
  exists U : list (nat * Scored.t),
    map snd U = kept top_n (Py.sorted_reverse score_lt scored)
    /\ StronglySorted ranked_before U
    /\ Forall (fun u => nth_error scored (fst u) = Some (snd u)) U.
Proof.
  set (T := Py.sorted (tagged_lt by_score_desc) (tagged scored)).
  exists (firstn (Z.to_nat (Z.max 1 top_n))
            (filter (fun u => long_enough (snd u)) T)).
  split; [|split].
  - unfold kept, Py.sorted_reverse.
    rewrite <- firstn_map, <- filter_map. unfold T.
    now rewrite sorted_tagged_values.
  - apply StronglySorted_firstn, StronglySorted_filter.
    apply (sorted_tagged by_score_desc).
    + exact by_score_desc_asym.
    + exact by_score_desc_negtrans.
  - apply Forall_forall. intros [i s] Hu.
    apply firstn_incl in Hu. apply filter_In in Hu. destruct Hu as [Hu _].
    now apply sorted_tagged_in in Hu.
Qed.

Lemma results_positions (sections : list Candidate.t)
    (scored : list Scored.t) (U : list (nat * Scored.t)) (rank : Z) :
  map Scored.candidate scored = sections ->
  Forall (fun u => nth_error scored (fst u) = Some (snd u)) U ->
  Forall2
    (fun r p => exists c, nth_error sections p = Some c /\ result_of c r)
    (number_from rank (map snd U)) (map fst U).
Proof.
  intros Hc HU. revert rank.
  induction HU as [|u U Hu _ IH]; intros rank; simpl; constructor.
  - exists (Scored.candidate (snd u)). split.
    + rewrite <- Hc, nth_error_map, Hu. reflexivity.
    + repeat split.
  - apply IH.
Qed.

End Ranking.

(** ** Claims on the heuristic classifier *)

Section HeuristicClaims.

Import PDFProcessor Reference.


(** What the heuristic classifier computes for the title.  Each block that
    meets the title condition (page index 0, y below 0.1, ratio above 0.9)
    assigns its text to the title, so the returned title is the stripped
    text of the last such block in the stable (page, y-position) order,
    and the empty string when no block meets it; the outline is made of
    the entries of the blocks that do not meet the title condition and
    have a level, so that no block meeting the title condition gives an
    outline entry. *)
Lemma heuristic_title_is_last_title_block (input_data : list Feature.t) :
  let sorted_data := Py.sorted reading_key_lt input_data in
  Prediction.title (predict_headings_simple input_data) =
    Py.strip (last (map Feature.text (title_blocks sorted_data)) "")
  /\ Prediction.outline (predict_headings_simple input_data) =
     map simple_entry (outline_blocks sorted_data)
  /\ Forall (fun item => is_title_block item = false)
       (outline_blocks sorted_data).
Proof.
  intros sorted_data.
  destruct (predict_headings_simple_spec input_data) as [Ht Ho].
  split; [exact Ht|]. split; [exact Ho|].
  apply Forall_forall. intros item Hin.
  apply filter_In in Hin. destruct Hin as [_ Hin].
  apply andb_prop in Hin. destruct Hin as [Hin _].
  now apply negb_true_iff in Hin.
Qed.

(** C1.  The heuristic classifier departs from the claim on a first page
    with two blocks that meet the title condition.  In the (page,
    y-position) order the first is "Annual Report" and the second is
    "2024 Edition"; the returned title is "2024 Edition", the text of the
    second, and "Annual Report" is lost: it is neither the title nor in
    the outline, which holds the one heading "Overview".  The claim gives
    the title "Annual Report".  The model strategy, run on the same blocks
    with both labelled as title, keeps the two texts in its title. *)
Lemma heuristic_title_overwritten :
  let sorted_data := Py.sorted reading_key_lt Samples.two_title_lines in
  map Feature.text (title_blocks sorted_data)
    = ["Annual Report"; "2024 Edition"]
  /\ predict_headings_simple Samples.two_title_lines
     = {| Prediction.title := "2024 Edition";
          Prediction.outline :=
            [ {| Heading.level := "H2"; Heading.text := "Overview";
                 Heading.page := 1 |} ] |}
  /\ Prediction.title (predict_headings_simple Samples.two_title_lines)
     <> hd "" (map Feature.text (title_blocks sorted_data))
  /\ model_strategy ClassifierSamples.processor_with_model
       ClassifierSamples.working_model Samples.two_title_lines
     = Py.Ok {| Prediction.title := "Annual Report 2024 Edition";
                Prediction.outline :=
                  [ {| Heading.level := "H1"; Heading.text := "Overview";
                       Heading.page := 1 |} ] |}.
Proof.
  vm_compute. repeat split. discriminate.
Qed.

(** The first scenario: one large line at the top of the only page. *)
Example only_title_line_prediction :
  predict_headings_simple Samples.only_title_line
  = {| Prediction.title := "Annual Report 2024"; Prediction.outline := [] |}.
Proof. reflexivity. Qed.

(** C8.  Under the heuristic classifier a block of the input that does not
    meet the title condition, with ratio above 0.8, bold and of at most ten
    words, has level H1 and gives the outline entry with its text and the
    1-based page number. *)
Theorem heuristic_h1_entry (input_data : list Feature.t) (item : Feature.t) :
  In item input_data ->
  is_title_block item = false ->
  (0.8 < Feature.font_size_relative_to_max_pdf item)%Q ->
  Feature.is_bold item = true ->
  Feature.num_words item <= 10 ->
  heuristic_level item = "H1"
  /\ In {| Heading.level := "H1";
           Heading.text := Feature.text item;
           Heading.page := Feature.page_no item + 1 |}
       (Prediction.outline (predict_headings_simple input_data)).
Proof.
  intros Hin Hnt Hratio Hbold Hwords.
  assert (Hlevel : heuristic_level item = "H1").
  { unfold heuristic_level.
    apply Qltb_lt in Hratio. rewrite Hratio, Hbold.
    apply Z.leb_le in Hwords. rewrite Hwords. reflexivity. }
  split; [exact Hlevel|].
  destruct (predict_headings_simple_spec input_data) as [_ Ho].
  rewrite Ho.
  replace {| Heading.level := "H1"; Heading.text := Feature.text item;
             Heading.page := Feature.page_no item + 1 |}
    with (simple_entry item)
    by (unfold simple_entry; rewrite Hlevel; reflexivity).
  apply in_map. unfold outline_blocks.
  apply filter_In. split.
  - apply sorted_in. exact Hin.
  - rewrite Hnt, Hlevel. reflexivity.
Qed.

(** The scenario of C8: ratio 0.85, bold, eight words, page index 2. *)
Lemma heuristic_h1_entry_witness :
  In Samples.bold_heading Samples.bold_heading_document
  /\ is_title_block Samples.bold_heading = false
  /\ (0.8 < 0.85)%Q
  /\ Feature.num_words Samples.bold_heading = 8
  /\ Feature.page_no Samples.bold_heading = 2
  /\ heuristic_level Samples.bold_heading = "H1"
  /\ In {| Heading.level := "H1";
           Heading.text := "Results of the third quarter by market segment";
           Heading.page := 3 |}
       (Prediction.outline
          (predict_headings_simple Samples.bold_heading_document)).
Proof.
  assert (Hin : In Samples.bold_heading Samples.bold_heading_document)
    by (simpl; auto).
  assert (Hq : (0.8 < 0.85)%Q) by reflexivity.
  repeat split; try assumption; try reflexivity;
    apply (heuristic_h1_entry Samples.bold_heading_document
             Samples.bold_heading Hin);
    solve [reflexivity | exact Hq | simpl; lia].
Defined.

End HeuristicClaims.

(** ** Claims on the model strategy and on [process_pdf] *)

Section ModelClaims.

Import PDFProcessor Reference.

(** The [try] block raises exactly in the three cases of
    [model_strategy_fails]. *)
Lemma model_strategy_raises_iff (self : t) (m : HeadingModel.t)
    (input_data : list Feature.t) :
  (exists e, model_strategy self m input_data = Py.Raise e)
  <-> model_strategy_fails self m input_data.
Proof.
  unfold model_strategy, model_strategy_fails.
  destruct (expected_cols self m) as [cols|] eqn:Hc; simpl.
  - destruct (HeadingModel.predict m cols input_data) as [preds|e1] eqn:Hp;
      simpl.
    + destruct (decode self preds) as [levels|e2] eqn:Hd; simpl.
      * destruct (model_loop (combine input_data levels) "" []).
        split.
        -- intros [e He]. discriminate He.
        -- intros [H|[(c & e & H1 & H2)|(c & p & e & H1 & H2 & H3)]].
           ++ discriminate.
           ++ injection H1 as <-. rewrite Hp in H2. discriminate.
           ++ injection H1 as <-. rewrite Hp in H2. injection H2 as <-.
              rewrite Hd in H3. discriminate.
      * split; [intros _|intros _; eauto].
        right; right. exists cols, preds, e2. auto.
    + split; [intros _|intros _; eauto].
      right; left. exists cols, e1. auto.
  - split; [intros _; left; reflexivity|intros _; eauto].
Qed.

(** C7.  The model strategy does not raise to its caller:
    [predict_headings_with_model] is a total function, and when the model
    path fails (no feature schema, exception of the inference, exception of
    the decoding) its result is the one of [predict_headings_simple] on the
    same input. *)
Theorem model_failure_falls_back (self : t) (m : HeadingModel.t)
    (input_data : list Feature.t) :
  heading_model self = Some m ->
  model_strategy_fails self m input_data ->
  predict_headings_with_model self input_data
  = predict_headings_simple input_data.
Proof.
  intros Hm Hfail.
  apply model_strategy_raises_iff in Hfail. destruct Hfail as [e He].
  unfold predict_headings_with_model. rewrite Hm, He. reflexivity.
Qed.

Lemma model_failure_falls_back_witness :
  predict_headings_with_model Samples.processor_with_failing_model
    Samples.two_title_lines
  = predict_headings_simple Samples.two_title_lines.
Proof.
  apply (model_failure_falls_back Samples.processor_with_failing_model
           Samples.failing_model Samples.two_title_lines).
  - reflexivity.
  - right; left.
    exists ["is_bold"; "num_words"], (Py.External "predict").
    split; reflexivity.
Defined.

(** What [process_pdf] writes in [model_used]: whether a model is loaded. *)
Lemma model_used_reports_loaded_model (self : t) (now pdf_path : string)
    (doc : Document) (idx : DocumentIndex.t) :
  process_pdf self now pdf_path doc = Py.Ok idx ->
  Metadata.model_used (DocumentIndex.metadata idx)
  = match heading_model self with
    | Some _ => "pretrained"
    | None => "heuristic"
    end.
Proof.
  unfold process_pdf.
  destruct (extract_features_from_pdf self doc) as [features|e];
    cbn [Py.bind]; [|discriminate].
  destruct (extract_sections_with_content self doc _) as [sections|e];
    cbn [Py.bind]; [|discriminate].
  intros H. injection H as <-. reflexivity.
Qed.

(** C2 fails on the code: with a loaded model whose inference raises, the
    outline of the report is the one of the heuristic strategy, and
    [model_used] is ["pretrained"]. *)
Lemma model_used_after_fallback :
  exists features idx,
    extract_features_from_pdf Samples.processor_with_failing_model
      Samples.report = Py.Ok features
    /\ process_pdf Samples.processor_with_failing_model
         "2026-01-01T00:00:00" "pdfs/report.pdf" Samples.report = Py.Ok idx
    /\ strategy_used Samples.processor_with_failing_model features
       = "heuristic"
    /\ DocumentIndex.outline idx
       = Prediction.outline (predict_headings_simple features)
    /\ Metadata.model_used (DocumentIndex.metadata idx) = "pretrained".
Proof.
  eexists. eexists.
  split; [vm_compute; reflexivity|].
  split; [vm_compute; reflexivity|].
  vm_compute. repeat split.
Qed.

End ModelClaims.

(** ** Claims on the feature extractor *)

Section ExtractorClaims.

Import PDFProcessor Reference.

(** C3, as amended.  For every block the extractor keeps, the bold flag of
    its feature vector is the bold bit (16) of the first span of the first
    line of the block, and the underline flag is true exactly when SOME
    span of SOME line of the block has the underline bit (4). *)
Theorem extractor_flags (self : t) (doc : Document)
    (features : list Feature.t) :
  extract_features_from_pdf self doc = Py.Ok features ->
  Forall2
    (fun f b => Feature.is_bold f = first_span_bold b
                /\ Feature.is_underlined f = any_span_underlined b)
    features (kept_blocks doc).
Proof.
unfold extract_features_from_pdf. intros H. bind_inv H raw Hraw.
apply all_text_blocks_raw_spec in Hraw. apply mapM_Forall2 in H.
revert Hraw. generalize (kept_blocks doc) as bs.
induction H as [|tb f raw' features' Hf _ IH]; intros bs Hraw;
  simpl in Hraw; inversion Hraw; subst; constructor.
- apply derive_features_flags in Hf. destruct Hf as [-> ->].
  assumption.
- apply IH. assumption.
Qed.

Lemma extractor_flags_witness :
  exists features,
    extract_features_from_pdf Samples.processor_without_model
      Samples.underlined_later = Py.Ok features
    /\ Forall2
         (fun f b => Feature.is_bold f = first_span_bold b
                     /\ Feature.is_underlined f = any_span_underlined b)
         features (kept_blocks Samples.underlined_later).
Proof.
  eexists. split.
  - vm_compute. reflexivity.
  - apply (extractor_flags Samples.processor_without_model
             Samples.underlined_later).
    vm_compute. reflexivity.
Defined.

(** C3, as stated, fails: the only block of the page has a first span
    without the underline bit, and its feature vector is underlined. *)
Lemma underline_first_span_counterexample :
  exists f,
    extract_features_from_pdf Samples.processor_without_model
      Samples.underlined_later = Py.Ok [f]
    /\ map first_span_underlined (kept_blocks Samples.underlined_later)
       = [false]
    /\ Feature.is_underlined f = true.
Proof.
  eexists. split; [vm_compute; reflexivity|].
  split; vm_compute; reflexivity.
Qed.

End ExtractorClaims.

(** ** Claims on the section segmenter *)

Section SegmenterClaims.

Import PDFProcessor Reference.

(** C6.  For an outline whose entries lie on pages of the document, the
    content of every entry is read from the lines of the pages from the
    entry's page through the next entry's page (through the last page for
    the last entry): the lines strictly after the first line that contains
    the heading's text, up to and without the first of them that contains
    the next heading's text, each followed by a space, the whole stripped.
    An entry whose heading's text is in no line of its window has the empty
    content, and the sections are those of the entries with a content that
    is not empty; no exception is raised. *)
Theorem segmenter_spec (self : t) (doc : Document)
    (outline : list Heading.t) :
  (forall h, In h outline ->
             1 <= Heading.page h <= Z.of_nat (List.length doc)) ->
  (forall curr nxt,
      In (curr, nxt) (with_next outline) ->
      extract_text_for_heading doc curr nxt
      = Py.Ok (content doc curr nxt)
      /\ (existsb (matches curr) (window_lines doc curr nxt) = false ->
          content doc curr nxt = ""))
  /\ extract_sections_with_content self doc outline
     = Py.Ok (segments self doc outline)
  /\ (forall s,
        In s (segments self doc outline) ->
        exists curr nxt,
          In (curr, nxt) (with_next outline)
          /\ s = make_section self curr (content doc curr nxt)
          /\ existsb (matches curr) (window_lines doc curr nxt) = true).
Proof.
  intros Hv. split; [|split].
  - intros curr nxt Hin.
    destruct (with_next_pages _ _ _ Hin) as [Hc Hn].
    split.
    + apply extract_text_for_heading_spec; [now apply Hv|].
      intros n ->. apply Hv. now apply Hn.
    + apply content_no_match.
  - unfold extract_sections_with_content.
    now rewrite sections_loop_spec.
  - intros s Hs. unfold segments in Hs.
    apply in_flat_map in Hs. destruct Hs as ([curr nxt] & Hin & Hs).
    cbn [fst snd] in Hs.
    destruct (Py.truthy (content doc curr nxt)) eqn:Ht; [|contradiction].
    destruct Hs as [<-|[]].
    exists curr, nxt. split; [exact Hin|]. split; [reflexivity|].
    destruct (existsb (matches curr) (window_lines doc curr nxt)) eqn:He;
      [reflexivity|].
    rewrite (content_no_match _ _ _ He) in Ht. discriminate.
Qed.

Lemma segmenter_spec_witness :
  extract_sections_with_content Samples.processor_without_model
    Samples.two_pages Samples.two_pages_outline
  = Py.Ok (segments Samples.processor_without_model Samples.two_pages
             Samples.two_pages_outline)
  /\ map (fun s => (Section.section_title s, Section.content s))
       (segments Samples.processor_without_model Samples.two_pages
          Samples.two_pages_outline)
     = [ ("Introduction", "This sets the scene.");
         ("Methods", "We measure twice.") ].
Proof.
  split.
  - apply (segmenter_spec Samples.processor_without_model Samples.two_pages
             Samples.two_pages_outline).
    intros h [<-|[<-|[<-|[]]]]; simpl; lia.
  - vm_compute. reflexivity.
Defined.

End SegmenterClaims.

(** ** Claims on the similarity search *)

Section SearchClaims.

Import SimilarityAnalyzer SearchReference.

(** C5.  Every result of a search that returns carries as word count the
    number of non-empty tokens of its content split on whitespace, and this
    number is at least 15. *)
Theorem results_have_15_words (self : t) (fs : FileSystem)
    (selected_text : string) (processed_files : list FileInfo.t)
    (top_n : Z) (results : list SimilarityResult.t) :
  find_similar_sections_fast self fs selected_text processed_files top_n
  = Py.Ok results ->
  forall r, In r results ->
    SimilarityResult.word_count r = token_count (SimilarityResult.content r)
    /\ 15 <= token_count (SimilarityResult.content r).
Proof.
  intros H r Hr.
  apply find_similar_sections_fast_spec in H.
  destruct H as (scored & _ & ->).
  apply number_from_in in Hr. destruct Hr as (s & k & Hs & ->).
  unfold kept in Hs. apply firstn_incl in Hs.
  apply filter_In in Hs. destruct Hs as [_ Hs].
  unfold long_enough in Hs. apply Z.leb_le in Hs.
  cbn [make_result SimilarityResult.word_count SimilarityResult.content].
  unfold Scored.content, Candidate.content in *.
  rewrite <- count_words_token_count. split; [reflexivity|exact Hs].
Qed.

Lemma results_have_15_words_witness :
  exists results,
    find_similar_sections_fast SearchSamples.analyzer SearchSamples.disk
      "renewable energy policy" SearchSamples.corpus 5 = Py.Ok results
    /\ map SimilarityResult.section_title results
       = ["Section A"; "Section D"; "Section C"; "Section E"]
    /\ forall r, In r results ->
         SimilarityResult.word_count r
         = token_count (SimilarityResult.content r)
         /\ 15 <= token_count (SimilarityResult.content r).
Proof.
  eexists. split; [vm_compute; reflexivity|].
  split; [vm_compute; reflexivity|].
  apply (results_have_15_words SearchSamples.analyzer SearchSamples.disk
           "renewable energy policy" SearchSamples.corpus 5).
  vm_compute. reflexivity.
Defined.

(** C9.  A search over a corpus whose entries give no candidate section
    (in particular over the empty corpus) returns the empty list, for
    every query and every [top_n]. *)
Theorem empty_corpus_gives_empty_list (self : t) (fs : FileSystem)
    (selected_text : string) (processed_files : list FileInfo.t)
    (top_n : Z) :
  Forall (contributes_nothing fs) processed_files ->
  find_similar_sections_fast self fs selected_text processed_files top_n
  = Py.Ok [].
Proof.
  intros H.
  assert (Hr : Forall (readable fs) processed_files).
  { eapply Forall_impl; [|exact H]. now intros fi [Hfi _]. }
  assert (Ht : traversal fs processed_files = []).
  { unfold traversal. induction H as [|fi rest [_ Hfi] _ IH];
      [reflexivity|].
    cbn [flat_map]. rewrite Hfi. apply IH. now inversion Hr. }
  unfold find_similar_sections_fast, load_sections_with_embeddings.
  rewrite (load_loop_readable _ _ _ Hr), Ht. reflexivity.
Qed.

Lemma empty_corpus_gives_empty_list_witness :
  find_similar_sections_fast SearchSamples.analyzer SearchSamples.disk
    "renewable energy policy" SearchSamples.empty_corpus 5 = Py.Ok []
  /\ find_similar_sections_fast SearchSamples.analyzer SearchSamples.disk
       "renewable energy policy" [] 5 = Py.Ok [].
Proof.
  split;
    apply (empty_corpus_gives_empty_list SearchSamples.analyzer
             SearchSamples.disk "renewable energy policy").
  - repeat constructor; unfold readable; try discriminate.
  - constructor.
Defined.

(** C10.  With [top_n <= 0], a search whose files are readable and whose
    similarities are defined returns exactly one result, of rank 1, as
    soon as one candidate section has at least 15 words. *)
Theorem nonpositive_top_n_gives_one_result (self : t) (fs : FileSystem)
    (selected_text : string) (processed_files : list FileInfo.t)
    (top_n : Z) (scored : list Scored.t) :
  Forall (readable fs) processed_files ->
  score_sections self selected_text (traversal fs processed_files)
  = Py.Ok scored ->
  top_n <= 0 ->
  (exists c, In c (traversal fs processed_files)
             /\ 15 <= count_words (Candidate.content c)) ->
  exists r,
    find_similar_sections_fast self fs selected_text processed_files top_n
    = Py.Ok [r]
    /\ SimilarityResult.importance_rank r = 1
    /\ 15 <= SimilarityResult.word_count r.
Proof.
  intros Hr Hs Hn (c & Hc & Hw).
  rewrite (find_similar_sections_fast_returns _ _ _ _ _ _ Hr Hs).
  pose proof (score_sections_candidates _ _ _ _ Hs) as Hcand.
  rewrite <- Hcand in Hc. apply in_map_iff in Hc.
  destruct Hc as (s & <- & Hin).
  assert (Hf : In s (filter long_enough
                       (Py.sorted_reverse score_lt scored))).
  { apply filter_In. split.
    - unfold Py.sorted_reverse. now apply sorted_in.
    - unfold long_enough, Scored.content. now apply Z.leb_le. }
  unfold kept. replace (Z.to_nat (Z.max 1 top_n)) with 1%nat by lia.
  destruct (filter long_enough (Py.sorted_reverse score_lt scored))
    as [|s0 rest] eqn:Hfl; [contradiction|].
  cbn [firstn number_from]. eexists. split; [reflexivity|].
  split; [reflexivity|].
  assert (H0 : In s0 (filter long_enough
                        (Py.sorted_reverse score_lt scored)))
    by (rewrite Hfl; now left).
  apply filter_In in H0. destruct H0 as [_ H0].
  unfold long_enough in H0. apply Z.leb_le in H0. exact H0.
Qed.

Lemma nonpositive_top_n_gives_one_result_witness :
  exists r,
    find_similar_sections_fast SearchSamples.analyzer SearchSamples.disk
      "renewable energy policy" SearchSamples.corpus 0 = Py.Ok [r]
    /\ SimilarityResult.importance_rank r = 1
    /\ 15 <= SimilarityResult.word_count r.
Proof.
  eapply (nonpositive_top_n_gives_one_result SearchSamples.analyzer
            SearchSamples.disk "renewable energy policy"
            SearchSamples.corpus 0).
  - repeat constructor; unfold readable; discriminate.
  - vm_compute. reflexivity.
  - lia.
  - eexists. split; [left; reflexivity|]. vm_compute. discriminate.
Defined.

(** C4.  In the results of a search that returns, the ranks are
    1, 2, .., k in the order of the list; of two results the one with the
    strictly higher score has the strictly smaller rank; and the results
    come from candidates at positions of the traversal (document order,
    then section order within a document) such that of two results with
    equal scores the earlier in the list comes from the earlier position. *)
Theorem search_ranking (self : t) (fs : FileSystem)
    (selected_text : string) (processed_files : list FileInfo.t)
    (top_n : Z) (results : list SimilarityResult.t) :
  find_similar_sections_fast self fs selected_text processed_files top_n
  = Py.Ok results ->
  map SimilarityResult.importance_rank results
  = map Z.of_nat (seq 1 (List.length results))
  /\ (forall i j ri rj,
        nth_error results i = Some ri ->
        nth_error results j = Some rj ->
        (SimilarityResult.similarity_score rj
         < SimilarityResult.similarity_score ri)%Q ->
        SimilarityResult.importance_rank ri
        < SimilarityResult.importance_rank rj)
  /\ exists positions : list nat,
       Forall2
         (fun r p =>
            exists c, nth_error (traversal fs processed_files) p = Some c
                      /\ result_of c r)
         results positions
       /\ (forall i j ri rj pi pj,
             (i < j)%nat ->
             nth_error results i = Some ri ->
             nth_error results j = Some rj ->
             nth_error positions i = Some pi ->
             nth_error positions j = Some pj ->
             (SimilarityResult.similarity_score ri
              == SimilarityResult.similarity_score rj)%Q ->
             (pi < pj)%nat).
Proof.
  intros H. apply find_similar_sections_fast_spec in H.
  destruct H as (scored & Hs & ->).
  destruct (kept_tagged top_n scored) as (U & <- & Hsorted & Hpos).
  apply score_sections_candidates in Hs.
  assert (Hnth : forall i r,
             nth_error (number_from 1 (map snd U)) i = Some r ->
             exists u, nth_error U i = Some u
                       /\ SimilarityResult.importance_rank r
                          = 1 + Z.of_nat i
                       /\ SimilarityResult.similarity_score r
                          = Scored.similarity_score (snd u)).
  { intros i r Hr. rewrite number_from_nth, nth_error_map in Hr.
    destruct (nth_error U i) as [u|]; [|discriminate].
    injection Hr as <-. exists u. repeat split. }
  split; [|split].
  - rewrite number_from_ranks, number_from_length, <- seq_shift, map_map.
    apply map_ext. intros i. lia.
  - intros i j ri rj Hi Hj Hlt.
    destruct (Hnth _ _ Hi) as (ui & Hui & -> & Hsi).
    destruct (Hnth _ _ Hj) as (uj & Huj & -> & Hsj).
    rewrite Hsi, Hsj in Hlt.
    destruct (Nat.lt_trichotomy i j) as [Hij|[->|Hji]]; [lia| |].
    + rewrite Hui in Huj. injection Huj as <-.
      exfalso. exact (Qlt_irrefl _ Hlt).
    + destruct (StronglySorted_nth _ _ _ _ _ _ Hsorted Hji Huj Hui)
        as [Hord _].
      unfold score_lt in Hord. apply Qltb_ge in Hord.
      exfalso. exact (Qlt_not_le _ _ Hlt Hord).
  - exists (map fst U). split.
    + now apply results_positions with (scored := scored).
    + intros i j ri rj pi pj Hij Hi Hj Hpi Hpj Heq.
      destruct (Hnth _ _ Hi) as (ui & Hui & _ & Hsi).
      destruct (Hnth _ _ Hj) as (uj & Huj & _ & Hsj).
      rewrite nth_error_map, Hui in Hpi. injection Hpi as <-.
      rewrite nth_error_map, Huj in Hpj. injection Hpj as <-.
      destruct (StronglySorted_nth _ _ _ _ _ _ Hsorted Hij Hui Huj)
        as [_ Htie].
      apply Htie. unfold score_lt. apply Qltb_ge.
      rewrite <- Hsi, <- Hsj, Heq. apply Qle_refl.
Qed.

Lemma search_ranking_witness :
  exists results,
    find_similar_sections_fast SearchSamples.analyzer SearchSamples.disk
      "renewable energy policy" SearchSamples.corpus 5 = Py.Ok results
    /\ map (fun r => (SimilarityResult.importance_rank r,
                      SimilarityResult.document r,
                      SimilarityResult.section_title r)) results
       = [ (1, "a.pdf", "Section A"); (2, "b.pdf", "Section D");
           (3, "a.pdf", "Section C"); (4, "b.pdf", "Section E") ]
    /\ map SimilarityResult.importance_rank results
       = map Z.of_nat (seq 1 (List.length results))
    /\ (forall i j ri rj,
          nth_error results i = Some ri ->
          nth_error results j = Some rj ->
          (SimilarityResult.similarity_score rj
           < SimilarityResult.similarity_score ri)%Q ->
          SimilarityResult.importance_rank ri
          < SimilarityResult.importance_rank rj).
Proof.
  eexists. split; [vm_compute; reflexivity|].
  split; [vm_compute; reflexivity|].
  assert (H := search_ranking SearchSamples.analyzer SearchSamples.disk
                 "renewable energy policy" SearchSamples.corpus 5 _
                 eq_refl).
  destruct H as (H1 & H2 & _). split; [exact H1|exact H2].
Defined.

End SearchClaims.

(** ** Further properties of the classifiers *)

Section ClassifierExtras.

Import PDFProcessor Stable Reference ClassifierReference.

Lemma StronglySorted_map {A B : Type} (R : B -> B -> Prop) (f : A -> B)
    (l : list A) :
  StronglySorted (fun a b => R (f a) (f b)) l -> StronglySorted R (map f l).
Proof.
  induction 1 as [|x l Hs IH Hx]; simpl; constructor; [exact IH|].
  apply Forall_forall. intros y Hy. apply in_map_iff in Hy.
  destruct Hy as (z & <- & Hz). rewrite Forall_forall in Hx. now apply Hx.
Qed.

Lemma StronglySorted_weaken {A : Type} (R S : A -> A -> Prop) (l : list A) :
  (forall a b, R a b -> S a b) -> StronglySorted R l -> StronglySorted S l.
Proof.
  intros HRS. induction 1 as [|x l Hs IH Hx]; constructor; [exact IH|].
  eapply Forall_impl; [|exact Hx]. intros y. apply HRS.
Qed.

Lemma reading_key_ge_page (a b : Feature.t) :
  reading_key_lt b a = false -> Feature.page_no a <= Feature.page_no b.
Proof.
  unfold reading_key_lt.
  destruct (Z.eqb_spec (Feature.page_no b) (Feature.page_no a)) as [E|E].
  - intros _. lia.
  - intros H. apply Z.ltb_ge in H. exact H.
Qed.

(** The sorted data has its pages in non-decreasing order. *)
Lemma sorted_data_pages (input_data : list Feature.t) :
  StronglySorted (fun a b => Feature.page_no a <= Feature.page_no b)
    (Py.sorted reading_key_lt input_data).
Proof.
  destruct (sorted_data_reading_order input_data) as [Hs <-].
  apply StronglySorted_map.
  eapply StronglySorted_weaken; [|exact Hs].
  intros a b [H _]. now apply reading_key_ge_page.
Qed.

(** X1.  The outline of the heuristic classifier is in reading order: the
    pages of its entries never decrease along the list. *)
Theorem heuristic_outline_pages_sorted (input_data : list Feature.t) :
  StronglySorted (fun a b => Heading.page a <= Heading.page b)
    (Prediction.outline (predict_headings_simple input_data)).
Proof.
  destruct (predict_headings_simple_spec input_data) as [_ ->].
  apply StronglySorted_map. unfold outline_blocks.
  apply StronglySorted_filter.
  eapply StronglySorted_weaken; [|apply sorted_data_pages].
  intros a b H. cbv beta in H. unfold simple_entry. cbn [Heading.page]. lia.
Qed.

Lemma filter_nil_existsb_false {A : Type} (p : A -> bool) (l : list A) :
  (forall x, In x l -> p x = false) -> filter p l = [].
Proof.
  induction l as [|x l IH]; intros H; simpl; [reflexivity|].
  rewrite (H x (or_introl eq_refl)). apply IH.
  intros y Hy. apply H. now right.
Qed.

Lemma heuristic_level_cases (item : Feature.t) :
  heuristic_level item = "H1" \/ heuristic_level item = "H2"
  \/ heuristic_level item = "H3" \/ heuristic_level item = "None".
Proof.
  unfold heuristic_level.
  destruct (_ && _ && _); [auto|].
  destruct (_ && _); [auto|].
  destruct (_ && _); auto.
Qed.

Lemma model_loop_spec (pairs : list (Feature.t * string))
    (title_text : string) (outline : list Heading.t) :
  model_loop pairs title_text outline
  = ((title_text ++ title_texts pairs)%string,
     outline ++ map model_entry (filter is_heading_level pairs)).
Proof.
  revert title_text outline.
  induction pairs as [|[item level] rest IH]; intros title_text outline.
  - simpl. unfold title_texts. simpl.
    now rewrite string_app_nil_r, app_nil_r.
  - cbn [model_loop]. unfold title_texts, is_title_level, is_heading_level.
    cbn [filter snd fst].
    destruct (String.eqb level "Title") eqn:Et; cbn [negb andb].
    + rewrite IH. cbn [fold_right fst].
      unfold title_texts, is_title_level, is_heading_level.
      now rewrite !string_app_assoc.
    + destruct (String.eqb level "None") eqn:En; cbn [negb].
      * rewrite IH. reflexivity.
      * rewrite IH, <- app_assoc. reflexivity.
Qed.

(** What a successful run of the model strategy returns. *)
Lemma model_strategy_inv (self : t) (m : HeadingModel.t)
    (input_data : list Feature.t) (p : Prediction.t) :
  model_strategy self m input_data = Py.Ok p ->
  exists cols predictions pred_levels,
    expected_cols self m = Some cols
    /\ HeadingModel.predict m cols input_data = Py.Ok predictions
    /\ decode self predictions = Py.Ok pred_levels
    /\ Prediction.outline p
       = map model_entry
           (filter is_heading_level (combine input_data pred_levels))
    /\ Prediction.title p
       = Py.strip (title_texts (combine input_data pred_levels)).
Proof.
  unfold model_strategy. intros H.
  destruct (expected_cols self m) as [cols|]; [|discriminate H].
  cbn [Py.bind] in H. bind_inv H predictions Hp. bind_inv H pred_levels Hd.
  rewrite model_loop_spec in H. injection H as <-.
  exists cols, predictions, pred_levels. repeat split; assumption.
Qed.

(** X2.  When the model strategy succeeds, its outline is made, in block
    order, of the blocks whose decoded level is neither ["Title"] nor
    ["None"], and its title is the stripped concatenation of the texts of the
    ["Title"] blocks, each followed by a space. *)
Theorem model_strategy_keeps_block_order (self : t) (m : HeadingModel.t)
    (input_data : list Feature.t) (p : Prediction.t) :
  model_strategy self m input_data = Py.Ok p ->
  exists cols predictions pred_levels,
    expected_cols self m = Some cols
    /\ HeadingModel.predict m cols input_data = Py.Ok predictions
    /\ decode self predictions = Py.Ok pred_levels
    /\ Prediction.outline p
       = map model_entry
           (filter is_heading_level (combine input_data pred_levels))
    /\ Prediction.title p
       = Py.strip (title_texts (combine input_data pred_levels)).
Proof.
  unfold model_strategy. intros H.
  destruct (expected_cols self m) as [cols|]; [|discriminate H].
  cbn [Py.bind] in H. bind_inv H predictions Hp. bind_inv H pred_levels Hd.
  rewrite model_loop_spec in H. injection H as <-.
  exists cols, predictions, pred_levels. repeat split; assumption.
Qed.

Lemma model_strategy_keeps_block_order_witness :
  exists p,
    model_strategy ClassifierSamples.processor_with_model
      ClassifierSamples.working_model Samples.two_title_lines = Py.Ok p
    /\ p = {| Prediction.title := "Annual Report 2024 Edition";
              Prediction.outline :=
                [ {| Heading.level := "H1"; Heading.text := "Overview";
                     Heading.page := 1 |} ] |}
    /\ exists cols predictions pred_levels,
         expected_cols ClassifierSamples.processor_with_model
           ClassifierSamples.working_model = Some cols
         /\ HeadingModel.predict ClassifierSamples.working_model cols
              Samples.two_title_lines = Py.Ok predictions
         /\ decode ClassifierSamples.processor_with_model predictions
            = Py.Ok pred_levels
         /\ Prediction.outline p
            = map model_entry
                (filter is_heading_level
                   (combine Samples.two_title_lines pred_levels))
         /\ Prediction.title p
            = Py.strip
                (title_texts (combine Samples.two_title_lines pred_levels)).
Proof.
  eexists. split; [vm_compute; reflexivity|]. split; [reflexivity|].
  apply (model_strategy_keeps_block_order
           ClassifierSamples.processor_with_model
           ClassifierSamples.working_model Samples.two_title_lines).
  vm_compute. reflexivity.
Defined.

Lemma simple_entry_of (item : Feature.t) : entry_of item (simple_entry item).
Proof. split; reflexivity. Qed.

Lemma simple_outline_entry_source (input_data : list Feature.t)
    (e : Heading.t) :
  In e (Prediction.outline (predict_headings_simple input_data)) ->
  Heading.level e <> "None" /\ Heading.level e <> "Title"
  /\ exists item, In item input_data /\ entry_of item e.
Proof.
  destruct (predict_headings_simple_spec input_data) as [_ ->].
  intros He. apply in_map_iff in He. destruct He as (item & <- & Hi).
  unfold outline_blocks in Hi. apply filter_In in Hi.
  destruct Hi as [Hi Hl]. apply sorted_in in Hi.
  apply andb_prop in Hl. destruct Hl as [_ Hl].
  apply negb_true_iff, String.eqb_neq in Hl.
  split; [exact Hl|]. split.
  - cbn [simple_entry Heading.level].
    destruct (heuristic_level_cases item) as [E|[E|[E|E]]]; rewrite E;
      discriminate.
  - exists item. split; [exact Hi|apply simple_entry_of].
Qed.

Lemma model_outline_entry_source (self : t) (m : HeadingModel.t)
    (input_data : list Feature.t) (p : Prediction.t) (e : Heading.t) :
  model_strategy self m input_data = Py.Ok p ->
  In e (Prediction.outline p) ->
  Heading.level e <> "None" /\ Heading.level e <> "Title"
  /\ exists item, In item input_data /\ entry_of item e.
Proof.
  intros Hm. apply model_strategy_inv in Hm.
  destruct Hm as (cols & predictions & levels & _ & _ & _ & -> & _).
  intros He. apply in_map_iff in He. destruct He as ([item lvl] & <- & Hi).
  apply filter_In in Hi. destruct Hi as [Hi Hl].
  unfold is_heading_level in Hl. cbn [snd] in Hl.
  apply andb_prop in Hl. destruct Hl as [Ht Hn].
  apply negb_true_iff, String.eqb_neq in Ht.
  apply negb_true_iff, String.eqb_neq in Hn.
  split; [exact Hn|]. split; [exact Ht|].
  exists item. split; [now apply in_combine_l in Hi|split; reflexivity].
Qed.

(** The two ways [predict_headings_with_model] gets its result. *)
Lemma predict_headings_with_model_cases (self : t)
    (input_data : list Feature.t) :
  predict_headings_with_model self input_data
  = predict_headings_simple input_data
  \/ exists m,
       model_strategy self m input_data
       = Py.Ok (predict_headings_with_model self input_data).
Proof.
  unfold predict_headings_with_model.
  destruct (heading_model self) as [m|]; [|now left].
  destruct (model_strategy self m input_data) as [p|err] eqn:Hm;
    [|now left].
  right. exists m. now rewrite Hm.
Qed.

(** X3.  Whatever the strategy, every outline entry carries the text and
    the 1-based page of a block of the input, and its level is neither
    ["None"] nor ["Title"]. *)
Theorem outline_entries_come_from_blocks (self : t)
    (input_data : list Feature.t) (e : Heading.t) :
  In e (Prediction.outline (predict_headings_with_model self input_data)) ->
  Heading.level e <> "None" /\ Heading.level e <> "Title"
  /\ exists item, In item input_data /\ entry_of item e.
Proof.
  destruct (predict_headings_with_model_cases self input_data)
    as [->|[m Hm]].
  - apply simple_outline_entry_source.
  - eapply model_outline_entry_source. exact Hm.
Qed.

Lemma outline_entries_come_from_blocks_witness :
  In {| Heading.level := "H1"; Heading.text := "Overview";
        Heading.page := 1 |}
    (Prediction.outline
       (predict_headings_with_model ClassifierSamples.processor_with_model
          Samples.two_title_lines))
  /\ exists item,
       In item Samples.two_title_lines
       /\ entry_of item
            {| Heading.level := "H1"; Heading.text := "Overview";
               Heading.page := 1 |}.
Proof.
  assert (H : In {| Heading.level := "H1"; Heading.text := "Overview";
                    Heading.page := 1 |}
                (Prediction.outline
                   (predict_headings_with_model
                      ClassifierSamples.processor_with_model
                      Samples.two_title_lines))).
  { vm_compute. left. reflexivity. }
  split; [exact H|].
  exact (proj2 (proj2 (outline_entries_come_from_blocks _ _ _ H))).
Defined.

(** An input block that is not a title block and has a level gives the
    outline entry of this level. *)
Lemma heuristic_entry (input_data : list Feature.t) (item : Feature.t)
    (lvl : string) :
  In item input_data ->
  is_title_block item = false ->
  heuristic_level item = lvl ->
  lvl <> "None" ->
  In {| Heading.level := lvl;
        Heading.text := Feature.text item;
        Heading.page := Feature.page_no item + 1 |}
    (Prediction.outline (predict_headings_simple input_data)).
Proof.
  intros Hin Hnt Hlvl Hnone.
  destruct (predict_headings_simple_spec input_data) as [_ ->].
  replace {| Heading.level := lvl; Heading.text := Feature.text item;
             Heading.page := Feature.page_no item + 1 |}
    with (simple_entry item)
    by (unfold simple_entry; rewrite Hlvl; reflexivity).
  apply in_map. unfold outline_blocks. apply filter_In. split.
  - now apply sorted_in.
  - rewrite Hnt, Hlvl. cbn [negb andb].
    apply negb_true_iff, String.eqb_neq. exact Hnone.
Qed.

(** X4.  Under the heuristic classifier a block that is not a title block,
    with ratio above 0.6, bold or of at most 15 words, and not meeting the
    first rule, has level H2 and gives an H2 entry with its 1-based page. *)
Theorem heuristic_h2_entry (input_data : list Feature.t) (item : Feature.t) :
  In item input_data ->
  is_title_block item = false ->
  (0.6 < Feature.font_size_relative_to_max_pdf item)%Q ->
  Feature.is_bold item = true \/ Feature.num_words item <= 15 ->
  ~ ((0.8 < Feature.font_size_relative_to_max_pdf item)%Q
     /\ Feature.is_bold item = true /\ Feature.num_words item <= 10) ->
  heuristic_level item = "H2"
  /\ In {| Heading.level := "H2";
           Heading.text := Feature.text item;
           Heading.page := Feature.page_no item + 1 |}
       (Prediction.outline (predict_headings_simple input_data)).
Proof.
  intros Hin Hnt Hratio Hrule Hnot1.
  assert (Hlevel : heuristic_level item = "H2").
  { unfold heuristic_level.
    destruct (Py.Qltb 0.8 (Feature.font_size_relative_to_max_pdf item)
              && Feature.is_bold item && (Feature.num_words item <=? 10))
      eqn:E1.
    - exfalso. apply Hnot1.
      apply andb_prop in E1. destruct E1 as [E1 Ew].
      apply andb_prop in E1. destruct E1 as [Er Eb].
      apply Qltb_lt in Er. apply Z.leb_le in Ew. auto.
    - apply Qltb_lt in Hratio. rewrite Hratio.
      destruct Hrule as [Hb|Hw].
      + rewrite Hb. reflexivity.
      + apply Z.leb_le in Hw. rewrite Hw, orb_true_r. reflexivity. }
  split; [exact Hlevel|].
  apply heuristic_entry; [assumption|assumption|exact Hlevel|discriminate].
Qed.

Lemma heuristic_h2_entry_witness :
  heuristic_level ClassifierSamples.sub_heading = "H2"
  /\ In {| Heading.level := "H2";
           Heading.text := "Scope of the review";
           Heading.page := 2 |}
       (Prediction.outline
          (predict_headings_simple ClassifierSamples.mixed_blocks)).
Proof.
  apply (heuristic_h2_entry ClassifierSamples.mixed_blocks
           ClassifierSamples.sub_heading).
  - simpl. auto.
  - reflexivity.
  - reflexivity.
  - right. simpl. lia.
  - intros (_ & Hb & _). discriminate Hb.
Defined.

(** X5.  Under the heuristic classifier a block that is not a title block,
    with ratio above 0.5, of at most 20 words, and meeting neither the first
    nor the second rule, has level H3 and gives an H3 entry. *)
Theorem heuristic_h3_entry (input_data : list Feature.t) (item : Feature.t) :
  In item input_data ->
  is_title_block item = false ->
  (0.5 < Feature.font_size_relative_to_max_pdf item)%Q ->
  Feature.num_words item <= 20 ->
  ~ ((0.8 < Feature.font_size_relative_to_max_pdf item)%Q
     /\ Feature.is_bold item = true /\ Feature.num_words item <= 10) ->
  ~ ((0.6 < Feature.font_size_relative_to_max_pdf item)%Q
     /\ (Feature.is_bold item = true \/ Feature.num_words item <= 15)) ->
  heuristic_level item = "H3"
  /\ In {| Heading.level := "H3";
           Heading.text := Feature.text item;
           Heading.page := Feature.page_no item + 1 |}
       (Prediction.outline (predict_headings_simple input_data)).
Proof.
  intros Hin Hnt Hratio Hwords Hnot1 Hnot2.
  assert (Hlevel : heuristic_level item = "H3").
  { unfold heuristic_level.
    destruct (Py.Qltb 0.8 (Feature.font_size_relative_to_max_pdf item)
              && Feature.is_bold item && (Feature.num_words item <=? 10))
      eqn:E1.
    { exfalso. apply Hnot1.
      apply andb_prop in E1. destruct E1 as [E1 Ew].
      apply andb_prop in E1. destruct E1 as [Er Eb].
      apply Qltb_lt in Er. apply Z.leb_le in Ew. auto. }
    destruct (Py.Qltb 0.6 (Feature.font_size_relative_to_max_pdf item)
              && (Feature.is_bold item || (Feature.num_words item <=? 15)))
      eqn:E2.
    { exfalso. apply Hnot2.
      apply andb_prop in E2. destruct E2 as [Er E2].
      apply Qltb_lt in Er. split; [exact Er|].
      apply orb_prop in E2. destruct E2 as [Eb|Ew]; [now left|].
      right. now apply Z.leb_le in Ew. }
    apply Qltb_lt in Hratio. rewrite Hratio.
    apply Z.leb_le in Hwords. rewrite Hwords. reflexivity. }
  split; [exact Hlevel|].
  apply heuristic_entry; [assumption|assumption|exact Hlevel|discriminate].
Qed.

Lemma heuristic_h3_entry_witness :
  heuristic_level ClassifierSamples.minor_heading = "H3"
  /\ In {| Heading.level := "H3";
           Heading.text := Feature.text ClassifierSamples.minor_heading;
           Heading.page := 2 |}
       (Prediction.outline
          (predict_headings_simple ClassifierSamples.mixed_blocks)).
Proof.
  apply (heuristic_h3_entry ClassifierSamples.mixed_blocks
           ClassifierSamples.minor_heading).
  - simpl. auto.
  - reflexivity.
  - reflexivity.
  - simpl. lia.
  - intros (_ & Hb & _). discriminate Hb.
  - intros (Hr & _). vm_compute in Hr. discriminate Hr.
Defined.

(** The blocks without a level: ratio at most 0.5, or more than 20 words
    with a ratio at most 0.6 or no bold. *)
Lemma heuristic_level_none (item : Feature.t) :
  (Feature.font_size_relative_to_max_pdf item <= 0.5)%Q
  \/ (20 < Feature.num_words item
      /\ ((Feature.font_size_relative_to_max_pdf item <= 0.6)%Q
          \/ Feature.is_bold item = false)) ->
  heuristic_level item = "None".
Proof.
  intros H. unfold heuristic_level.
  set (r := Feature.font_size_relative_to_max_pdf item) in *.
  destruct (Py.Qltb 0.8 r) eqn:E8; destruct (Py.Qltb 0.6 r) eqn:E6;
    destruct (Py.Qltb 0.5 r) eqn:E5;
    destruct (Feature.is_bold item) eqn:Eb;
    destruct (Z.leb_spec (Feature.num_words item) 10);
    destruct (Z.leb_spec (Feature.num_words item) 15);
    destruct (Z.leb_spec (Feature.num_words item) 20);
    cbn [andb orb]; try reflexivity; try lia; exfalso;
    try (apply Qltb_lt in E8); try (apply Qltb_lt in E6);
    try (apply Qltb_lt in E5);
    destruct H as [H|[Hw [H|H]]]; try lia; try discriminate;
    try (exact (Qlt_not_le _ _ E5 H)); try (exact (Qlt_not_le _ _ E6 H));
    try (apply (Qlt_not_le _ _ E6); eapply Qle_trans; [exact H|];
         unfold Qle; simpl; lia);
    try (apply (Qlt_not_le _ _ E8); eapply Qle_trans; [exact H|];
         unfold Qle; simpl; lia).
Qed.

(** X6.  Under the heuristic classifier an input made only of title blocks
    and of blocks with ratio at most 0.5, or with more than 20 words and a
    ratio at most 0.6 or no bold, gives the empty outline. *)
Theorem heuristic_body_text_gives_no_outline (input_data : list Feature.t) :
  (forall item, In item input_data ->
     is_title_block item = true
     \/ (Feature.font_size_relative_to_max_pdf item <= 0.5)%Q
     \/ (20 < Feature.num_words item
         /\ ((Feature.font_size_relative_to_max_pdf item <= 0.6)%Q
             \/ Feature.is_bold item = false))) ->
  Prediction.outline (predict_headings_simple input_data) = [].
Proof.
  intros H.
  destruct (predict_headings_simple_spec input_data) as [_ ->].
  unfold outline_blocks.
  replace (filter _ (Py.sorted reading_key_lt input_data)) with
    (@nil Feature.t); [reflexivity|].
  symmetry. apply filter_nil_existsb_false. intros item Hi.
  apply sorted_in in Hi. destruct (H item Hi) as [Ht|Hn].
  - now rewrite Ht.
  - rewrite (heuristic_level_none item Hn). cbn. apply andb_false_r.
Qed.

Lemma heuristic_body_text_gives_no_outline_witness :
  Prediction.outline
    (predict_headings_simple
       [ClassifierSamples.paragraph; Samples.feature "Annual Report" 1 false 2 0.02 0])
  = [].
Proof.
  apply (heuristic_body_text_gives_no_outline
           [ClassifierSamples.paragraph;
            Samples.feature "Annual Report" 1 false 2 0.02 0]).
  intros item [<-|[<-|[]]].
  - right. left. unfold Qle. simpl. lia.
  - left. reflexivity.
Defined.

End ClassifierExtras.

(** ** Stripped strings *)

Section StripFacts.

Lemma rstrip_idem (s : string) : Py.rstrip (Py.rstrip s) = Py.rstrip s.
Proof.
  induction s as [|c s IH]; [reflexivity|].
  cbn [Py.rstrip]. destruct (Py.rstrip s) as [|d r] eqn:Hr.
  - destruct (Py.is_space c) eqn:Hc; [reflexivity|].
    cbn [Py.rstrip]. now rewrite Hc.
  - cbn [Py.rstrip]. cbn [Py.rstrip] in IH. rewrite IH. reflexivity.
Qed.

Lemma lstrip_idem (s : string) : Py.lstrip (Py.lstrip s) = Py.lstrip s.
Proof.
  induction s as [|c s IH]; [reflexivity|].
  cbn [Py.lstrip]. destruct (Py.is_space c) eqn:Hc; [exact IH|].
  cbn [Py.lstrip]. now rewrite Hc.
Qed.

Lemma rstrip_lstrip (s : string) :
  Py.rstrip (Py.lstrip s) = Py.lstrip (Py.rstrip s).
Proof.
  induction s as [|c s IH]; [reflexivity|].
  cbn [Py.lstrip Py.rstrip]. destruct (Py.is_space c) eqn:Hc.
  - rewrite IH. destruct (Py.rstrip s) as [|d r]; cbn [Py.lstrip].
    + reflexivity.
    + now rewrite Hc.
  - cbn [Py.rstrip]. destruct (Py.rstrip s) as [|d r]; rewrite ?Hc;
      cbn [Py.lstrip]; now rewrite Hc.
Qed.

(** Stripping twice is stripping once. *)
Lemma strip_idem (s : string) : Py.strip (Py.strip s) = Py.strip s.
Proof.
  unfold Py.strip.
  now rewrite rstrip_lstrip, rstrip_idem, lstrip_idem.
Qed.

End StripFacts.

(** ** Further properties of the segmenter *)

Section SegmenterExtras.

Import PDFProcessor Reference ClassifierReference.

(** X7.  Whatever the strategy, the returned title has no leading or
    trailing whitespace: stripping it again changes nothing. *)
Theorem title_is_stripped (self : t) (input_data : list Feature.t) :
  Py.strip (Prediction.title (predict_headings_with_model self input_data))
  = Prediction.title (predict_headings_with_model self input_data).
Proof.
  assert (Hs : Py.strip (Prediction.title (predict_headings_simple input_data))
               = Prediction.title (predict_headings_simple input_data)).
  { destruct (predict_headings_simple_spec input_data) as [-> _].
    apply strip_idem. }
  unfold predict_headings_with_model.
  destruct (heading_model self) as [m|]; [|exact Hs].
  destruct (model_strategy self m input_data) as [p|e] eqn:Hm; [|exact Hs].
  cbn [Py.try_except].
  apply model_strategy_inv in Hm.
  destruct Hm as (cols & predictions & levels & _ & _ & _ & _ & ->).
  apply strip_idem.
Qed.

Lemma scan_line_stripped (heading : Heading.t)
    (next_heading : option Heading.t) (st : scan) (line : Line.t) :
  stripped_state st -> stripped_state (scan_line heading next_heading st line).
Proof.
  destruct st as [full_text found|value]; cbn [scan_line]; [|auto].
  intros _.
  destruct (negb found && matches heading line); [exact I|].
  destruct found; [|exact I].
  destruct (match next_heading with
            | Some nxt => matches nxt line
            | None => false
            end); [|exact I].
  cbn [stripped_state]. apply strip_idem.
Qed.

Lemma scan_lines_stripped (heading : Heading.t)
    (next_heading : option Heading.t) (lines : list Line.t) (st : scan) :
  stripped_state st ->
  stripped_state (fold_left (scan_line heading next_heading) lines st).
Proof.
  revert st. induction lines as [|line lines IH]; intros st Hst;
    [exact Hst|].
  cbn [fold_left]. apply IH. now apply scan_line_stripped.
Qed.

Lemma scan_pages_stripped (doc : Document) (heading : Heading.t)
    (next_heading : option Heading.t) (page_nums : list Z) (st st' : scan) :
  scan_pages doc heading next_heading page_nums st = Py.Ok st' ->
  stripped_state st -> stripped_state st'.
Proof.
  revert st. induction page_nums as [|n rest IH]; intros st H Hst.
  - cbn [scan_pages] in H. now injection H as <-.
  - cbn [scan_pages] in H. destruct st as [full_text found|value].
    + bind_inv H page Hp. apply IH in H; [exact H|].
      now apply scan_lines_stripped.
    + now injection H as <-.
Qed.

(** The value of [extract_text_for_heading] is stripped. *)
Lemma extract_text_stripped (doc : Document) (heading : Heading.t)
    (next_heading : option Heading.t) (text : string) :
  extract_text_for_heading doc heading next_heading = Py.Ok text ->
  Py.strip text = text.
Proof.
  unfold extract_text_for_heading. intros H. bind_inv H st Hst.
  apply scan_pages_stripped in Hst; [|exact I].
  destruct st as [full_text found|value]; injection H as <-.
  - apply strip_idem.
  - exact Hst.
Qed.

(** X8.  A content that [extract_text_for_heading] returns has no leading or
    trailing whitespace, whatever the pages of the two headings. *)
Theorem content_is_stripped (doc : Document) (heading : Heading.t)
    (next_heading : option Heading.t) (text : string) :
  extract_text_for_heading doc heading next_heading = Py.Ok text ->
  Py.strip text = text.
Proof.
  unfold extract_text_for_heading. intros H. bind_inv H st Hst.
  apply scan_pages_stripped in Hst; [|exact I].
  destruct st as [full_text found|value]; injection H as <-.
  - apply strip_idem.
  - exact Hst.
Qed.

Lemma content_is_stripped_witness :
  extract_text_for_heading Samples.two_pages
    (Samples.heading "H1" "Introduction" 1)
    (Some (Samples.heading "H1" "Methods" 2))
  = Py.Ok "This sets the scene.  It continues here."
  /\ Py.strip "This sets the scene.  It continues here."
     = "This sets the scene.  It continues here.".
Proof.
  split; [vm_compute; reflexivity|].
  apply (content_is_stripped Samples.two_pages
           (Samples.heading "H1" "Introduction" 1)
           (Some (Samples.heading "H1" "Methods" 2))).
  vm_compute. reflexivity.
Defined.

Lemma sections_loop_invariant (self : t) (doc : Document)
    (outline : list Heading.t) (acc sections : list Section.t) :
  sections_loop self doc outline acc = Py.Ok sections ->
  exists added,
    sections = acc ++ added
    /\ (List.length added <= List.length outline)%nat
    /\ forall s, In s added ->
         exists curr, In curr outline
           /\ s = make_section self curr (Section.content s)
           /\ Section.content s <> ""
           /\ Py.strip (Section.content s) = Section.content s.
Proof.
  revert acc. induction outline as [|curr rest IH]; intros acc H.
  - cbn [sections_loop] in H. injection H as <-. exists [].
    rewrite app_nil_r. split; [reflexivity|]. split; [simpl; lia|].
    intros s [].
  - cbn [sections_loop] in H. bind_inv H text Ht.
    apply extract_text_stripped in Ht.
    destruct (Py.truthy text) eqn:Htruthy.
    + apply IH in H. destruct H as (added & -> & Hlen & Hall).
      exists (make_section self curr text :: added).
      rewrite <- app_assoc. split; [reflexivity|].
      split; [simpl; lia|].
      intros s [<-|Hs].
      * exists curr. split; [now left|]. cbn [make_section Section.content].
        split; [reflexivity|]. split; [|exact Ht].
        intros ->. discriminate Htruthy.
      * destruct (Hall s Hs) as (c & Hc & Hrest).
        exists c. split; [now right|exact Hrest].
    + apply IH in H. destruct H as (added & -> & Hlen & Hall).
      exists added. split; [reflexivity|]. split; [simpl; lia|].
      intros s Hs. destruct (Hall s Hs) as (c & Hc & Hrest).
      exists c. split; [now right|exact Hrest].
Qed.

(** X9.  When [extract_sections_with_content] returns, there are at most as
    many sections as outline entries, and every section is made of an
    outline entry: its title, page and level, a content that is not empty
    and is stripped, the text "title. content", and the encoding of this
    text as embedding. *)
Theorem sections_are_made_of_entries (self : t) (doc : Document)
    (outline : list Heading.t) (sections : list Section.t) :
  extract_sections_with_content self doc outline = Py.Ok sections ->
  (List.length sections <= List.length outline)%nat
  /\ forall s, In s sections ->
       exists curr, In curr outline
         /\ Section.section_title s = Heading.text curr
         /\ Section.page_number s = Heading.page curr
         /\ Section.level s = Heading.level curr
         /\ Section.content s <> ""
         /\ Py.strip (Section.content s) = Section.content s
         /\ Section.section_text s
            = (Heading.text curr ++ ". " ++ Section.content s)%string
         /\ Section.embedding s = model self (Section.section_text s).
Proof.
  unfold extract_sections_with_content. intros H.
  apply sections_loop_invariant in H.
  destruct H as (added & -> & Hlen & Hall). cbn [app].
  split; [exact Hlen|].
  intros s Hs. destruct (Hall s Hs) as (curr & Hc & Hmk & Hne & Hst).
  exists curr. split; [exact Hc|].
  remember (Section.content s) as c eqn:Ec. clear Ec. subst s.
  cbn [make_section Section.section_title Section.page_number Section.level
       Section.section_text Section.embedding Section.content].
  repeat split; assumption.
Qed.

Lemma sections_are_made_of_entries_witness :
  exists sections,
    extract_sections_with_content Samples.processor_without_model
      Samples.two_pages Samples.two_pages_outline = Py.Ok sections
    /\ (List.length sections <= 3)%nat
    /\ forall s, In s sections ->
         exists curr, In curr Samples.two_pages_outline
           /\ Section.section_title s = Heading.text curr
           /\ Section.page_number s = Heading.page curr
           /\ Section.level s = Heading.level curr
           /\ Section.content s <> ""
           /\ Py.strip (Section.content s) = Section.content s
           /\ Section.section_text s
              = (Heading.text curr ++ ". " ++ Section.content s)%string
           /\ Section.embedding s
              = model Samples.processor_without_model (Section.section_text s).
Proof.
  eexists. split; [vm_compute; reflexivity|].
  apply (sections_are_made_of_entries Samples.processor_without_model
           Samples.two_pages Samples.two_pages_outline).
  vm_compute. reflexivity.
Defined.

End SegmenterExtras.

(** ** Further properties of the feature extractor *)

Section ExtractorExtras.

Import PDFProcessor Reference.

Lemma scan_block_page_num (page_num : Z) (page : Page.t) (m : Q)
    (ib : Z * Block.t) (bd : BlockData.t) :
  scan_block page_num page m ib = Py.Ok (Some bd) ->
  BlockData.page_num bd = page_num.
Proof.
  destruct ib as [i b]. unfold scan_block.
  destruct (negb (Block.type b =? 0)); [discriminate|].
  destruct (is_table_block b); [discriminate|].
  destruct (scan_lines b) as [line_texts u].
  destruct line_texts as [|l ls]; [discriminate|].
  intros H. bind_inv H line0 H0. bind_inv H span0 H1.
  injection H as <-. reflexivity.
Qed.

Lemma scan_page_page_num (page_num : Z) (page : Page.t)
    (tbs : list TextBlock.t) :
  scan_page (page_num, page) = Py.Ok tbs ->
  Forall (fun tb => BlockData.page_num (TextBlock.data tb) = page_num) tbs.
Proof.
  unfold scan_page. intros H. bind_inv H scanned Hs. injection H as <-.
  apply mapM_Forall2 in Hs.
  apply Forall_forall. intros tb Htb.
  apply (in_map TextBlock.data) in Htb. rewrite add_spacing_data in Htb.
  unfold keep_some in Htb. apply in_flat_map in Htb.
  destruct Htb as ([bd|] & Hin & Hbd); [|contradiction].
  destruct Hbd as [<-|[]].
  clear - Hs Hin. induction Hs as [|ib o ibs scanned Hb _ IH];
    [contradiction|].
  destruct Hin as [->|Hin]; [|now apply IH].
  eapply scan_block_page_num. exact Hb.
Qed.

(** The blocks of the pages numbered from [start] come page after page. *)
Lemma scan_pages_page_nums (pages : list Page.t) (start : nat)
    (per_page : list (list TextBlock.t)) :
  Py.mapM scan_page
    (combine (map Z.of_nat (seq start (List.length pages))) pages)
  = Py.Ok per_page ->
  Forall (fun tb => Z.of_nat start <= BlockData.page_num (TextBlock.data tb)
                    < Z.of_nat (start + List.length pages))
    (List.concat per_page)
  /\ StronglySorted
       (fun a b => BlockData.page_num (TextBlock.data a)
                   <= BlockData.page_num (TextBlock.data b))
       (List.concat per_page).
Proof.
  revert start per_page.
  induction pages as [|page pages IH]; intros start per_page H.
  - simpl in H. injection H as <-. simpl. split; constructor.
  - cbn [List.length seq map combine Py.mapM] in H.
    bind_inv H tbs Hp. bind_inv H rest Hr. injection H as <-.
    apply scan_page_page_num in Hp. apply IH in Hr.
    destruct Hr as [Hrange Hsorted]. cbn [List.concat].
    rewrite Forall_forall in Hp, Hrange.
    split.
    + apply Forall_forall. intros tb Htb. apply in_app_or in Htb.
      destruct Htb as [Htb|Htb].
      * rewrite (Hp tb Htb). simpl. lia.
      * specialize (Hrange tb Htb). simpl. lia.
    + clear IH. induction tbs as [|tb tbs IHt]; [exact Hsorted|].
      cbn [app]. constructor.
      * apply IHt. intros x Hx. apply Hp. now right.
      * apply Forall_forall. intros x Hx. apply in_app_or in Hx.
        rewrite (Hp tb (or_introl eq_refl)).
        destruct Hx as [Hx|Hx].
        -- rewrite (Hp x (or_intror Hx)). lia.
        -- specialize (Hrange x Hx). lia.
Qed.

Lemma derive_features_page_no (self : t) (m : Q) (tb : TextBlock.t)
    (f : Feature.t) :
  derive_features self m tb = Py.Ok f ->
  Feature.page_no f = BlockData.page_num (TextBlock.data tb).
Proof.
  unfold derive_features. intros H.
  bind_inv H a1 H1. bind_inv H a2 H2. bind_inv H a3 H3. bind_inv H a4 H4.
  bind_inv H a5 H5. bind_inv H a6 H6. bind_inv H a7 H7. bind_inv H a8 H8.
  injection H as <-. reflexivity.
Qed.

(** X10.  The features come in page order, and the page index of every
    feature is a page of the document. *)
Theorem features_in_page_order (self : t) (doc : Document)
    (features : list Feature.t) :
  extract_features_from_pdf self doc = Py.Ok features ->
  Forall (fun f => 0 <= Feature.page_no f < Z.of_nat (List.length doc))
    features
  /\ StronglySorted (fun a b => Feature.page_no a <= Feature.page_no b)
       features.
Proof.
  unfold extract_features_from_pdf, all_text_blocks_raw. intros H.
  bind_inv H raw Hraw. bind_inv Hraw per_page Hp. injection Hraw as <-.
  apply scan_pages_page_nums in Hp. destruct Hp as [Hrange Hsorted].
  apply mapM_Forall2 in H. revert H Hrange Hsorted.
  generalize (List.concat per_page) as blocks. intros blocks H.
  induction H as [|tb f bs fs Hf Hrest IH]; intros Hrange Hsorted.
  - split; constructor.
  - apply derive_features_page_no in Hf.
    apply Forall_cons_iff in Hrange. destruct Hrange as [Htb Hrange].
    inversion Hsorted as [|? ? Hs Hle]; subst.
    destruct (IH Hrange Hs) as [IH1 IH2].
    split; constructor; try assumption.
    + rewrite Hf. simpl in Htb. lia.
    + clear - Hf Hle Hrest. rewrite Hf.
      induction Hrest as [|tb' f' bs' fs' Hf' _ IHr]; constructor.
      * apply derive_features_page_no in Hf'. rewrite Hf'.
        now inversion Hle.
      * apply IHr. now inversion Hle.
Qed.

Lemma features_in_page_order_witness :
  exists features,
    extract_features_from_pdf Samples.processor_without_model
      Samples.two_pages = Py.Ok features
    /\ map Feature.page_no features = [0; 0; 0; 1; 1; 1]
    /\ Forall (fun f => 0 <= Feature.page_no f < 2) features
    /\ StronglySorted (fun a b => Feature.page_no a <= Feature.page_no b)
         features.
Proof.
  eexists. split; [vm_compute; reflexivity|].
  split; [vm_compute; reflexivity|].
  apply (features_in_page_order Samples.processor_without_model
           Samples.two_pages).
  vm_compute. reflexivity.
Defined.

End ExtractorExtras.

(** ** The whole processing of a document *)

Section ProcessExtras.

Import PDFProcessor Reference ClassifierReference IndexReference.

Lemma features_page_range (self : t) (doc : Document)
    (features : list Feature.t) :
  extract_features_from_pdf self doc = Py.Ok features ->
  Forall (fun f => 0 <= Feature.page_no f < Z.of_nat (List.length doc))
    features.
Proof.
  unfold extract_features_from_pdf, all_text_blocks_raw. intros H.
  bind_inv H raw Hraw. bind_inv Hraw per_page Hp. injection Hraw as <-.
  apply scan_pages_page_nums in Hp. destruct Hp as [Hrange _].
  apply mapM_Forall2 in H. revert H Hrange.
  generalize (List.concat per_page) as blocks. intros blocks H.
  induction H as [|tb f bs fs Hf _ IH]; intros Hrange; constructor.
  - apply derive_features_page_no in Hf. rewrite Hf.
    apply Forall_inv in Hrange. simpl in Hrange. lia.
  - apply IH. now apply Forall_inv_tail in Hrange.
Qed.

Lemma outline_pages_in_document (self : t) (doc : Document)
    (features : list Feature.t) (h : Heading.t) :
  extract_features_from_pdf self doc = Py.Ok features ->
  In h (Prediction.outline (predict_headings_with_model self features)) ->
  1 <= Heading.page h <= Z.of_nat (List.length doc).
Proof.
  intros Hf Hh.
  apply features_page_range in Hf.
  assert (Hsrc : exists item, In item features /\ entry_of item h).
  { destruct (predict_headings_with_model_cases self features)
      as [E|[m Hm]].
    - rewrite E in Hh. now apply simple_outline_entry_source in Hh.
    - now apply (model_outline_entry_source _ _ _ _ _ Hm) in Hh. }
  destruct Hsrc as (item & Hitem & _ & Hpage).
  rewrite Forall_forall in Hf. specialize (Hf item Hitem). lia.
Qed.

(** [process_pdf] on a document whose features are extracted. *)
Lemma process_pdf_after_extraction (self : t)
    (now pdf_path : string) (doc : Document) (features : list Feature.t) :
  extract_features_from_pdf self doc = Py.Ok features ->
  process_pdf self now pdf_path doc
  = Py.Ok (index_of self now pdf_path doc features).
Proof.
  intros Hf. unfold process_pdf, extract_sections_with_content.
  rewrite Hf. cbn [Py.bind].
  rewrite sections_loop_spec.
  - reflexivity.
  - intros h Hh. eapply outline_pages_in_document; eassumption.
Qed.

(** X11.  Once the features of a document are extracted, [process_pdf]
    returns: the outline of either strategy lies on pages of the document,
    so that the segmentation does not raise, and the record is made of the
    prediction, of the sections read off the document for its outline, of
    their count and of the count of the features. *)
Theorem process_pdf_returns_after_extraction (self : t)
    (now pdf_path : string) (doc : Document) (features : list Feature.t) :
  extract_features_from_pdf self doc = Py.Ok features ->
  process_pdf self now pdf_path doc
  = Py.Ok (index_of self now pdf_path doc features).
Proof.
  intros Hf. unfold process_pdf, extract_sections_with_content.
  rewrite Hf. cbn [Py.bind].
  rewrite sections_loop_spec.
  - reflexivity.
  - intros h Hh. eapply outline_pages_in_document; eassumption.
Qed.

Lemma process_pdf_returns_after_extraction_witness :
  exists features,
    extract_features_from_pdf ClassifierSamples.processor_with_model
      Samples.two_pages = Py.Ok features
    /\ process_pdf ClassifierSamples.processor_with_model
         "2026-01-01T00:00:00" "pdfs/two.pdf" Samples.two_pages
       = Py.Ok (index_of ClassifierSamples.processor_with_model
                  "2026-01-01T00:00:00" "pdfs/two.pdf" Samples.two_pages
                  features).
Proof.
  eexists. split; [vm_compute; reflexivity|].
  apply (process_pdf_returns_after_extraction
           ClassifierSamples.processor_with_model).
  vm_compute. reflexivity.
Defined.

(** X12.  [process_pdf] raises exactly when the extraction of the features
    raises, and what it raises is then an [Exception]. *)
Theorem process_pdf_raises_iff (self : t) (now pdf_path : string)
    (doc : Document) :
  ((exists e, process_pdf self now pdf_path doc = Py.Raise e)
   <-> (exists e, extract_features_from_pdf self doc = Py.Raise e))
  /\ (forall e, process_pdf self now pdf_path doc = Py.Raise e ->
                exists msg, e = Py.Exception msg).
Proof.
  destruct (extract_features_from_pdf self doc) as [features|e0] eqn:Hf.
  - rewrite (process_pdf_after_extraction _ _ _ _ _ Hf).
    split; [split; intros [e He]; discriminate He|].
    intros e He. discriminate He.
  - unfold process_pdf. rewrite Hf. cbn [Py.bind].
    split; [split; intros _; eauto|].
    intros e He. injection He as <-. eauto.
Qed.

Lemma mapM_Exists_raise {A B : Type} (f : A -> Py.result B) (E : Py.exn)
    (l : list A) :
  (forall x e, f x = Py.Raise e -> e = E) ->
  Exists (fun x => exists e, f x = Py.Raise e) l ->
  Py.mapM f l = Py.Raise E.
Proof.
  intros Hall Hex. induction l as [|x l IH]; [inversion Hex|].
  cbn [Py.mapM]. destruct (f x) as [y|e] eqn:Hx; cbn [Py.bind].
  - rewrite IH; [reflexivity|].
    inversion Hex as [? ? [e He]|]; subst; [congruence|assumption].
  - now rewrite (Hall x e Hx).
Qed.

Lemma mapM_raise_inv {A B : Type} (f : A -> Py.result B) (e : Py.exn)
    (l : list A) :
  Py.mapM f l = Py.Raise e -> exists x, In x l /\ f x = Py.Raise e.
Proof.
  induction l as [|x l IH]; [discriminate|].
  cbn [Py.mapM]. destruct (f x) as [y|e0] eqn:Hx; cbn [Py.bind].
  - destruct (Py.mapM f l) as [ys|e1]; cbn [Py.bind]; [discriminate|].
    intros H. injection H as ->. destruct (IH eq_refl) as (z & Hz & Hfz).
    exists z. split; [now right|exact Hfz].
  - intros H. injection H as ->. exists x. split; [now left|exact Hx].
Qed.

Lemma in_enumerate {A : Type} (x : A) (l : list A) :
  In x l -> exists i, In (i, x) (Py.enumerate l).
Proof.
  intros H. rewrite <- (map_snd_enumerate l) in H.
  apply in_map_iff in H. destruct H as ([i y] & Hy & Hin).
  simpl in Hy. subst y. now exists i.
Qed.

Lemma scan_block_raise (page_num : Z) (page : Page.t) (m : Q)
    (ib : Z * Block.t) (e : Py.exn) :
  scan_block page_num page m ib = Py.Raise e -> e = Py.IndexError.
Proof.
  destruct ib as [i b]. unfold scan_block, first.
  destruct (negb (Block.type b =? 0)); [discriminate|].
  destruct (is_table_block b); [discriminate|].
  destruct (scan_lines b) as [line_texts u].
  destruct line_texts as [|l ls]; [discriminate|].
  destruct (Block.lines b) as [|line0 lines]; cbn [Py.bind].
  - intros H. now injection H as <-.
  - destruct (Line.spans line0); cbn [Py.bind]; [|discriminate].
    intros H. now injection H as <-.
Qed.

Lemma scan_page_raise (ip : Z * Page.t) (e : Py.exn) :
  scan_page ip = Py.Raise e -> e = Py.IndexError.
Proof.
  destruct ip as [i page]. unfold scan_page.
  destruct (Py.mapM _ _) as [scanned|e0] eqn:Hs; cbn [Py.bind];
    [discriminate|].
  intros H. injection H as ->.
  apply mapM_raise_inv in Hs. destruct Hs as (ib & _ & Hib).
  eapply scan_block_raise. exact Hib.
Qed.

Lemma scan_block_spanless (page_num : Z) (page : Page.t) (m : Q) (i : Z)
    (b : Block.t) :
  is_kept b = true -> first_span b = None ->
  scan_block page_num page m (i, b) = Py.Raise Py.IndexError.
Proof.
  unfold is_kept, first_span, scan_block. intros Hk Hf.
  apply andb_prop in Hk. destruct Hk as [Hk Hnb].
  apply andb_prop in Hk. destruct Hk as [Ht Htab].
  rewrite Ht. apply negb_true_iff in Htab. rewrite Htab. cbn [negb].
  rewrite scan_lines_spec.
  rewrite (filter_nil_existsb nonblank) in Hnb.
  destruct (filter nonblank (Block.lines b)) as [|l ls]; [discriminate|].
  cbn [map]. destruct (Block.lines b) as [|line0 lines]; [reflexivity|].
  cbn [first Py.bind]. destruct (Line.spans line0); [reflexivity|].
  discriminate Hf.
Qed.

(** X13.  A document with a kept text block whose first line has no span
    cannot be processed: the extraction raises [IndexError], although a
    later line of the block has text. *)
Theorem spanless_first_line_raises (self : t) (doc : Document)
    (page : Page.t) (b : Block.t) :
  In page doc -> In b (Page.blocks page) ->
  is_kept b = true -> first_span b = None ->
  extract_features_from_pdf self doc = Py.Raise Py.IndexError.
Proof.
  intros Hpage Hb Hk Hf.
  unfold extract_features_from_pdf, all_text_blocks_raw.
  rewrite (mapM_Exists_raise scan_page Py.IndexError);
    [reflexivity|apply scan_page_raise|].
  apply in_enumerate in Hpage. destruct Hpage as [n Hn].
  apply Exists_exists. exists (n, page). split; [exact Hn|].
  exists Py.IndexError. unfold scan_page.
  rewrite (mapM_Exists_raise _ Py.IndexError); [reflexivity| |].
  - intros ib e. apply scan_block_raise.
  - apply in_enumerate in Hb. destruct Hb as [i Hi].
    apply Exists_exists. exists (i, b). split; [exact Hi|].
    exists Py.IndexError. now apply scan_block_spanless.
Qed.

Lemma spanless_first_line_raises_witness :
  extract_features_from_pdf Samples.processor_without_model
    ClassifierSamples.spanless_first_line = Py.Raise Py.IndexError.
Proof.
  eapply (spanless_first_line_raises Samples.processor_without_model
            ClassifierSamples.spanless_first_line).
  - left. reflexivity.
  - left. reflexivity.
  - vm_compute. reflexivity.
  - reflexivity.
Defined.

Lemma scan_block_not_kept (page_num : Z) (page : Page.t) (m : Q) (i : Z)
    (b : Block.t) :
  is_kept b = false -> scan_block page_num page m (i, b) = Py.Ok None.
Proof.
  unfold is_kept, scan_block. intros Hk.
  destruct (Block.type b =? 0); cbn [negb]; [|reflexivity].
  destruct (is_table_block b); [reflexivity|].
  cbn [negb andb] in Hk. rewrite scan_lines_spec.
  rewrite (filter_nil_existsb nonblank) in Hk.
  destruct (filter nonblank (Block.lines b)); [reflexivity|discriminate].
Qed.

Lemma scan_blocks_not_kept (page_num : Z) (page : Page.t) (m : Q)
    (ibs : list (Z * Block.t)) :
  filter is_kept (map snd ibs) = [] ->
  exists scanned,
    Py.mapM (scan_block page_num page m) ibs = Py.Ok scanned
    /\ keep_some scanned = [].
Proof.
  induction ibs as [|[i b] ibs IH]; intros H.
  - exists []. split; reflexivity.
  - cbn [map snd filter] in H.
    destruct (is_kept b) eqn:Hk; [discriminate|].
    destruct (IH H) as (scanned & Hs & Hnone).
    exists (None :: scanned). cbn [Py.mapM].
    rewrite (scan_block_not_kept _ _ _ _ _ Hk), Hs. split; [reflexivity|].
    exact Hnone.
Qed.

Lemma scan_pages_no_text (ips : list (Z * Page.t)) :
  kept_blocks (map snd ips) = [] ->
  exists per_page,
    Py.mapM scan_page ips = Py.Ok per_page /\ List.concat per_page = [].
Proof.
  induction ips as [|[n page] ips IH]; intros H.
  - exists []. split; reflexivity.
  - unfold kept_blocks in H. cbn [map snd flat_map] in H.
    apply app_eq_nil in H. destruct H as [Hp Hrest].
    destruct (IH Hrest) as (per_page & Hm & Hc).
    rewrite <- (map_snd_enumerate (Page.blocks page)) in Hp.
    destruct (scan_blocks_not_kept n page
                (Py.max_or 1 (page_font_sizes (Page.blocks page)))
                _ Hp) as (scanned & Hs & Hnone).
    exists ([] :: per_page). cbn [Py.mapM]. unfold scan_page at 1.
    rewrite Hs. cbn [Py.bind]. rewrite Hnone, Hm. cbn [add_spacing Py.bind].
    split; [reflexivity|exact Hc].
Qed.

(** X14.  A document without a kept text block (images, table-like blocks
    and blank blocks only, or no page at all) is processed without error:
    it has no feature, and its record has the empty title, outline, sections
    and full text, whether a model is loaded or not. *)
Theorem no_text_gives_empty_index (self : t) (now pdf_path : string)
    (doc : Document) :
  kept_blocks doc = [] ->
  extract_features_from_pdf self doc = Py.Ok []
  /\ process_pdf self now pdf_path doc
     = Py.Ok (empty_index self now pdf_path).
Proof.
  intros Hk.
  assert (Hf : extract_features_from_pdf self doc = Py.Ok []).
  { unfold extract_features_from_pdf, all_text_blocks_raw.
    rewrite <- (map_snd_enumerate doc) in Hk.
    destruct (scan_pages_no_text _ Hk) as (per_page & -> & Hc).
    cbn [Py.bind]. rewrite Hc. reflexivity. }
  split; [exact Hf|].
  rewrite (process_pdf_after_extraction _ _ _ _ _ Hf).
  f_equal. unfold index_of, empty_index.
  assert (Hp : predict_headings_with_model self []
               = {| Prediction.title := ""; Prediction.outline := [] |}).
  { unfold predict_headings_with_model.
    destruct (heading_model self) as [m|]; [|reflexivity].
    destruct (model_strategy self m []) as [p|e] eqn:Hm; [|reflexivity].
    cbn [Py.try_except].
    apply model_strategy_inv in Hm.
    destruct Hm as (c & ps & ls & _ & _ & _ & Ho & Ht).
    destruct p as [title outline]. cbn in Ho, Ht. now subst. }
  rewrite Hp. reflexivity.
Qed.

Lemma no_text_gives_empty_index_witness :
  extract_features_from_pdf ClassifierSamples.processor_with_model
    ClassifierSamples.no_text = Py.Ok []
  /\ process_pdf ClassifierSamples.processor_with_model
       "2026-01-01T00:00:00" "pdfs/scan.pdf" ClassifierSamples.no_text
     = Py.Ok (empty_index ClassifierSamples.processor_with_model
                "2026-01-01T00:00:00" "pdfs/scan.pdf").
Proof.
  apply (no_text_gives_empty_index ClassifierSamples.processor_with_model).
  vm_compute. reflexivity.
Defined.

End ProcessExtras.

(** ** Further properties of the similarity search *)

Section SearchExtras.

Import SimilarityAnalyzer Stable SearchReference SearchReference2.

(** *** Counting words *)

Lemma split_from_space (a b cur : string) (c : ascii) :
  Py.is_space c = true ->
  Py.split_from (a ++ String c b) cur
  = Py.split_from a cur ++ Py.split_from b "".
Proof.
  intros Hc. revert cur. induction a as [|d a IH]; intros cur.
  - cbn [String.append Py.split_from]. rewrite Hc.
    destruct (Py.truthy cur); reflexivity.
  - cbn [String.append Py.split_from].
    destruct (Py.is_space d).
    + destruct (Py.truthy cur); cbn [app]; now rewrite IH.
    + apply IH.
Qed.

Lemma filter_truthy_split (s : string) :
  filter Py.truthy (Py.split s) = Py.split s.
Proof.
  pose proof (split_from_tokens s "" eq_refl) as H.
  unfold Py.split. induction H as [|w ws [_ Hw] _ IH]; [reflexivity|].
  cbn [filter]. now rewrite Hw, IH.
Qed.

(** X15.  The word count of two texts joined by a whitespace character is
    the sum of their word counts. *)
Theorem count_words_joined (a b : string) (c : ascii) :
  Py.is_space c = true ->
  count_words (a ++ String c b) = count_words a + count_words b.
Proof.
  intros Hc. rewrite !count_words_token_count. unfold token_count.
  rewrite !filter_truthy_split. unfold Py.split.
  rewrite (split_from_space a b "" c Hc), length_app. lia.
Qed.

Lemma count_words_joined_witness :
  count_words (SearchSamples.words16 ++ String " " SearchSamples.words40)
  = count_words SearchSamples.words16 + count_words SearchSamples.words40
  /\ count_words SearchSamples.words16 = 16
  /\ count_words SearchSamples.words40 = 40.
Proof.
  split; [|split; vm_compute; reflexivity].
  apply (count_words_joined SearchSamples.words16 SearchSamples.words40 " ").
  reflexivity.
Defined.

(** *** The number of results *)

Lemma Permutation_filter {A : Type} (p : A -> bool) (l l' : list A) :
  Permutation l l' -> Permutation (filter p l) (filter p l').
Proof.
  induction 1 as [|x l l' _ IH|x y l|l l' l'' _ IH1 _ IH2]; simpl.
  - constructor.
  - destruct (p x); [now constructor|exact IH].
  - destruct (p x), (p y); try reflexivity. apply perm_swap.
  - now transitivity (filter p l').
Qed.

Lemma qualifying_count (self : t) (selected_text : string)
    (sections : list Candidate.t) (scored : list Scored.t) :
  score_sections self selected_text sections = Py.Ok scored ->
  List.length (filter long_enough (Py.sorted_reverse score_lt scored))
  = List.length (filter qualifies sections).
Proof.
  intros Hs. apply score_sections_candidates in Hs. subst sections.
  rewrite filter_map, length_map.
  apply Permutation_length, Permutation_filter.
  unfold Py.sorted_reverse. apply sorted_perm.
Qed.

(** X16.  A search that returns gives as many results as there are
    candidates of at least 15 words, up to [top_n] of them, and up to one
    when [top_n] is not positive. *)
Theorem search_result_count (self : t) (fs : FileSystem)
    (selected_text : string) (processed_files : list FileInfo.t)
    (top_n : Z) (results : list SimilarityResult.t) :
  find_similar_sections_fast self fs selected_text processed_files top_n
  = Py.Ok results ->
  Z.of_nat (List.length results)
  = Z.min (Z.max 1 top_n)
      (Z.of_nat (List.length
                   (filter qualifies (traversal fs processed_files)))).
Proof.
  intros H. apply find_similar_sections_fast_spec in H.
  destruct H as (scored & Hs & ->).
  rewrite number_from_length. unfold kept.
  rewrite length_firstn, (qualifying_count _ _ _ _ Hs). lia.
Qed.

Lemma search_result_count_witness :
  exists results,
    find_similar_sections_fast SearchSamples.analyzer SearchSamples.disk
      "renewable energy policy" SearchSamples.corpus 3 = Py.Ok results
    /\ List.length (filter qualifies
                      (traversal SearchSamples.disk SearchSamples.corpus))
       = 4%nat
    /\ Z.of_nat (List.length results)
       = Z.min (Z.max 1 3)
           (Z.of_nat (List.length
                        (filter qualifies
                           (traversal SearchSamples.disk
                              SearchSamples.corpus)))).
Proof.
  eexists. split; [vm_compute; reflexivity|].
  split; [vm_compute; reflexivity|].
  apply (search_result_count SearchSamples.analyzer SearchSamples.disk
           "renewable energy policy" SearchSamples.corpus 3).
  vm_compute. reflexivity.
Defined.

(** *** The results are the best candidates *)

Lemma nth_error_tagged_from {A : Type} (l : list A) (start i : nat) (x : A) :
  nth_error l i = Some x ->
  In ((start + i)%nat, x) (combine (seq start (List.length l)) l).
Proof.
  revert start i. induction l as [|y l IH]; intros start [|i] H;
    simpl in H; try discriminate.
  - injection H as ->. left. now rewrite Nat.add_0_r.
  - right. replace (start + S i)%nat with (S start + i)%nat by lia.
    now apply IH.
Qed.

Lemma tagged_in_iff {A : Type} (l : list A) (i : nat) (x : A) :
  In (i, x) (tagged l) <-> nth_error l i = Some x.
Proof.
  split.
  - intros H. apply combine_seq_in in H. destruct H as [_ H].
    now rewrite Nat.sub_0_r in H.
  - intros H. apply (nth_error_tagged_from l 0 i x H).
Qed.

Lemma NoDup_map_filter {V K : Type} (key : V -> K) (keep : V -> bool)
    (xs : list V) (Hxs : NoDup (map key xs)) :
  NoDup (map key (filter keep xs)).
Proof.
  induction xs as [|x xs IH]; simpl; [constructor|].
  inversion Hxs as [|? ? Hx Hl]; subst.
  destruct (keep x); [|now apply IH].
  simpl. constructor; [|now apply IH].
  intros Hin. apply Hx. apply in_map_iff in Hin.
  destruct Hin as (y & Hy & Hyl). apply filter_In in Hyl.
  apply in_map_iff. exists y. tauto.
Qed.

Lemma StronglySorted_app_cross {A : Type} (R : A -> A -> Prop)
    (l1 l2 : list A) (a b : A) :
  StronglySorted R (l1 ++ l2) -> In a l1 -> In b l2 -> R a b.
Proof.
  induction l1 as [|x l1 IH]; intros Hs Ha Hb; [contradiction|].
  cbn [app] in Hs. inversion Hs as [|? ? Hs' Hx]; subst.
  destruct Ha as [->|Ha].
  - rewrite Forall_forall in Hx. apply Hx. apply in_or_app. now right.
  - now apply IH.
Qed.

(** The qualifying sections in ranked order, tagged with their positions,
    split into the kept ones and the others. *)
Lemma ranked_split (top_n : Z) (scored : list Scored.t) :
  exists U V : list (nat * Scored.t),
    map snd U = kept top_n (Py.sorted_reverse score_lt scored)
    /\ StronglySorted ranked_before (U ++ V)
    /\ NoDup (map fst (U ++ V))
    /\ forall p s,
         In (p, s) (U ++ V)
         <-> nth_error scored p = Some s /\ long_enough s = true.
Proof.
  set (T := Py.sorted (tagged_lt by_score_desc) (tagged scored)).
  set (Tf := filter (fun u => long_enough (snd u)) T).
  exists (firstn (Z.to_nat (Z.max 1 top_n)) Tf),
         (skipn (Z.to_nat (Z.max 1 top_n)) Tf).
  rewrite firstn_skipn. split; [|split; [|split]].
  - unfold kept, Py.sorted_reverse, Tf.
    rewrite <- firstn_map, <- filter_map. unfold T.
    now rewrite sorted_tagged_values.
  - apply StronglySorted_filter. apply (sorted_tagged by_score_desc).
    + exact by_score_desc_asym.
    + exact by_score_desc_negtrans.
  - apply NoDup_map_filter.
    apply (Permutation_NoDup (l := map fst (tagged scored))).
    + apply Permutation_map. symmetry. apply sorted_perm.
    + unfold tagged. rewrite map_fst_combine by apply length_seq.
      apply seq_NoDup.
  - intros p s. unfold Tf, T. rewrite filter_In, sorted_in, tagged_in_iff.
    reflexivity.
Qed.

(** X17.  The results of a search that returns are the best candidates of
    at least 15 words: they come from pairwise distinct positions of the
    list of scored candidates, and a candidate of at least 15 words at
    another position has a score that is at most the score of every
    result. *)
Theorem search_returns_best_candidates (self : t) (fs : FileSystem)
    (selected_text : string) (processed_files : list FileInfo.t)
    (top_n : Z) (results : list SimilarityResult.t) :
  find_similar_sections_fast self fs selected_text processed_files top_n
  = Py.Ok results ->
  exists scored positions,
    score_sections self selected_text (traversal fs processed_files)
    = Py.Ok scored
    /\ Forall2
         (fun r p => exists s, nth_error scored p = Some s /\ result_for s r)
         results positions
    /\ NoDup positions
    /\ forall p s r,
         nth_error scored p = Some s ->
         long_enough s = true ->
         ~ In p positions ->
         In r results ->
         (Scored.similarity_score s
          <= SimilarityResult.similarity_score r)%Q.
Proof.
  intros H. apply find_similar_sections_fast_spec in H.
  destruct H as (scored & Hs & ->).
  destruct (ranked_split top_n scored) as (U & V & <- & Hsorted & Hnd & Hin).
  exists scored, (map fst U). split; [exact Hs|]. split; [|split].
  - assert (HU : forall u, In u U -> nth_error scored (fst u) = Some (snd u)).
    { intros [p s] Hu. apply (Hin p s). apply in_or_app. now left. }
    clear - HU. generalize 1 as rank.
    induction U as [|u U IH]; intros rank; simpl; constructor.
    + exists (snd u). split; [apply HU; now left|].
      split; [reflexivity|repeat split].
    + apply IH. intros v Hv. apply HU. now right.
  - rewrite map_app in Hnd. now apply NoDup_app_remove_r in Hnd.
  - intros p s r Hp Hlong Hnot Hr.
    apply number_from_in in Hr. destruct Hr as (s' & k & Hs' & ->).
    apply in_map_iff in Hs'. destruct Hs' as ([q t] & <- & Hu).
    cbn [make_result SimilarityResult.similarity_score snd].
    assert (Hv : In (p, s) V).
    { assert (Hpv : In (p, s) (U ++ V)) by (apply Hin; auto).
      apply in_app_or in Hpv. destruct Hpv as [Hpu|Hpv]; [|exact Hpv].
      exfalso. apply Hnot. apply in_map_iff. now exists (p, s). }
    destruct (StronglySorted_app_cross _ _ _ _ _ Hsorted Hu Hv) as [Hord _].
    cbn [snd] in Hord. unfold score_lt in Hord. now apply Qltb_ge in Hord.
Qed.

Lemma search_returns_best_candidates_witness :
  exists results scored positions,
    find_similar_sections_fast SearchSamples.analyzer SearchSamples.disk
      "renewable energy policy" SearchSamples.corpus 2 = Py.Ok results
    /\ map SimilarityResult.section_title results
       = ["Section A"; "Section D"]
    /\ score_sections SearchSamples.analyzer "renewable energy policy"
         (traversal SearchSamples.disk SearchSamples.corpus)
       = Py.Ok scored
    /\ Forall2
         (fun r p => exists s, nth_error scored p = Some s /\ result_for s r)
         results positions
    /\ NoDup positions
    /\ forall p s r,
         nth_error scored p = Some s ->
         long_enough s = true ->
         ~ In p positions ->
         In r results ->
         (Scored.similarity_score s
          <= SimilarityResult.similarity_score r)%Q.
Proof.
  destruct (search_returns_best_candidates SearchSamples.analyzer
              SearchSamples.disk "renewable energy policy"
              SearchSamples.corpus 2 _ eq_refl)
    as (scored & positions & Hs & H).
  eexists. exists scored, positions.
  split; [reflexivity|]. split; [reflexivity|]. split; [exact Hs|exact H].
Defined.

(** *** Files of the corpus *)

Lemma load_loop_unreadable (fs : FileSystem)
    (processed_files : list FileInfo.t) (acc : list Candidate.t) :
  Exists (unreadable fs) processed_files ->
  exists e, load_loop fs processed_files acc = Py.Raise e.
Proof.
  intros H. revert acc.
  induction H as [fi rest Hfi|fi rest _ IH]; intros acc; cbn [load_loop].
  - unfold unreadable in Hfi. rewrite Hfi. eauto.
  - destruct (fs (FileInfo.json_path fi)) as [| |[secs|]]; eauto.
Qed.

(** X18.  One persisted record that exists and cannot be read makes the
    whole search raise an [Exception], whatever the other records hold. *)
Theorem unreadable_record_fails_search (self : t) (fs : FileSystem)
    (selected_text : string) (processed_files : list FileInfo.t)
    (top_n : Z) :
  Exists (unreadable fs) processed_files ->
  exists msg,
    find_similar_sections_fast self fs selected_text processed_files top_n
    = Py.Raise (Py.Exception msg).
Proof.
  intros H.
  destruct (load_loop_unreadable fs processed_files [] H) as [e He].
  unfold find_similar_sections_fast, load_sections_with_embeddings.
  rewrite He. cbn [Py.bind]. eauto.
Qed.

Lemma unreadable_record_fails_search_witness :
  exists msg,
    find_similar_sections_fast SearchSamples.analyzer
      SearchSamples2.damaged_disk "renewable energy policy"
      SearchSamples.corpus 5
    = Py.Raise (Py.Exception msg).
Proof.
  apply (unreadable_record_fails_search SearchSamples.analyzer
           SearchSamples2.damaged_disk "renewable energy policy"
           SearchSamples.corpus 5).
  apply Exists_cons_tl. apply Exists_cons_tl. apply Exists_cons_hd.
  reflexivity.
Defined.

Lemma load_loop_contributes (fs : FileSystem)
    (processed_files : list FileInfo.t) (acc : list Candidate.t) :
  load_loop fs processed_files acc
  = load_loop fs (filter (contributes fs) processed_files) acc.
Proof.
  revert acc. induction processed_files as [|fi rest IH]; intros acc;
    [reflexivity|].
  cbn [load_loop filter]. unfold contributes at 1.
  destruct (fs (FileInfo.json_path fi)) as [| |[[|sec secs]|]] eqn:Hfi;
    cbn [load_loop]; rewrite ?Hfi; try apply IH; try reflexivity.
  cbn [map]. rewrite app_nil_r. apply IH.
Qed.

(** X19.  The entries of the corpus whose record is missing, has no
    ["sections"] key or has an empty list of sections do not change the
    search: it gives what it gives on the other entries alone. *)
Theorem search_skips_empty_records (self : t) (fs : FileSystem)
    (selected_text : string) (processed_files : list FileInfo.t)
    (top_n : Z) :
  find_similar_sections_fast self fs selected_text processed_files top_n
  = find_similar_sections_fast self fs selected_text
      (filter (contributes fs) processed_files) top_n.
Proof.
  unfold find_similar_sections_fast, load_sections_with_embeddings.
  now rewrite load_loop_contributes.
Qed.

End SearchExtras.

(** ** [search_across_all_documents] *)

Section CrossSearchExtras.

Import SimilarityAnalyzer CrossSearch.

Lemma hits_loop_results_loop (top_n : Z) (ranked_sections : list Scored.t)
    (results : list SimilarityResult.t) (rank_counter : Z) :
  hits_loop top_n ranked_sections (map hit_of_result results) rank_counter
  = map hit_of_result
      (results_loop top_n ranked_sections results rank_counter).
Proof.
  revert results rank_counter.
  induction ranked_sections as [|s rest IH]; intros results rank_counter;
    [reflexivity|].
  cbn [hits_loop results_loop].
  destruct (count_words (Scored.content s) <? 15); [apply IH|].
  replace (map hit_of_result results
           ++ [make_hit s rank_counter (count_words (Scored.content s))])
    with (map hit_of_result
            (results
             ++ [make_result s rank_counter
                   (count_words (Scored.content s))]))
    by (rewrite map_app; reflexivity).
  rewrite length_map.
  destruct (Z.of_nat _ >=? top_n); [reflexivity|apply IH].
Qed.

(** The two searches on the same corpus. *)
Lemma cross_search_of_fast_search (self : t) (fs : FileSystem)
    (query_text : string) (processed_files : list FileInfo.t) (top_n : Z) :
  (forall results,
      find_similar_sections_fast self fs query_text processed_files top_n
      = Py.Ok results ->
      search_across_all_documents self fs query_text processed_files top_n
      = Py.Ok (map hit_of_result results))
  /\ (forall e,
        find_similar_sections_fast self fs query_text processed_files top_n
        = Py.Raise e ->
        exists msg,
          search_across_all_documents self fs query_text processed_files
            top_n
          = Py.Raise (Py.Exception msg)).
Proof.
  unfold find_similar_sections_fast, search_across_all_documents.
  destruct (load_sections_with_embeddings fs processed_files)
    as [[|c cs]|e0]; cbn [Py.bind].
  - split; [intros results H; now injection H as <-|discriminate].
  - destruct (score_sections self query_text (c :: cs)) as [scored|e1];
      cbn [Py.bind].
    + split; [|discriminate]. intros results H. injection H as <-.
      now rewrite <- hits_loop_results_loop.
    + split; [discriminate|eauto].
  - split; [discriminate|eauto].
Qed.

(** X20.  [search_across_all_documents] ranks as
    [find_similar_sections_fast] does: it returns the same sections with
    the same ranks, scores and word counts, each with a preview in place of
    the content, and it raises an [Exception] when the other raises. *)
Theorem cross_search_agrees_with_fast_search (self : t) (fs : FileSystem)
    (query_text : string) (processed_files : list FileInfo.t) (top_n : Z) :
  (forall results,
      find_similar_sections_fast self fs query_text processed_files top_n
      = Py.Ok results ->
      search_across_all_documents self fs query_text processed_files top_n
      = Py.Ok (map hit_of_result results))
  /\ (forall e,
        find_similar_sections_fast self fs query_text processed_files top_n
        = Py.Raise e ->
        exists msg,
          search_across_all_documents self fs query_text processed_files
            top_n
          = Py.Raise (Py.Exception msg)).
Proof.
  unfold find_similar_sections_fast, search_across_all_documents.
  destruct (load_sections_with_embeddings fs processed_files)
    as [[|c cs]|e0]; cbn [Py.bind].
  - split; [intros results H; now injection H as <-|discriminate].
  - destruct (score_sections self query_text (c :: cs)) as [scored|e1];
      cbn [Py.bind].
    + split; [|discriminate]. intros results H. injection H as <-.
      now rewrite <- hits_loop_results_loop.
    + split; [discriminate|eauto].
  - split; [discriminate|eauto].
Qed.

Lemma take_length (n : nat) (s : string) : (String.length (take n s) <= n)%nat.
Proof.
  revert s. induction n as [|n IH]; intros [|c s]; simpl; try lia.
  specialize (IH s). lia.
Qed.

Lemma string_app_length (a b : string) :
  String.length (a ++ b) = (String.length a + String.length b)%nat.
Proof. induction a as [|c a IH]; simpl; [reflexivity|now rewrite IH]. Qed.

Lemma content_preview_length (content : string) :
  (String.length (content_preview content) <= 203)%nat.
Proof.
  unfold content_preview.
  destruct (Nat.ltb_spec 200 (String.length content)) as [H|H]; [|lia].
  rewrite string_app_length. pose proof (take_length 200 content) as Ht.
  change (String.length "...") with 3%nat. lia.
Qed.

(** X21.  Every hit of [search_across_all_documents] has a preview of at
    most 203 characters, which is the content itself when it has at most
    200 characters, and a word count of at least 15 that is the one of the
    whole content. *)
Theorem cross_search_hits_are_previews (self : t) (fs : FileSystem)
    (query_text : string) (processed_files : list FileInfo.t) (top_n : Z)
    (hits : list SearchHit.t) :
  search_across_all_documents self fs query_text processed_files top_n
  = Py.Ok hits ->
  forall h, In h hits ->
    (String.length (SearchHit.content_preview h) <= 203)%nat
    /\ 15 <= SearchHit.word_count h
    /\ exists c,
         In c (SearchReference.traversal fs processed_files)
         /\ SearchHit.word_count h = count_words (Candidate.content c)
         /\ SearchHit.content_preview h
            = content_preview (Candidate.content c)
         /\ ((String.length (Candidate.content c) <= 200)%nat ->
             SearchHit.content_preview h = Candidate.content c).
Proof.
  intros H h Hh.
  destruct (find_similar_sections_fast self fs query_text processed_files
              top_n) as [results|e] eqn:Hf.
  2:{ destruct (cross_search_of_fast_search self fs query_text
                  processed_files top_n) as [_ Hr].
      destruct (Hr e Hf) as [msg Hmsg]. congruence. }
  destruct (cross_search_of_fast_search self fs query_text
              processed_files top_n) as [Hok _].
  rewrite (Hok results Hf) in H. injection H as <-.
  apply in_map_iff in Hh. destruct Hh as (r & <- & Hr).
  apply find_similar_sections_fast_spec in Hf.
  destruct Hf as (scored & Hs & ->).
  apply number_from_in in Hr. destruct Hr as (s & k & Hin & ->).
  unfold SearchReference.kept in Hin. apply firstn_incl in Hin.
  apply filter_In in Hin. destruct Hin as [Hin Hlong].
  unfold Py.sorted_reverse in Hin. apply sorted_in in Hin.
  unfold SearchReference.long_enough in Hlong. apply Z.leb_le in Hlong.
  cbn [hit_of_result make_result SearchHit.content_preview
       SearchHit.word_count SimilarityResult.content
       SimilarityResult.word_count].
  split; [apply content_preview_length|]. split; [exact Hlong|].
  exists (Scored.candidate s). split.
  - apply score_sections_candidates in Hs. rewrite <- Hs.
    now apply in_map.
  - split; [reflexivity|]. split; [reflexivity|].
    intros Hlen. unfold content_preview, Candidate.content in *.
    destruct (Nat.ltb_spec 200
                (String.length (Section.content
                                  (Candidate.section (Scored.candidate s)))));
      [lia|reflexivity].
Qed.

Lemma cross_search_hits_are_previews_witness :
  exists hits,
    search_across_all_documents SearchSamples.analyzer
      CrossSearchSamples.disk "renewable energy policy"
      CrossSearchSamples.corpus 2 = Py.Ok hits
    /\ map (fun h => (SearchHit.rank h, SearchHit.section_title h,
                      String.length (SearchHit.content_preview h),
                      SearchHit.word_count h)) hits
       = [ (1, "Long", 203%nat, 49); (2, "Section A", 195%nat, 40) ]
    /\ forall h, In h hits ->
         (String.length (SearchHit.content_preview h) <= 203)%nat
         /\ 15 <= SearchHit.word_count h.
Proof.
  eexists. split; [vm_compute; reflexivity|].
  split; [vm_compute; reflexivity|].
  intros h Hh.
  destruct (cross_search_hits_are_previews SearchSamples.analyzer
              CrossSearchSamples.disk "renewable energy policy"
              CrossSearchSamples.corpus 2 _ eq_refl h Hh)
    as (H1 & H2 & _).
  split; assumption.
Defined.

End CrossSearchExtras.

(** ** The lookups *)

Section LookupExtras.

Import SimilarityAnalyzer SearchReference Lookup.

(** [get_section_content] and [get_document_summary] consult the first
    entry of the corpus whose document has the name asked for, and no
    other. *)
Lemma get_section_content_first_entry (store : Store)
    (document_name section_title : string)
    (processed_files : list FileInfo.t) :
  get_section_content store document_name section_title processed_files
  = match first_entry document_name processed_files with
    | None => Py.Ok None
    | Some file_info =>
        data <- load store (FileInfo.json_path file_info) ;;
        Py.Ok (content_in_record data section_title)
    end.
Proof.
  unfold first_entry.
  induction processed_files as [|fi rest IH]; [reflexivity|].
  cbn [get_section_content find].
  destruct (String.eqb (FileInfo.original_file fi) document_name);
    [reflexivity|exact IH].
Qed.

Lemma get_document_summary_first_entry (store : Store)
    (document_name : string) (processed_files : list FileInfo.t) :
  get_document_summary store document_name processed_files
  = match first_entry document_name processed_files with
    | None => Py.Ok None
    | Some file_info =>
        data <- load store (FileInfo.json_path file_info) ;;
        Py.Ok (Some (summary_of_record data))
    end.
Proof.
  unfold first_entry.
  induction processed_files as [|fi rest IH]; [reflexivity|].
  cbn [get_document_summary find].
  destruct (String.eqb (FileInfo.original_file fi) document_name);
    [reflexivity|exact IH].
Qed.

(** X22.  Unlike the search, the two lookups do not skip an entry whose
    file is missing: when the first entry of the corpus for the document has
    no file, both raise, where the search goes on to the next entry. *)
Theorem lookups_raise_on_missing_file (store : Store)
    (document_name section_title : string)
    (processed_files : list FileInfo.t) (file_info : FileInfo.t) :
  first_entry document_name processed_files = Some file_info ->
  store (FileInfo.json_path file_info) = StoredFile.Missing ->
  (exists e,
      get_section_content store document_name section_title processed_files
      = Py.Raise e)
  /\ (exists e,
        get_document_summary store document_name processed_files
        = Py.Raise e).
Proof.
  intros Hfirst Hmissing.
  rewrite get_section_content_first_entry, get_document_summary_first_entry.
  rewrite Hfirst. unfold load. rewrite Hmissing. cbn [Py.bind].
  split; eauto.
Qed.

Lemma lookups_raise_on_missing_file_witness :
  (exists results,
      find_similar_sections_fast SearchSamples.analyzer
        (files_of LookupSamples.store) "renewable energy policy"
        LookupSamples.corpus 1 = Py.Ok results
      /\ map SimilarityResult.document results = ["a.pdf"])
  /\ (exists e,
        get_section_content LookupSamples.store "gone.pdf" "Section A"
          LookupSamples.corpus = Py.Raise e)
  /\ (exists e,
        get_document_summary LookupSamples.store "gone.pdf"
          LookupSamples.corpus = Py.Raise e).
Proof.
  split; [eexists; split; vm_compute; reflexivity|].
  apply (lookups_raise_on_missing_file LookupSamples.store "gone.pdf"
           "Section A" LookupSamples.corpus (SearchSamples.file "gone")).
  - reflexivity.
  - reflexivity.
Defined.

Lemma first_entry_unique (file_info : FileInfo.t)
    (processed_files : list FileInfo.t) :
  NoDup (map FileInfo.original_file processed_files) ->
  In file_info processed_files ->
  first_entry (FileInfo.original_file file_info) processed_files
  = Some file_info.
Proof.
  unfold first_entry.
  induction processed_files as [|fi rest IH]; intros Hnd Hin;
    [contradiction|].
  cbn [map] in Hnd. inversion Hnd as [|? ? Hfi Hrest]; subst.
  cbn [find].
  destruct (String.eqb_spec (FileInfo.original_file fi)
              (FileInfo.original_file file_info)) as [E|E].
  - destruct Hin as [->|Hin]; [reflexivity|].
    exfalso. apply Hfi. rewrite E. now apply in_map.
  - destruct Hin as [->|Hin]; [congruence|]. now apply IH.
Qed.

Lemma find_unique_title (s : Section.t) (sections : list Section.t) :
  NoDup (map Section.section_title sections) ->
  In s sections ->
  find (fun section =>
          String.eqb (Section.section_title section)
            (Section.section_title s))
    sections
  = Some s.
Proof.
  induction sections as [|x rest IH]; intros Hnd Hin; [contradiction|].
  cbn [map] in Hnd. inversion Hnd as [|? ? Hx Hrest]; subst.
  cbn [find].
  destruct (String.eqb_spec (Section.section_title x)
              (Section.section_title s)) as [E|E].
  - destruct Hin as [->|Hin]; [reflexivity|].
    exfalso. apply Hx. rewrite E. now apply in_map.
  - destruct Hin as [->|Hin]; [congruence|]. now apply IH.
Qed.

Lemma traversal_in (fs : FileSystem) (processed_files : list FileInfo.t)
    (c : Candidate.t) :
  In c (traversal fs processed_files) ->
  exists file_info sections,
    In file_info processed_files
    /\ fs (FileInfo.json_path file_info) = JsonFile.Data (Some sections)
    /\ In (Candidate.section c) sections
    /\ Candidate.document c = FileInfo.original_file file_info.
Proof.
  unfold traversal. intros H. apply in_flat_map in H.
  destruct H as (fi & Hfi & Hc). unfold sections_of_file in Hc.
  destruct (fs (FileInfo.json_path fi)) as [| |[secs|]] eqn:Hfs;
    try contradiction.
  apply in_map_iff in Hc. destruct Hc as (s & <- & Hs).
  exists fi, secs. auto.
Qed.

Lemma results_come_from_candidates (self : t) (fs : FileSystem)
    (selected_text : string) (processed_files : list FileInfo.t)
    (top_n : Z) (results : list SimilarityResult.t) (r : SimilarityResult.t) :
  find_similar_sections_fast self fs selected_text processed_files top_n
  = Py.Ok results ->
  In r results ->
  exists c, In c (traversal fs processed_files) /\ result_of c r.
Proof.
  intros H Hr. apply find_similar_sections_fast_spec in H.
  destruct H as (scored & Hs & ->).
  apply number_from_in in Hr. destruct Hr as (s & k & Hin & ->).
  unfold kept in Hin. apply firstn_incl in Hin.
  apply filter_In in Hin. destruct Hin as [Hin _].
  unfold Py.sorted_reverse in Hin. apply sorted_in in Hin.
  exists (Scored.candidate s). split.
  - apply score_sections_candidates in Hs. rewrite <- Hs. now apply in_map.
  - repeat split.
Qed.

(** X23.  In a corpus whose documents have pairwise distinct names and whose
    records have pairwise distinct section titles, looking up a result of
    the search by its document and its section title gives back the content
    of this result. *)
Theorem lookup_of_search_result (self : t) (store : Store)
    (selected_text : string) (processed_files : list FileInfo.t)
    (top_n : Z) (results : list SimilarityResult.t)
    (r : SimilarityResult.t) :
  NoDup (map FileInfo.original_file processed_files) ->
  distinct_titles store processed_files ->
  find_similar_sections_fast self (files_of store) selected_text
    processed_files top_n = Py.Ok results ->
  In r results ->
  get_section_content store (SimilarityResult.document r)
    (SimilarityResult.section_title r) processed_files
  = Py.Ok (Some (SimilarityResult.content r)).
Proof.
  intros Hnames Htitles Hfind Hr.
  destruct (results_come_from_candidates _ _ _ _ _ _ _ Hfind Hr)
    as (c & Hc & Hdoc & Htitle & _ & _ & Hcontent).
  apply traversal_in in Hc.
  destruct Hc as (fi & secs & Hfi & Hfs & Hsec & Hname).
  unfold files_of in Hfs.
  destruct (store (FileInfo.json_path fi)) as [| |record] eqn:Hstore;
    try discriminate.
  injection Hfs as Hsecs.
  rewrite get_section_content_first_entry, Hdoc, Hname.
  rewrite (first_entry_unique fi processed_files Hnames Hfi).
  unfold load. rewrite Hstore. cbn [Py.bind].
  unfold content_in_record. rewrite Hsecs, Htitle.
  rewrite (find_unique_title _ secs
             (Htitles fi record secs Hfi Hstore Hsecs) Hsec).
  now rewrite Hcontent.
Qed.

Lemma lookup_of_search_result_witness :
  exists results,
    find_similar_sections_fast SearchSamples.analyzer
      (files_of LookupSamples.store) "renewable energy policy"
      LookupSamples.corpus 5 = Py.Ok results
    /\ map SimilarityResult.section_title results
       = ["Section A"; "Section D"; "Section C"; "Section E"]
    /\ forall r, In r results ->
         get_section_content LookupSamples.store
           (SimilarityResult.document r) (SimilarityResult.section_title r)
           LookupSamples.corpus
         = Py.Ok (Some (SimilarityResult.content r)).
Proof.
  eexists. split; [vm_compute; reflexivity|].
  split; [vm_compute; reflexivity|].
  intros r Hr.
  eapply (lookup_of_search_result SearchSamples.analyzer LookupSamples.store
            "renewable energy policy" LookupSamples.corpus 5).
  - vm_compute. repeat constructor; simpl; intuition discriminate.
  - intros fi record secs Hfi Hstore Hsecs.
    destruct Hfi as [<-|[<-|[<-|[]]]]; vm_compute in Hstore;
      try discriminate; injection Hstore as <-;
      vm_compute in Hsecs; injection Hsecs as <-;
      vm_compute; repeat constructor; simpl; intuition discriminate.
  - vm_compute. reflexivity.
  - exact Hr.
Defined.

(** X24.  The summary of a document whose record is the result of
    [process_pdf] shows the title and the outline of this result, and a
    number of sections that is the [total_sections] of its metadata. *)
Theorem summary_of_processed_document (self : PDFProcessor.t)
    (now pdf_path : string) (doc : Document) (idx : DocumentIndex.t)
    (store : Store) (document_name : string)
    (processed_files : list FileInfo.t) (file_info : FileInfo.t) :
  PDFProcessor.process_pdf self now pdf_path doc = Py.Ok idx ->
  first_entry document_name processed_files = Some file_info ->
  store (FileInfo.json_path file_info) = StoredFile.Data (stored idx) ->
  get_document_summary store document_name processed_files
  = Py.Ok (Some {| Summary.title := DocumentIndex.title idx;
                   Summary.total_sections :=
                     Metadata.total_sections (DocumentIndex.metadata idx);
                   Summary.outline := DocumentIndex.outline idx;
                   Summary.metadata := Some (DocumentIndex.metadata idx) |}).
Proof.
  intros Hp Hfirst Hstore.
  rewrite get_document_summary_first_entry, Hfirst.
  unfold load. rewrite Hstore. cbn [Py.bind].
  unfold summary_of_record, stored. cbn.
  do 3 f_equal.
  unfold PDFProcessor.process_pdf in Hp.
  destruct (PDFProcessor.extract_features_from_pdf self doc)
    as [features|e]; cbn [Py.bind] in Hp; [|discriminate].
  destruct (PDFProcessor.extract_sections_with_content self doc _)
    as [sections|e]; cbn [Py.bind] in Hp; [|discriminate].
  injection Hp as <-. reflexivity.
Qed.

Lemma summary_of_processed_document_witness :
  exists idx,
    PDFProcessor.process_pdf Samples.processor_without_model
      "2026-01-01T00:00:00" "pdfs/two.pdf" Samples.two_pages = Py.Ok idx
    /\ get_document_summary
         (fun path =>
            if String.eqb path "json/two.json"
            then StoredFile.Data (stored idx) else StoredFile.Missing)
         "two.pdf" [SearchSamples.file "two"]
       = Py.Ok (Some {| Summary.title := DocumentIndex.title idx;
                        Summary.total_sections :=
                          Metadata.total_sections
                            (DocumentIndex.metadata idx);
                        Summary.outline := DocumentIndex.outline idx;
                        Summary.metadata :=
                          Some (DocumentIndex.metadata idx) |})
    /\ Metadata.total_sections (DocumentIndex.metadata idx) = 2.
Proof.
  eexists. split; [vm_compute; reflexivity|]. split; [|reflexivity].
  eapply (summary_of_processed_document Samples.processor_without_model
            "2026-01-01T00:00:00" "pdfs/two.pdf" Samples.two_pages).
  - vm_compute. reflexivity.
  - reflexivity.
  - reflexivity.
Defined.

End LookupExtras.

(** ** The folders of the application *)

Section FolderExtras.

Import App.

Lemma lower_char_dot (d : ascii) :
  Ascii.eqb (Py.lower_char d) "." = Ascii.eqb d ".".
Proof. destruct d as [[] [] [] [] [] [] [] []]; reflexivity. Qed.

Lemma char_in_dot_lower (s : string) :
  Py.char_in "." (Py.lower s) = Py.char_in "." s.
Proof.
  induction s as [|d s IH]; [reflexivity|].
  cbn [Py.lower Py.char_in]. rewrite IH.
  rewrite (Ascii.eqb_sym "." (Py.lower_char d)), lower_char_dot.
  now rewrite (Ascii.eqb_sym d ".").
Qed.

Lemma after_last_none (s : string) :
  Py.char_in "." s = false -> after_last "." s = None.
Proof.
  induction s as [|d s IH]; [reflexivity|].
  cbn [Py.char_in after_last]. intros H.
  apply orb_false_iff in H. destruct H as [Hd Hs].
  rewrite (IH Hs), (Ascii.eqb_sym d "."), Hd. reflexivity.
Qed.

Lemma after_last_some (s : string) :
  Py.char_in "." s = true -> exists r, after_last "." s = Some r.
Proof.
  induction s as [|d s IH]; [discriminate|].
  cbn [Py.char_in after_last]. intros H.
  destruct (Py.char_in "." s) eqn:Hs.
  - destruct (IH eq_refl) as [r ->]. eauto.
  - rewrite orb_false_r in H. rewrite (after_last_none s Hs).
    rewrite (Ascii.eqb_sym d "."), H. eauto.
Qed.

Lemma endswith_cons (d : ascii) (s suffix : string) :
  endswith (String d s) suffix
  = String.eqb (String d s) suffix || endswith s suffix.
Proof.
  cbn [endswith]. destruct (String.eqb (String d s) suffix); reflexivity.
Qed.

Lemma endswith_needs_dot (s ext : string) :
  Py.char_in "." s = false -> endswith s (String "." ext) = false.
Proof.
  induction s as [|d s IH]; [reflexivity|].
  cbn [Py.char_in]. intros H.
  apply orb_false_iff in H. destruct H as [Hd Hs].
  rewrite endswith_cons, (IH Hs). cbn [String.eqb].
  rewrite (Ascii.eqb_sym d "."), Hd. reflexivity.
Qed.

(** The test of the upload and the test of the listing agree. *)
Lemma allowed_file_endswith (filename : string) :
  allowed_file filename = endswith (Py.lower filename) ".pdf".
Proof.
  unfold allowed_file, ALLOWED_EXTENSIONS. cbn [existsb].
  destruct (Py.char_in "." filename) eqn:Hdot.
  2:{ cbn [andb]. symmetry. apply endswith_needs_dot.
      now rewrite char_in_dot_lower. }
  cbn [andb]. clear Hdot.
  induction filename as [|d s IH]; [reflexivity|].
  cbn [after_last Py.lower]. rewrite endswith_cons. cbn [String.eqb].
  rewrite lower_char_dot.
  destruct (Py.char_in "." s) eqn:Hs.
  - destruct (after_last_some s Hs) as [r Hr]. rewrite Hr in *.
    rewrite <- IH.
    destruct (Ascii.eqb d "."); [|reflexivity].
    destruct (String.eqb_spec (Py.lower s) "pdf") as [E|E]; [|reflexivity].
    rewrite <- char_in_dot_lower, E in Hs. discriminate Hs.
  - rewrite (after_last_none s Hs).
    rewrite (endswith_needs_dot (Py.lower s) "pdf")
      by now rewrite char_in_dot_lower.
    destruct (Ascii.eqb d "."); [|reflexivity].
    now rewrite !orb_false_r.
Qed.

(** X25.  The PDF files that the listing shows are exactly the files of the
    folder that the test of the upload accepts: those with a name whose
    part after the last dot is "pdf" in any case. *)
Theorem uploaded_pdfs_are_allowed_files (names : list string)
    (filename : string) :
  In filename (get_uploaded_pdfs (Some names))
  <-> In filename names /\ allowed_file filename = true.
Proof.
  unfold get_uploaded_pdfs. rewrite sorted_in, filter_In.
  now rewrite allowed_file_endswith.
Qed.

Lemma endswith_pdf_not_json (s : string) :
  endswith s ".pdf" = true -> endswith s ".json" = false.
Proof.
  induction s as [|d s IH]; [discriminate|].
  rewrite !endswith_cons. intros H.
  apply orb_prop in H. destruct H as [H|H].
  - apply String.eqb_eq in H. injection H as -> ->. reflexivity.
  - rewrite (IH H), orb_false_r.
    destruct (String.eqb_spec (String d s) ".json") as [E|E];
      [|reflexivity].
    injection E as _ ->. discriminate H.
Qed.

Lemma replace_from_absent (old new s : string) :
  Py.contains old s = false -> replace_from old new s 0 = s.
Proof.
  induction s as [|c s IH]; [reflexivity|].
  cbn [Py.contains replace_from].
  destruct (String.prefix old (String c s)); [discriminate|].
  intros H. now rewrite (IH H).
Qed.

Lemma files_info_fold (pdf_files json_files : list string)
    (acc : list FileInfo.t) (file_info : FileInfo.t) :
  In file_info (fold_left (files_info_step pdf_files) json_files acc)
  <-> In file_info acc
      \/ exists json_file,
           In json_file json_files
           /\ In (replace ".json" ".pdf" json_file) pdf_files
           /\ file_info
              = {| FileInfo.original_file := replace ".json" ".pdf" json_file;
                   FileInfo.json_file := json_file;
                   FileInfo.json_path := path_join JSON_FOLDER json_file |}.
Proof.
  revert acc. induction json_files as [|jf rest IH]; intros acc.
  - cbn [fold_left]. split; [auto|].
    intros [H|(j & [] & _)]. exact H.
  - cbn [fold_left]. rewrite IH. unfold files_info_step.
    destruct (existsb (String.eqb (replace ".json" ".pdf" jf)) pdf_files)
      eqn:Hin.
    + apply existsb_exists in Hin. destruct Hin as (x & Hx & Ex).
      apply String.eqb_eq in Ex. subst x.
      rewrite in_app_iff. cbn [In]. split.
      * intros [[H|[H|[]]]|(j & Hj & Hrest)]; [now left| |].
        -- right. exists jf. auto.
        -- right. exists j. split; [now right|exact Hrest].
      * intros [H|(j & [->|Hj] & Hp & Hfi)]; [now left; left| |].
        -- left. right. left. now symmetry.
        -- right. exists j. auto.
    + split.
      * intros [H|(j & Hj & Hrest)]; [now left|].
        right. exists j. split; [now right|exact Hrest].
      * intros [H|(j & [->|Hj] & Hp & Hfi)]; [now left| |].
        -- exfalso.
           assert (Ht : existsb (String.eqb (replace ".json" ".pdf" j))
                          pdf_files = true).
           { apply existsb_exists. eexists. split; [exact Hp|].
             apply String.eqb_refl. }
           congruence.
        -- right. exists j. auto.
Qed.

(** X26.  The corpus handed to the search is made of the processed records
    whose PDF is still uploaded: an entry is in it exactly when its record
    is listed in the JSON folder and the name of the record, with ".json"
    replaced by ".pdf", is a listed PDF file, which is then the document of
    the entry. *)
Theorem corpus_is_records_with_uploaded_pdf (pdfs jsons : Folder)
    (file_info : FileInfo.t) :
  In file_info (get_processed_files_info pdfs jsons)
  <-> exists json_file,
        In json_file (get_processed_jsons jsons)
        /\ In (replace ".json" ".pdf" json_file) (get_uploaded_pdfs pdfs)
        /\ file_info
           = {| FileInfo.original_file := replace ".json" ".pdf" json_file;
                FileInfo.json_file := json_file;
                FileInfo.json_path := path_join JSON_FOLDER json_file |}.
Proof.
  unfold get_processed_files_info. rewrite files_info_fold.
  split; [intros [[]|H]; exact H|auto].
Qed.

(** X27.  A PDF file whose name has the extension in upper case only (no
    ".pdf" in it) is listed among the uploaded files, but its record is
    written under the name of the PDF itself, which is never listed among
    the processed records: the document never enters the corpus. *)
Theorem upper_case_extension_never_in_corpus (filename : string) :
  endswith (Py.lower filename) ".pdf" = true ->
  Py.contains ".pdf" filename = false ->
  (forall names, In filename names ->
                 In filename (get_uploaded_pdfs (Some names)))
  /\ replace ".pdf" ".json" filename = filename
  /\ (forall jsons, ~ In filename (get_processed_jsons jsons))
  /\ (forall pdfs jsons file_info,
        In file_info (get_processed_files_info pdfs jsons) ->
        FileInfo.json_file file_info <> filename).
Proof.
  intros Hend Habs.
  assert (Hjson : forall jsons, ~ In filename (get_processed_jsons jsons)).
  { intros [names|]; [|intros []]. unfold get_processed_jsons.
    rewrite sorted_in, filter_In. intros [_ H].
    rewrite (endswith_pdf_not_json _ Hend) in H. discriminate H. }
  split; [|split; [|split]].
  - intros names Hin. unfold get_uploaded_pdfs.
    rewrite sorted_in, filter_In. auto.
  - apply replace_from_absent. exact Habs.
  - exact Hjson.
  - intros pdfs jsons fi Hfi Heq.
    unfold get_processed_files_info in Hfi. apply files_info_fold in Hfi.
    destruct Hfi as [[]|(jf & Hjf & _ & ->)]. cbn in Heq. subst jf.
    exact (Hjson jsons Hjf).
Qed.

Lemma upper_case_extension_never_in_corpus_witness :
  (forall names, In "REPORT.PDF" names ->
                 In "REPORT.PDF" (get_uploaded_pdfs (Some names)))
  /\ replace ".pdf" ".json" "REPORT.PDF" = "REPORT.PDF"
  /\ (forall jsons, ~ In "REPORT.PDF" (get_processed_jsons jsons))
  /\ (forall pdfs jsons file_info,
        In file_info (get_processed_files_info pdfs jsons) ->
        FileInfo.json_file file_info <> "REPORT.PDF").
Proof.
  apply (upper_case_extension_never_in_corpus "REPORT.PDF"); reflexivity.
Defined.

End FolderExtras.

(** ** The batch *)

Section BatchExtras.

Import App.

(** The loop of the batch over the files numbered from [start]: the entries
    and the writes it adds, and the fields of the progress it keeps. *)
Lemma process_step_ok (env : Env) (st : State)
    (processed : list ProcessedFile.t) (i : Z) (f : string)
    (json_data : DocumentIndex.t) :
  process_path env (path_join PDFS_FOLDER f) = Py.Ok json_data ->
  process_step env (st, processed) (i, f)
  = ({| progress :=
          set_processed_files (set_current_file (progress st) f) (i + 1);
        written :=
          written st
          ++ [(path_join JSON_FOLDER (replace ".pdf" ".json" f), json_data)] |},
     processed ++ [entry_of_file f]).
Proof. intros H. unfold process_step. now rewrite H. Qed.

Lemma process_step_raise (env : Env) (st : State)
    (processed : list ProcessedFile.t) (i : Z) (f : string) (e : Py.exn) :
  process_path env (path_join PDFS_FOLDER f) = Py.Raise e ->
  process_step env (st, processed) (i, f)
  = ({| progress := set_current_file (progress st) f;
        written := written st |},
     processed).
Proof. intros H. unfold process_step. now rewrite H. Qed.

Lemma process_fold (env : Env) (pdf_files : list string) (start : nat)
    (st : State) (processed : list ProcessedFile.t) :
  let result :=
    fold_left (process_step env)
      (combine (map Z.of_nat (seq start (List.length pdf_files))) pdf_files)
      (st, processed) in
  snd result
  = processed ++ map entry_of_file (filter (succeeds env) pdf_files)
  /\ written (fst result) = written st ++ writes_of env pdf_files
  /\ Progress.total_files (progress (fst result))
     = Progress.total_files (progress st)
  /\ Progress.is_processing (progress (fst result))
     = Progress.is_processing (progress st)
  /\ Progress.status (progress (fst result)) = Progress.status (progress st).
Proof.
  revert start st processed.
  induction pdf_files as [|f rest IH]; intros start st processed.
  - cbn. rewrite !app_nil_r. repeat split.
  - cbv zeta. cbn [List.length seq map combine fold_left].
    unfold succeeds, writes_of. cbn [filter flat_map].
    fold (writes_of env rest). fold (succeeds env).
    destruct (process_path env (path_join PDFS_FOLDER f))
      as [json_data|e] eqn:Hf.
    + rewrite (process_step_ok _ _ _ _ _ _ Hf).
      match goal with
      | |- context [fold_left _ _ (?s, ?p)] =>
          destruct (IH (S start) s p) as (H1 & H2 & H3 & H4 & H5)
      end.
      rewrite H1, H2, H3, H4, H5. cbn [written progress map].
      rewrite <- !app_assoc. repeat split.
    + rewrite (process_step_raise _ _ _ _ _ _ Hf).
      match goal with
      | |- context [fold_left _ _ (?s, ?p)] =>
          destruct (IH (S start) s p) as (H1 & H2 & H3 & H4 & H5)
      end.
      rewrite H1, H2, H3, H4, H5. repeat split.
Qed.

(** X28.  A file that cannot be processed does not stop the batch: for a
    folder with at least one PDF file the response lists, in the order of
    the listing, the files that are processed without error, and one record
    is written for each of them, after the files already there. *)
Theorem batch_skips_failures (env : Env) (pdfs : Folder) (st : State) :
  get_uploaded_pdfs pdfs <> [] ->
  snd (process_files env pdfs st)
  = Completed
      (map entry_of_file
         (filter (succeeds env) (get_uploaded_pdfs pdfs)))
  /\ written (fst (process_files env pdfs st))
     = written st ++ writes_of env (get_uploaded_pdfs pdfs).
Proof.
  intros Hne. unfold process_files.
  destruct (get_uploaded_pdfs pdfs) as [|f rest] eqn:Hfiles;
    [contradiction|].
  pose proof (process_fold env (f :: rest) 0
                {| progress :=
                     {| Progress.is_processing := true;
                        Progress.total_files :=
                          Z.of_nat (List.length (f :: rest));
                        Progress.processed_files := 0;
                        Progress.current_file := "";
                        Progress.status := "processing" |};
                   written := written st |} []) as H.
  cbv zeta in H. unfold Py.enumerate.
  destruct (fold_left _ _ _) as [st' processed].
  destruct H as (H1 & H2 & _). cbn [fst snd] in *.
  rewrite H1, H2. split; reflexivity.
Qed.

Lemma batch_skips_failures_witness :
  snd (process_files AppSamples.env AppSamples.pdfs AppSamples.idle)
  = Completed
      [ {| ProcessedFile.original_file := "report.pdf";
           ProcessedFile.json_file := "report.json" |};
        {| ProcessedFile.original_file := "two.pdf";
           ProcessedFile.json_file := "two.json" |} ]
  /\ map fst
       (written (fst (process_files AppSamples.env AppSamples.pdfs
                        AppSamples.idle)))
     = ["json/report.json"; "json/two.json"].
Proof.
  destruct (batch_skips_failures AppSamples.env AppSamples.pdfs
              AppSamples.idle) as [H1 H2].
  - vm_compute. discriminate.
  - rewrite H1, H2. split; vm_compute; reflexivity.
Defined.

(** The counter of the progress after the loop over the files numbered
    from [start]. *)
Lemma process_fold_counter (env : Env) (pdf_files : list string)
    (start : nat) (st : State) (processed : list ProcessedFile.t) :
  Progress.processed_files (progress st) <= Z.of_nat start ->
  let counter :=
    Progress.processed_files
      (progress
         (fst (fold_left (process_step env)
                 (combine (map Z.of_nat (seq start (List.length pdf_files)))
                    pdf_files)
                 (st, processed)))) in
  Progress.processed_files (progress st)
  + Z.of_nat (List.length (filter (succeeds env) pdf_files))
  <= counter
  /\ counter <= Z.of_nat (start + List.length pdf_files)
  /\ (pdf_files <> [] -> succeeds env (last pdf_files "") = true ->
      counter = Z.of_nat (start + List.length pdf_files)).
Proof.
  revert start st processed.
  induction pdf_files as [|f rest IH]; intros start st processed Hc.
  - cbn. repeat split; try lia. intros H. contradiction.
  - cbv zeta. cbn [List.length seq map combine fold_left filter].
    destruct (process_path env (path_join PDFS_FOLDER f))
      as [json_data|e] eqn:Hf.
    + rewrite (process_step_ok _ _ _ _ _ _ Hf).
      assert (Hs : succeeds env f = true) by (unfold succeeds; now rewrite Hf).
      rewrite Hs. cbn [List.length].
      match goal with
      | |- context [fold_left _ _ (?s, ?p)] =>
          destruct (IH (S start) s p) as (H1 & H2 & H3);
            [cbn; lia|]
      end.
      cbn [progress set_processed_files Progress.processed_files] in H1.
      repeat split; try lia.
      intros _ Hlast. destruct rest as [|g rest'].
      * cbn. lia.
      * rewrite H3; [lia|discriminate|exact Hlast].
    + rewrite (process_step_raise _ _ _ _ _ _ Hf).
      assert (Hs : succeeds env f = false)
        by (unfold succeeds; now rewrite Hf).
      rewrite Hs.
      match goal with
      | |- context [fold_left _ _ (?s, ?p)] =>
          destruct (IH (S start) s p) as (H1 & H2 & H3);
            [cbn; lia|]
      end.
      cbn [progress set_current_file Progress.processed_files] in H1.
      repeat split; try lia.
      intros _ Hlast. destruct rest as [|g rest'].
      * cbn in Hlast. congruence.
      * rewrite H3; [lia|discriminate|exact Hlast].
Qed.

(** X29.  After a batch over a folder with at least one PDF file, the
    progress is "completed" with no current file and the number of listed
    files as total; its counter of processed files is at least the number of
    files processed without error, at most the total, and equal to the total
    as soon as the last file of the listing is processed without error,
    whatever happened to the files before it. *)
Theorem batch_progress (env : Env) (pdfs : Folder) (st : State) :
  get_uploaded_pdfs pdfs <> [] ->
  let pdf_files := get_uploaded_pdfs pdfs in
  let p := progress (fst (process_files env pdfs st)) in
  Progress.status p = "completed"
  /\ Progress.is_processing p = false
  /\ Progress.current_file p = ""
  /\ Progress.total_files p = Z.of_nat (List.length pdf_files)
  /\ Z.of_nat (List.length (filter (succeeds env) pdf_files))
     <= Progress.processed_files p <= Progress.total_files p
  /\ (succeeds env (last pdf_files "") = true ->
      Progress.processed_files p = Progress.total_files p).
Proof.
  intros Hne. cbv zeta. unfold process_files.
  destruct (get_uploaded_pdfs pdfs) as [|f rest] eqn:Hfiles;
    [contradiction|].
  set (started := {| progress :=
                       {| Progress.is_processing := true;
                          Progress.total_files :=
                            Z.of_nat (List.length (f :: rest));
                          Progress.processed_files := 0;
                          Progress.current_file := "";
                          Progress.status := "processing" |};
                     written := written st |}).
  pose proof (process_fold env (f :: rest) 0 started []) as H.
  pose proof (process_fold_counter env (f :: rest) 0 started []) as Hc.
  cbv zeta in H, Hc. unfold Py.enumerate.
  destruct (fold_left _ _ _) as [st' processed].
  destruct H as (_ & _ & Ht & _). cbn [fst snd progress] in *.
  destruct Hc as (H1 & H2 & H3); [cbn; lia|].
  cbn [Progress.status Progress.is_processing Progress.current_file
       Progress.total_files Progress.processed_files].
  rewrite Ht. cbn [started progress Progress.total_files
                   Progress.processed_files] in *.
  repeat split; try lia.
  intros Hlast. rewrite H3; [lia|discriminate|exact Hlast].
Qed.

Lemma batch_progress_witness :
  let p := progress (fst (process_files AppSamples.env AppSamples.pdfs
                            AppSamples.idle)) in
  List.length (filter (succeeds AppSamples.env)
                 (get_uploaded_pdfs AppSamples.pdfs)) = 2%nat
  /\ Progress.processed_files p = 3
  /\ Progress.total_files p = 3
  /\ Progress.status p = "completed".
Proof.
  cbv zeta.
  destruct (batch_progress AppSamples.env AppSamples.pdfs AppSamples.idle)
    as (Hs & _ & _ & Ht & _ & Hlast).
  - vm_compute. discriminate.
  - split; [vm_compute; reflexivity|].
    split; [|split; [|exact Hs]].
    + rewrite Hlast; [|vm_compute; reflexivity].
      rewrite Ht. vm_compute. reflexivity.
    + rewrite Ht. vm_compute. reflexivity.
Defined.

End BatchExtras.

(** ** The texts of the features *)

Section TextExtras.

Import PDFProcessor Reference ClassifierReference.

Lemma has_nonspace_app (a b : string) :
  has_nonspace (a ++ b) = has_nonspace a || has_nonspace b.
Proof.
  induction a as [|c a IH]; [reflexivity|].
  cbn [String.append has_nonspace]. now rewrite IH, orb_assoc.
Qed.

Lemma truthy_lstrip (s : string) :
  Py.truthy (Py.lstrip s) = has_nonspace s.
Proof.
  induction s as [|c s IH]; [reflexivity|].
  cbn [Py.lstrip has_nonspace]. destruct (Py.is_space c); [exact IH|].
  reflexivity.
Qed.

Lemma has_nonspace_rstrip (s : string) :
  has_nonspace (Py.rstrip s) = has_nonspace s.
Proof.
  induction s as [|c s IH]; [reflexivity|].
  cbn [Py.rstrip has_nonspace]. rewrite <- IH.
  destruct (Py.rstrip s) as [|d r].
  - destruct (Py.is_space c) eqn:Hc; cbn [has_nonspace]; rewrite ?Hc;
      reflexivity.
  - reflexivity.
Qed.

Lemma truthy_strip (s : string) : Py.truthy (Py.strip s) = has_nonspace s.
Proof.
  unfold Py.strip. now rewrite truthy_lstrip, has_nonspace_rstrip.
Qed.

Lemma has_nonspace_strip (s : string) :
  has_nonspace (Py.strip s) = has_nonspace s.
Proof. now rewrite <- !truthy_strip, strip_idem. Qed.

Lemma has_nonspace_join (parts : list string) :
  has_nonspace (Py.join "" parts) = existsb has_nonspace parts.
Proof.
  induction parts as [|p [|q parts] IH]; [reflexivity| |].
  - cbn. now rewrite orb_false_r.
  - change (Py.join "" (p :: q :: parts))
      with (p ++ "" ++ Py.join "" (q :: parts))%string.
    cbn [String.append]. rewrite has_nonspace_app, IH. reflexivity.
Qed.

Lemma smart_join_fold (ils : list (Z * string)) (joined : list string) :
  existsb has_nonspace (fold_left smart_join_step ils joined)
  = existsb has_nonspace joined
    || existsb (fun il => has_nonspace (snd il)) ils.
Proof.
  revert joined. induction ils as [|[i line] ils IH]; intros joined.
  - cbn. now rewrite orb_false_r.
  - cbn [fold_left existsb snd]. rewrite IH. unfold smart_join_step.
    destruct (i =? 0);
      [|destruct (Py.endswith_char (last joined "") " "
                  || Py.startswith line " ")];
      rewrite existsb_app; cbn [existsb]; rewrite ?orb_false_r, ?orb_assoc;
      reflexivity.
Qed.

Lemma existsb_compose {A B : Type} (f : A -> B) (p : B -> bool)
    (l : list A) :
  existsb (fun x => p (f x)) l = existsb p (map f l).
Proof.
  induction l as [|x l IH]; simpl; [reflexivity|now rewrite IH].
Qed.

(** A join of lines one of which is not blank is not empty. *)
Lemma smart_join_lines_nonspace (lines : list string) :
  existsb has_nonspace lines = true ->
  has_nonspace (smart_join_lines lines) = true.
Proof.
  intros H. unfold smart_join_lines.
  rewrite has_nonspace_strip, has_nonspace_join, smart_join_fold.
  cbn [existsb orb].
  now rewrite (existsb_compose snd has_nonspace), map_snd_enumerate.
Qed.

Lemma split_from_truthy (s cur : string) :
  Py.truthy cur = true -> Py.split_from s cur <> [].
Proof.
  revert cur. induction s as [|c s IH]; intros cur Hc; cbn [Py.split_from].
  - rewrite Hc. discriminate.
  - destruct (Py.is_space c); [rewrite Hc; discriminate|].
    apply IH. destruct cur; reflexivity.
Qed.

Lemma split_from_nonspace (s cur : string) :
  has_nonspace s = true -> Py.split_from s cur <> [].
Proof.
  revert cur. induction s as [|c s IH]; intros cur H; [discriminate|].
  cbn [has_nonspace] in H. cbn [Py.split_from].
  destruct (Py.is_space c); cbn [negb orb] in H.
  - destruct (Py.truthy cur); [discriminate|now apply IH].
  - apply split_from_truthy. destruct cur; reflexivity.
Qed.

Lemma scan_block_text (page_num : Z) (page : Page.t) (m : Q)
    (ib : Z * Block.t) (bd : BlockData.t) :
  scan_block page_num page m ib = Py.Ok (Some bd) ->
  has_nonspace (BlockData.text bd) = true
  /\ Py.strip (BlockData.text bd) = BlockData.text bd.
Proof.
  destruct ib as [i b]. unfold scan_block.
  destruct (negb (Block.type b =? 0)); [discriminate|].
  destruct (is_table_block b); [discriminate|].
  rewrite scan_lines_spec.
  destruct (map text_line (filter nonblank (Block.lines b)))
    as [|l ls] eqn:Hl; [discriminate|].
  intros H. bind_inv H line0 H0. bind_inv H span0 H1.
  injection H as <-. cbn [BlockData.text]. split.
  - apply smart_join_lines_nonspace. rewrite <- Hl.
    rewrite <- existsb_compose.
    destruct (filter nonblank (Block.lines b)) as [|x xs] eqn:Hf;
      [discriminate|].
    assert (Hx : In x (filter nonblank (Block.lines b)))
      by (rewrite Hf; now left).
    apply filter_In in Hx. destruct Hx as [_ Hx].
    unfold nonblank in Hx. rewrite truthy_strip in Hx.
    cbn [existsb]. now rewrite Hx.
  - unfold smart_join_lines. apply strip_idem.
Qed.

Lemma scan_page_text (ip : Z * Page.t) (tbs : list TextBlock.t) :
  scan_page ip = Py.Ok tbs ->
  Forall (fun tb =>
            has_nonspace (BlockData.text (TextBlock.data tb)) = true
            /\ Py.strip (BlockData.text (TextBlock.data tb))
               = BlockData.text (TextBlock.data tb)) tbs.
Proof.
  destruct ip as [n page]. unfold scan_page. intros H.
  bind_inv H scanned Hs. injection H as <-.
  apply mapM_Forall2 in Hs.
  apply Forall_forall. intros tb Htb.
  apply (in_map TextBlock.data) in Htb. rewrite add_spacing_data in Htb.
  unfold keep_some in Htb. apply in_flat_map in Htb.
  destruct Htb as ([bd|] & Hin & Hbd); [|contradiction].
  destruct Hbd as [<-|[]].
  clear - Hs Hin. induction Hs as [|ib o ibs scanned Hb _ IH];
    [contradiction|].
  destruct Hin as [->|Hin]; [|now apply IH].
  eapply scan_block_text. exact Hb.
Qed.

Lemma derive_features_text (self : t) (m : Q) (tb : TextBlock.t)
    (f : Feature.t) :
  derive_features self m tb = Py.Ok f ->
  Feature.text f = BlockData.text (TextBlock.data tb)
  /\ Feature.num_words f
     = Z.of_nat (List.length
                   (Py.split (Py.strip (BlockData.text (TextBlock.data tb))))).
Proof.
  unfold derive_features. intros H.
  bind_inv H a1 H1. bind_inv H a2 H2. bind_inv H a3 H3. bind_inv H a4 H4.
  bind_inv H a5 H5. bind_inv H a6 H6. bind_inv H a7 H7. bind_inv H a8 H8.
  injection H as <-. split; reflexivity.
Qed.

(** X30.  Every feature has a text that is not empty, has no leading or
    trailing whitespace, and counts at least one word. *)
Theorem features_have_words (self : t) (doc : Document)
    (features : list Feature.t) :
  extract_features_from_pdf self doc = Py.Ok features ->
  Forall (fun f => Feature.text f <> ""
                   /\ Py.strip (Feature.text f) = Feature.text f
                   /\ 1 <= Feature.num_words f)
    features.
Proof.
  unfold extract_features_from_pdf, all_text_blocks_raw. intros H.
  bind_inv H raw Hraw. bind_inv Hraw per_page Hp. injection Hraw as <-.
  assert (Hall : Forall (fun tb =>
                    has_nonspace (BlockData.text (TextBlock.data tb)) = true
                    /\ Py.strip (BlockData.text (TextBlock.data tb))
                       = BlockData.text (TextBlock.data tb))
                   (List.concat per_page)).
  { apply mapM_Forall2 in Hp. clear H.
    induction Hp as [|ip tbs ips per_page Hip _ IH]; [constructor|].
    cbn [List.concat]. apply Forall_app. split; [|exact IH].
    eapply scan_page_text. exact Hip. }
  apply mapM_Forall2 in H. revert H Hall.
  generalize (List.concat per_page) as blocks. intros blocks H.
  induction H as [|tb f bs fs Hf _ IH]; intros Hall; constructor.
  - apply Forall_inv in Hall. destruct Hall as [Hns Hst].
    apply derive_features_text in Hf. destruct Hf as [-> ->].
    split; [|split; [exact Hst|]].
    + intros E. rewrite E in Hns. discriminate Hns.
    + rewrite Hst.
      pose proof (split_from_nonspace _ "" Hns) as Hsplit.
      unfold Py.split.
      destruct (Py.split_from (BlockData.text (TextBlock.data tb)) "");
        [contradiction|]. cbn [List.length]. lia.
  - apply IH. now apply Forall_inv_tail in Hall.
Qed.

Lemma features_have_words_witness :
  exists features,
    extract_features_from_pdf Samples.processor_without_model
      Samples.report = Py.Ok features
    /\ map Feature.num_words features = [3; 1; 5]
    /\ Forall (fun f => Feature.text f <> ""
                        /\ Py.strip (Feature.text f) = Feature.text f
                        /\ 1 <= Feature.num_words f)
         features.
Proof.
  eexists. split; [vm_compute; reflexivity|].
  split; [vm_compute; reflexivity|].
  apply (features_have_words Samples.processor_without_model Samples.report).
  vm_compute. reflexivity.
Defined.

End TextExtras.
